(** * Bytus dashboard: session-guarded data synchronisation

  A shallow embedding of the four dashboard pages of the Bytus client
  (Transactions, ApiKeys, Settings, Treasury).  Every React component is
  modelled as a transition system: the [useState] cells form a record, an
  [async] handler is split at each [await] into the part that runs up to
  the call and the part that resumes on the response, and the network is a
  finite map of requests still in flight, so that responses may arrive in
  any order. *)

From Stdlib Require Import ZArith String Ascii List Bool Lia.
From Stdlib Require Import Floats.SpecFloat DecimalString.
From stdpp Require Import base option list gmap strings.
Import ListNotations.

Local Open Scope string_scope.
Local Open Scope Z_scope.

(** ** JavaScript values shared by the pages *)

Module Js.

(** [hay.includes(needle)] *)
Fixpoint includes (needle hay : string) : bool :=
  String.prefix needle hay ||
  match hay with
  | EmptyString => false
  | String _ rest => includes needle rest
  end.

(** Truthiness of a string: only the empty string is falsy. *)
Definition truthy (s : string) : bool := negb (String.eqb s "").

(** A caught exception [err: any]; [message] may be undefined. *)
Record Error := mkError { message : option string }.

(** [err.message?.includes("401") || err.message?.includes("Unauthorized")] *)
Definition unauthorized (err : Error) : bool :=
  match message err with
  | Some m => includes "401" m || includes "Unauthorized" m
  | None => false
  end.

(** [err.message || fallback] *)
Definition messageOr (err : Error) (fallback : string) : string :=
  match message err with
  | Some m => if truthy m then m else fallback
  | None => fallback
  end.

(** [window.localStorage]: string keys to string values. *)
Abbreviation Storage := (gmap string string).

Definition removeItem (k : string) (st : Storage) : Storage := delete k st.

(** The two [removeItem] calls every load handler makes on a 401. *)
Definition clearSession (st : Storage) : Storage :=
  removeItem "user" (removeItem "auth_token" st).

(** A toast shown through [useToast]. *)
Record Toast := mkToast {
  title : string;
  description : string;
  destructive : bool
}.

(** A string is held as the bytes of its UTF-8 encoding. *)
Definition bytes (codes : list nat) : string :=
  fold_right (fun n s => String (ascii_of_nat n) s) EmptyString codes.

(** The WhiteSpace and LineTerminator characters of ECMAScript, which
    [trim] and [parseFloat] strip: U+0009 to U+000D, U+0020, U+00A0,
    U+1680, U+2000 to U+200A, U+2028, U+2029, U+202F, U+205F, U+3000 and
    U+FEFF. *)
Definition whiteSpace : list string :=
  map bytes
    ([ [9]; [10]; [11]; [12]; [13]; [32];
      [194; 160];
      [225; 154; 128];
      [226; 128; 128]; [226; 128; 129]; [226; 128; 130]; [226; 128; 131];
      [226; 128; 132]; [226; 128; 133]; [226; 128; 134]; [226; 128; 135];
      [226; 128; 136]; [226; 128; 137]; [226; 128; 138];
      [226; 128; 168]; [226; 128; 169]; [226; 128; 175];
      [226; 129; 159];
      [227; 128; 128];
      [239; 187; 191] ])%nat.

Fixpoint skip (n : nat) (s : string) : string :=
  match n, s with
  | S n, String _ rest => skip n rest
  | _, _ => s
  end.

(** What follows the white space character at the head of [s], when [s]
    starts with one. *)
Definition afterSpace (s : string) : option string :=
  match List.find (fun w => String.prefix w s) whiteSpace with
  | Some w => Some (skip (String.length w) s)
  | None => None
  end.

(** At most [fuel] white space characters are taken off the head of [s];
    a string has no more of them than it has bytes. *)
Fixpoint trimStartFrom (fuel : nat) (s : string) : string :=
  match fuel with
  | S fuel =>
      match afterSpace s with
      | Some rest => trimStartFrom fuel rest
      | None => s
      end
  | O => s
  end.

(** [s.trimStart()] *)
Definition trimStart (s : string) : string := trimStartFrom (String.length s) s.

(** A string made of white space only, the empty string included. *)
Definition blank (s : string) : bool := String.eqb (trimStart s) "".

(** [s.trimEnd()]: everything from the point on where only white space is
    left is dropped. *)
Fixpoint trimEnd (s : string) : string :=
  match s with
  | String c rest => if blank s then EmptyString else String c (trimEnd rest)
  | EmptyString => EmptyString
  end.

(** [s.trim()] *)
Definition trim (s : string) : string := trimEnd (trimStart s).

End Js.

(** ** Transactions page *)

Module Transactions.
Import Js.

Record Transaction := mkTransaction {
  id : string;
  tx_type : string;
  amount : string;
  currency : string;
  status : string;
  created_at : string;
  customer_email : option string
}.

(** The [useState] cells of the component. *)
Record Hooks := mkHooks {
  transactions : list Transaction;
  loading : bool;
  error : option string;
  search : string;
  filter : string;
  page : Z;
  total : Z
}.

Definition setTransactions v h :=
  mkHooks v (loading h) (error h) (search h) (filter h) (page h) (total h).
Definition setLoading v h :=
  mkHooks (transactions h) v (error h) (search h) (filter h) (page h) (total h).
Definition setError v h :=
  mkHooks (transactions h) (loading h) v (search h) (filter h) (page h) (total h).
Definition setSearch v h :=
  mkHooks (transactions h) (loading h) (error h) v (filter h) (page h) (total h).
Definition setFilter v h :=
  mkHooks (transactions h) (loading h) (error h) (search h) v (page h) (total h).
Definition setPage v h :=
  mkHooks (transactions h) (loading h) (error h) (search h) (filter h) v (total h).
Definition setTotal v h :=
  mkHooks (transactions h) (loading h) (error h) (search h) (filter h) (page h) v.

(** The [params] object handed to [api.getTransactions]. *)
Record Params := mkParams {
  p_page : Z;
  p_limit : Z;
  p_search : option string;
  p_filter : option string
}.

Record Data := mkData {
  d_transactions : list Transaction;
  d_total : Z
}.

Inductive Response :=
| Resolved (data : Data)
| Rejected (err : Error).

(** The component together with what it can touch: the browser storage,
    the router location, the requests awaiting a response (keyed by their
    issue number) and the log of every request issued so far. *)
Record World := mkWorld {
  hooks : Hooks;
  localStorage : Storage;
  location : string;
  pending : gmap nat Params;
  issued : list Params
}.

Definition withHooks (f : Hooks -> Hooks) (w : World) : World :=
  mkWorld (f (hooks w)) (localStorage w) (location w) (pending w) (issued w).

Definition initialHooks : Hooks := mkHooks [] true None "" "all" 1 0.

Definition initial (st : Storage) (loc : string) : World :=
  mkWorld initialHooks st loc ∅ [].

(** [api.getTransactions(params)]: the request gets the next issue number. *)
Definition getTransactions (params : Params) (w : World) : World :=
  mkWorld (hooks w) (localStorage w) (location w)
          (<[List.length (issued w) := params]> (pending w))
          (issued w ++ [params]).

(** [const params: any = { page, limit: 10 }] and the two conditional
    fields, read from the closure of the render that created the function. *)
Definition buildParams (closure : Hooks) : Params :=
  mkParams (page closure) 10
           (if truthy (search closure) then Some (search closure) else None)
           (if String.eqb (filter closure) "all" then None
            else Some (filter closure)).

(** [loadTransactions] up to its [await]. *)
Definition loadTransactions (closure : Hooks) (w : World) : World :=
  let w := withHooks (setLoading true) w in
  let w := withHooks (setError None) w in
  getTransactions (buildParams closure) w.

(** [loadTransactions] from its [await] on. *)
Definition loadTransactions_resume (r : Response) (w : World) : World :=
  let w :=
    match r with
    | Resolved data =>
        let w := withHooks (setTransactions (d_transactions data)) w in
        withHooks (setTotal (d_total data)) w
    | Rejected err =>
        if unauthorized err then
          mkWorld (hooks w) (clearSession (localStorage w)) "/login"
                  (pending w) (issued w)
        else
          withHooks
            (setError (Some (messageOr err "Failed to load transactions"))) w
    end in
  withHooks (setLoading false) w.

(** [handleSearch]: [setPage(1)] then [loadTransactions()] of the same
    render, whose closure still holds the page shown at the time. *)
Definition handleSearch (w : World) : World :=
  loadTransactions (hooks w) (withHooks (setPage 1) w).

(** What the card shows below the search bar. *)
Inductive View :=
| ViewLoading
| ViewError (msg : string)
| ViewEmpty
| ViewTable.

Definition render (h : Hooks) : View :=
  if loading h then ViewLoading
  else
    match error h with
    | Some msg =>
        if truthy msg then ViewError msg
        else if Nat.eqb (List.length (transactions h)) 0 then ViewEmpty
             else ViewTable
    | None =>
        if Nat.eqb (List.length (transactions h)) 0 then ViewEmpty
        else ViewTable
    end.

Definition isTable (v : View) : bool :=
  match v with ViewTable => true | _ => false end.
Definition isError (v : View) : bool :=
  match v with ViewError _ => true | _ => false end.

(** The pagination buttons exist only in the table view. *)
Definition previousEnabled (h : Hooks) : bool :=
  isTable (render h) && negb (page h =? 1).
Definition nextEnabled (h : Hooks) : bool :=
  isTable (render h) && negb (Nat.ltb (List.length (transactions h)) 10).

Inductive Event :=
| Mount
| TypeSearch (text : string)
| KeyDown (key : string)
| ClickSearch
| SelectFilter (value : string)
| ClickPrevious
| ClickNext
| ClickRetry
| Respond (rid : nat) (r : Response).

(** The handler an event runs, before React re-renders. *)
Definition handle (e : Event) (w : World) : World :=
  match e with
  | Mount => loadTransactions (hooks w) w
  | TypeSearch text => withHooks (setSearch text) w
  | KeyDown key => if String.eqb key "Enter" then handleSearch w else w
  | ClickSearch => handleSearch w
  | SelectFilter value => withHooks (setFilter value) w
  | ClickPrevious =>
      if previousEnabled (hooks w)
      then withHooks (fun h => setPage (Z.max 1 (page h - 1)) h) w
      else w
  | ClickNext =>
      if nextEnabled (hooks w)
      then withHooks (fun h => setPage (page h + 1) h) w
      else w
  | ClickRetry =>
      if isError (render (hooks w)) then loadTransactions (hooks w) w else w
  | Respond rid r =>
      match pending w !! rid with
      | Some _ =>
          loadTransactions_resume r
            (mkWorld (hooks w) (localStorage w) (location w)
                     (delete rid (pending w)) (issued w))
      | None => w
      end
  end.

(** [useEffect(() => { loadTransactions(); }, [page, filter])]: after the
    re-render the effect runs when a dependency differs from the one of the
    previous render, with the closure of the new render. *)
Definition depsChanged (old new : Hooks) : bool :=
  negb (page old =? page new) || negb (String.eqb (filter old) (filter new)).

Definition runEffect (old : Hooks) (w : World) : World :=
  if depsChanged old (hooks w) then loadTransactions (hooks w) w else w.

Definition dispatch (e : Event) (w : World) : World :=
  runEffect (hooks w) (handle e w).

Definition run (es : list Event) (w : World) : World :=
  fold_left (fun w e => dispatch e w) es w.

(** The requests an event adds to the log. *)
Definition newRequests (before after : World) : list Params :=
  drop (List.length (issued before)) (issued after).

End Transactions.

(** ** ApiKeys page *)

Module ApiKeys.
Import Js.

Record ApiKey := mkApiKey {
  id : string;
  name : string;
  key_prefix : string;
  created_at : string;
  last_used : option string;
  permissions : list string;
  status : string
}.

(** Modelled from the spec: the result type of [api.createApiKey], which
    is declared in [lib/api] and is not among the sources.  Section 6 gives
    it as the ApiKey fields together with [secret_key]; the page reads
    [result.secret_key] only. *)
Record CreatedKey := mkCreatedKey {
  summary : ApiKey;
  secret_key : string
}.

Record Hooks := mkHooks {
  keys : list ApiKey;
  loading : bool;
  error : option string;
  isCreateDialogOpen : bool;
  newKeyName : string;
  createdKey : option string;
  showCreatedKey : bool;
  creating : bool
}.

Definition setKeys v h :=
  mkHooks v (loading h) (error h) (isCreateDialogOpen h) (newKeyName h)
          (createdKey h) (showCreatedKey h) (creating h).
Definition setLoading v h :=
  mkHooks (keys h) v (error h) (isCreateDialogOpen h) (newKeyName h)
          (createdKey h) (showCreatedKey h) (creating h).
Definition setError v h :=
  mkHooks (keys h) (loading h) v (isCreateDialogOpen h) (newKeyName h)
          (createdKey h) (showCreatedKey h) (creating h).
Definition setIsCreateDialogOpen v h :=
  mkHooks (keys h) (loading h) (error h) v (newKeyName h)
          (createdKey h) (showCreatedKey h) (creating h).
Definition setNewKeyName v h :=
  mkHooks (keys h) (loading h) (error h) (isCreateDialogOpen h) v
          (createdKey h) (showCreatedKey h) (creating h).
Definition setCreatedKey v h :=
  mkHooks (keys h) (loading h) (error h) (isCreateDialogOpen h) (newKeyName h)
          v (showCreatedKey h) (creating h).
Definition setShowCreatedKey v h :=
  mkHooks (keys h) (loading h) (error h) (isCreateDialogOpen h) (newKeyName h)
          (createdKey h) v (creating h).
Definition setCreating v h :=
  mkHooks (keys h) (loading h) (error h) (isCreateDialogOpen h) (newKeyName h)
          (createdKey h) (showCreatedKey h) v.

(** The calls the page makes on the [api] object. *)
Inductive Call :=
| GetApiKeys
| CreateApiKey (keyName : string)
| DeleteApiKey (keyId : string).

(** Who awaits a running [loadApiKeys]. *)
Inductive Caller :=
| Standalone
| FromCreate
| FromDelete.

(** An [async] function suspended at its [await]. *)
Inductive Task :=
| AwaitGetApiKeys (caller : Caller)
| AwaitCreateApiKey
| AwaitDeleteApiKey.

Inductive Response :=
| ResolvedKeys (data : list ApiKey)
| ResolvedCreated (result : CreatedKey)
| ResolvedVoid
| Rejected (err : Error).

Record World := mkWorld {
  hooks : Hooks;
  localStorage : Storage;
  location : string;
  toasts : list Toast;
  clipboard : option string;
  pending : gmap nat Task;
  calls : list Call
}.

Definition withHooks (f : Hooks -> Hooks) (w : World) : World :=
  mkWorld (f (hooks w)) (localStorage w) (location w) (toasts w)
          (clipboard w) (pending w) (calls w).

Definition toast (t : Toast) (w : World) : World :=
  mkWorld (hooks w) (localStorage w) (location w) (toasts w ++ [t])
          (clipboard w) (pending w) (calls w).

(** A call on [api]: logged, and the calling function parked until the
    response with the same number arrives. *)
Definition call (c : Call) (t : Task) (w : World) : World :=
  mkWorld (hooks w) (localStorage w) (location w) (toasts w) (clipboard w)
          (<[List.length (calls w) := t]> (pending w)) (calls w ++ [c]).

Definition settle (rid : nat) (w : World) : World :=
  mkWorld (hooks w) (localStorage w) (location w) (toasts w) (clipboard w)
          (delete rid (pending w)) (calls w).

Definition initialHooks : Hooks :=
  mkHooks [] true None false "" None false false.

Definition initial (st : Storage) (loc : string) : World :=
  mkWorld initialHooks st loc [] None ∅ [].

(** [loadApiKeys] up to its [await]. *)
Definition loadApiKeys (caller : Caller) (w : World) : World :=
  let w := withHooks (setLoading true) w in
  let w := withHooks (setError None) w in
  call GetApiKeys (AwaitGetApiKeys caller) w.

(** The rest of the handler that awaited [loadApiKeys]; the load never
    throws, so this part always runs. *)
Definition afterLoad (caller : Caller) (w : World) : World :=
  match caller with
  | Standalone => w
  | FromCreate =>
      let w := toast (mkToast "Success" "API key created successfully" false) w in
      withHooks (setCreating false) w
  | FromDelete =>
      toast (mkToast "Success" "API key deleted successfully" false) w
  end.

(** [loadApiKeys] from its [await] on. *)
Definition loadApiKeys_resume (r : Response) (w : World) : World :=
  let w :=
    match r with
    | Rejected err =>
        if unauthorized err then
          mkWorld (hooks w) (clearSession (localStorage w)) "/login"
                  (toasts w) (clipboard w) (pending w) (calls w)
        else
          withHooks (setError (Some (messageOr err "Failed to load API keys"))) w
    | ResolvedKeys data => withHooks (setKeys data) w
    | _ => w
    end in
  withHooks (setLoading false) w.

(** [handleCreateKey] up to its [await]. *)
Definition handleCreateKey (w : World) : World :=
  if negb (truthy (trim (newKeyName (hooks w)))) then
    toast (mkToast "Error" "Please enter a key name" true) w
  else
    let w' := withHooks (setCreating true) w in
    call (CreateApiKey (trim (newKeyName (hooks w)))) AwaitCreateApiKey w'.

(** [handleCreateKey] from [await api.createApiKey] to [await loadApiKeys()],
    or through its [catch] and [finally]. *)
Definition handleCreateKey_resume (r : Response) (w : World) : World :=
  match r with
  | ResolvedCreated result =>
      let w := withHooks (setCreatedKey (Some (secret_key result))) w in
      let w := withHooks (setShowCreatedKey true) w in
      let w := withHooks (setNewKeyName "") w in
      loadApiKeys FromCreate w
  | Rejected err =>
      let w := toast (mkToast "Error" (messageOr err "Failed to create API key") true) w in
      withHooks (setCreating false) w
  | _ => w
  end.

(** [handleDeleteKey] up to its [await]; [confirmed] is what [confirm]
    returned. *)
Definition handleDeleteKey (keyId keyName : string) (confirmed : bool)
    (w : World) : World :=
  if negb confirmed then w
  else call (DeleteApiKey keyId) AwaitDeleteApiKey w.

Definition handleDeleteKey_resume (r : Response) (w : World) : World :=
  match r with
  | ResolvedVoid => loadApiKeys FromDelete w
  | Rejected err =>
      toast (mkToast "Error" (messageOr err "Failed to delete API key") true) w
  | _ => w
  end.

Definition copyToClipboard (text : string) (w : World) : World :=
  toast (mkToast "Copied" "API key copied to clipboard" false)
    (mkWorld (hooks w) (localStorage w) (location w) (toasts w) (Some text)
             (pending w) (calls w)).

Definition handleCloseCreatedKeyDialog (w : World) : World :=
  let w := withHooks (setShowCreatedKey false) w in
  let w := withHooks (setCreatedKey None) w in
  withHooks (setIsCreateDialogOpen false) w.

Inductive View :=
| ViewLoading
| ViewError (msg : string)
| ViewEmpty
| ViewList.

Definition render (h : Hooks) : View :=
  if loading h then ViewLoading
  else
    match error h with
    | Some msg =>
        if truthy msg then ViewError msg
        else if Nat.eqb (List.length (keys h)) 0 then ViewEmpty else ViewList
    | None =>
        if Nat.eqb (List.length (keys h)) 0 then ViewEmpty else ViewList
    end.

(** What the reveal dialog shows: [{createdKey}] while it is open. *)
Definition revealed (h : Hooks) : option string :=
  if showCreatedKey h then createdKey h else None.

Inductive Event :=
| Mount
| SetCreateDialogOpen (open : bool)
| TypeKeyName (text : string)
| ClickCreateKey
| ClickCopy
| CloseCreatedKeyDialog
| ClickDelete (index : nat) (confirmed : bool)
| ClickRetry
| Respond (rid : nat) (r : Response).

(** A response resumes the function parked under its number; a payload of
    another call's type cannot reach it. *)
Definition resume (t : Task) (r : Response) (w : World) : World :=
  match t, r with
  | AwaitGetApiKeys caller, (ResolvedKeys _ | Rejected _) =>
      afterLoad caller (loadApiKeys_resume r w)
  | AwaitCreateApiKey, (ResolvedCreated _ | Rejected _) =>
      handleCreateKey_resume r w
  | AwaitDeleteApiKey, (ResolvedVoid | Rejected _) =>
      handleDeleteKey_resume r w
  | _, _ => w
  end.

Definition wellTyped (t : Task) (r : Response) : bool :=
  match t, r with
  | AwaitGetApiKeys _, (ResolvedKeys _ | Rejected _)
  | AwaitCreateApiKey, (ResolvedCreated _ | Rejected _)
  | AwaitDeleteApiKey, (ResolvedVoid | Rejected _) => true
  | _, _ => false
  end.

(** The only effect is [useEffect(..., [])], which runs on mount. *)
Definition dispatch (e : Event) (w : World) : World :=
  match e with
  | Mount => loadApiKeys Standalone w
  | SetCreateDialogOpen open => withHooks (setIsCreateDialogOpen open) w
  | TypeKeyName text =>
      if isCreateDialogOpen (hooks w) then withHooks (setNewKeyName text) w
      else w
  | ClickCreateKey =>
      if isCreateDialogOpen (hooks w) && negb (creating (hooks w))
      then handleCreateKey w else w
  | ClickCopy =>
      if showCreatedKey (hooks w) then
        match createdKey (hooks w) with
        | Some text => if truthy text then copyToClipboard text w else w
        | None => w
        end
      else w
  | CloseCreatedKeyDialog =>
      if showCreatedKey (hooks w) then handleCloseCreatedKeyDialog w else w
  | ClickDelete index confirmed =>
      match render (hooks w), keys (hooks w) !! index with
      | ViewList, Some key => handleDeleteKey (id key) (name key) confirmed w
      | _, _ => w
      end
  | ClickRetry =>
      match render (hooks w) with
      | ViewError _ => loadApiKeys Standalone w
      | _ => w
      end
  | Respond rid r =>
      match pending w !! rid with
      | Some t => if wellTyped t r then resume t r (settle rid w) else w
      | None => w
      end
  end.

Definition run (es : list Event) (w : World) : World :=
  fold_left (fun w e => dispatch e w) es w.

Definition newCalls (before after : World) : list Call :=
  drop (List.length (calls before)) (calls after).

End ApiKeys.

(** ** Settings page *)

Module Settings.
Import Js.

Record UserSettings := mkUserSettings {
  company_name : string;
  email : string;
  website : string;
  registration_number : string;
  kyc_status : string
}.

(** The object literal [handleSave] passes to [api.updateSettings]. *)
Record Update := mkUpdate {
  u_company_name : string;
  u_email : string;
  u_website : string
}.

Record Hooks := mkHooks {
  settings : UserSettings;
  loading : bool;
  saving : bool;
  error : option string
}.

Definition setSettings v h := mkHooks v (loading h) (saving h) (error h).
Definition setLoading v h := mkHooks (settings h) v (saving h) (error h).
Definition setSaving v h := mkHooks (settings h) (loading h) v (error h).
Definition setError v h := mkHooks (settings h) (loading h) (saving h) v.

Inductive Call :=
| GetSettings
| UpdateSettings (partial : Update).

Inductive Task :=
| AwaitGetSettings
| AwaitUpdateSettings.

(** Both calls resolve with a settings object; [handleSave] drops it. *)
Inductive Response :=
| Resolved (data : UserSettings)
| Rejected (err : Error).

Record World := mkWorld {
  hooks : Hooks;
  localStorage : Storage;
  location : string;
  toasts : list Toast;
  pending : gmap nat Task;
  calls : list Call
}.

Definition withHooks (f : Hooks -> Hooks) (w : World) : World :=
  mkWorld (f (hooks w)) (localStorage w) (location w) (toasts w)
          (pending w) (calls w).

Definition toast (t : Toast) (w : World) : World :=
  mkWorld (hooks w) (localStorage w) (location w) (toasts w ++ [t])
          (pending w) (calls w).

Definition call (c : Call) (t : Task) (w : World) : World :=
  mkWorld (hooks w) (localStorage w) (location w) (toasts w)
          (<[List.length (calls w) := t]> (pending w)) (calls w ++ [c]).

Definition settle (rid : nat) (w : World) : World :=
  mkWorld (hooks w) (localStorage w) (location w) (toasts w)
          (delete rid (pending w)) (calls w).

Definition initialHooks : Hooks :=
  mkHooks (mkUserSettings "" "" "" "" "pending") true false None.

Definition initial (st : Storage) (loc : string) : World :=
  mkWorld initialHooks st loc [] ∅ [].

(** [loadSettings] up to its [await]. *)
Definition loadSettings (w : World) : World :=
  let w := withHooks (setLoading true) w in
  let w := withHooks (setError None) w in
  call GetSettings AwaitGetSettings w.

(** [loadSettings] from its [await] on. *)
Definition loadSettings_resume (r : Response) (w : World) : World :=
  let w :=
    match r with
    | Resolved data => withHooks (setSettings data) w
    | Rejected err =>
        if unauthorized err then
          mkWorld (hooks w) (clearSession (localStorage w)) "/login"
                  (toasts w) (pending w) (calls w)
        else
          withHooks (setError (Some (messageOr err "Failed to load settings"))) w
    end in
  withHooks (setLoading false) w.

(** [handleSave] up to its [await]. *)
Definition handleSave (w : World) : World :=
  let s := settings (hooks w) in
  let w := withHooks (setSaving true) w in
  call (UpdateSettings (mkUpdate (company_name s) (email s) (website s)))
       AwaitUpdateSettings w.

(** [handleSave] from its [await] on. *)
Definition handleSave_resume (r : Response) (w : World) : World :=
  let w :=
    match r with
    | Resolved _ =>
        toast (mkToast "Success" "Settings updated successfully" false) w
    | Rejected err =>
        toast (mkToast "Error" (messageOr err "Failed to update settings") true) w
    end in
  withHooks (setSaving false) w.

Inductive View :=
| ViewLoading
| ViewError (msg : string)
| ViewForm.

Definition render (h : Hooks) : View :=
  if loading h then ViewLoading
  else
    match error h with
    | Some msg => if truthy msg then ViewError msg else ViewForm
    | None => ViewForm
    end.

Definition isForm (v : View) : bool :=
  match v with ViewForm => true | _ => false end.

Inductive Field := CompanyName | Email | Website.

(** [{ ...settings, field: value }] *)
Definition withField (f : Field) (v : string) (s : UserSettings) : UserSettings :=
  match f with
  | CompanyName =>
      mkUserSettings v (email s) (website s) (registration_number s) (kyc_status s)
  | Email =>
      mkUserSettings (company_name s) v (website s) (registration_number s)
                     (kyc_status s)
  | Website =>
      mkUserSettings (company_name s) (email s) v (registration_number s)
                     (kyc_status s)
  end.

Inductive Event :=
| Mount
| Edit (f : Field) (value : string)
| ClickSave
| ClickCancel
| ClickRetry
| Respond (rid : nat) (r : Response).

Definition dispatch (e : Event) (w : World) : World :=
  match e with
  | Mount => loadSettings w
  | Edit f value =>
      if isForm (render (hooks w))
      then withHooks (fun h => setSettings (withField f value (settings h)) h) w
      else w
  | ClickSave =>
      if isForm (render (hooks w)) && negb (saving (hooks w))
      then handleSave w else w
  | ClickCancel =>
      if isForm (render (hooks w)) then loadSettings w else w
  | ClickRetry =>
      match render (hooks w) with
      | ViewError _ => loadSettings w
      | _ => w
      end
  | Respond rid r =>
      match pending w !! rid with
      | Some AwaitGetSettings => loadSettings_resume r (settle rid w)
      | Some AwaitUpdateSettings => handleSave_resume r (settle rid w)
      | None => w
      end
  end.

Definition run (es : list Event) (w : World) : World :=
  fold_left (fun w e => dispatch e w) es w.

Definition newCalls (before after : World) : list Call :=
  drop (List.length (calls before)) (calls after).

End Settings.

(** ** Treasury page: the average APY card *)

Module Treasury.
Import Js.

(** A JavaScript Number is an IEEE 754 binary64 value. *)
Abbreviation number := spec_float.

Definition prec : Z := 53.
Definition emax : Z := 1024.

Definition add : number -> number -> number := SFadd prec emax.
Definition div : number -> number -> number := SFdiv prec emax.

Definition zero : number := S754_zero false.

(** The Number of a mathematical integer, rounded to nearest even. *)
Definition ofZ (n : Z) : number := binary_normalize prec emax n 0 false.

(** The Number closest to [m * 10^e]. *)
Definition ofDecimal (negative : bool) (m : Z) (e : Z) : number :=
  match m with
  | Zpos p =>
      if 0 <=? e then
        binary_normalize prec emax ((if negative then - m else m) * 10 ^ e) 0 false
      else
        div (S754_finite negative p 0)
            (S754_finite false (Z.to_pos (10 ^ (- e))) 0)
  | _ => S754_zero negative
  end.

Record TreasuryPosition := mkTreasuryPosition {
  name : string;
  protocol : string;
  balance : string;
  value : number;
  apy : string
}.

(** [s.replace(pattern, replacement)] with a string pattern: the first
    occurrence only. *)
Fixpoint replace (pattern replacement s : string) : string :=
  if String.prefix pattern s then
    replacement ++ String.substring (String.length pattern)
                     (String.length s - String.length pattern) s
  else
    match s with
    | String c rest => String c (replace pattern replacement rest)
    | EmptyString => EmptyString
    end.

Definition isDigit (c : ascii) : bool :=
  (48 <=? nat_of_ascii c)%nat && (nat_of_ascii c <=? 57)%nat.

(** The longest run of decimal digits at the head of [s], as the pair of
    their values and what follows. *)
Fixpoint spanDigits (s : string) : list Z * string :=
  match s with
  | String c rest =>
      if isDigit c then
        let '(ds, r) := spanDigits rest in
        (Z.of_nat (nat_of_ascii c - 48) :: ds, r)
      else ([], s)
  | EmptyString => ([], EmptyString)
  end.

Definition digitsValue (ds : list Z) : Z :=
  fold_left (fun acc d => 10 * acc + d) ds 0.

(** An optional sign at the head of [s]. *)
Definition spanSign (s : string) : bool * string :=
  match s with
  | String "-" rest => (true, rest)
  | String "+" rest => (false, rest)
  | _ => (false, s)
  end.

(** ExponentPart, taken only when at least one digit follows. *)
Definition exponentPart (s : string) : Z :=
  match s with
  | String c rest =>
      if Ascii.eqb c "e" || Ascii.eqb c "E" then
        let '(neg, r) := spanSign rest in
        match spanDigits r with
        | ([], _) => 0
        | (ds, _) => if neg then - digitsValue ds else digitsValue ds
        end
      else 0
  | EmptyString => 0
  end.

(** [parseFloat(s)]: leading white space is skipped, the longest prefix
    that is a StrDecimalLiteral is converted, and there being none gives
    NaN. *)
Definition parseFloat (s : string) : number :=
  let '(neg, r) := spanSign (trimStart s) in
  if String.prefix "Infinity" r then S754_infinity neg
  else
    let '(int, r1) := spanDigits r in
    let whole :=
      match int with
      | [] => S754_nan
      | _ => ofDecimal neg (digitsValue int) (exponentPart r1)
      end in
    match r1 with
    | String c r2 =>
        if Ascii.eqb c "." then
          let '(frac, r3) := spanDigits r2 in
          match int, frac with
          | [], [] => S754_nan
          | _, _ =>
              ofDecimal neg (digitsValue (int ++ frac))
                        (exponentPart r3 - Z.of_nat (List.length frac))
          end
        else whole
    | EmptyString => whole
    end.

(** Whether a StrDecimalLiteral can start at the head of [r], a sign having
    been taken off: the word Infinity, a digit, or a point before a digit. *)
Definition startsNumber (r : string) : bool :=
  String.prefix "Infinity" r ||
  match r with
  | String c rest =>
      isDigit c ||
      (Ascii.eqb c "." &&
       match rest with
       | String d _ => isDigit d
       | EmptyString => false
       end)
  | EmptyString => false
  end.

(** A string with no number at its head, such as "bad". *)
Definition malformed (s : string) : bool :=
  negb (startsNumber (snd (spanSign (trimStart s)))).

(** [x || 0]: NaN and both zeros are falsy. *)
Definition orZero (x : number) : number :=
  match x with
  | S754_nan | S754_zero _ => zero
  | _ => x
  end.

Definition parseAPY (apy : string) : number :=
  orZero (parseFloat (replace "%" "" apy)).

(** The decimal digits of a natural number. *)
Definition decimal (n : Z) : string :=
  NilZero.string_of_uint (N.to_uint (Z.to_N n)).

Fixpoint zeros (n : nat) : string :=
  match n with
  | O => EmptyString
  | S n => String "0" (zeros n)
  end.

(** The integer [n] with [n / 10^f] closest to [m * 2^e], the larger one
    on a tie. *)
Definition scaledNearest (f : nat) (m : positive) (e : Z) : Z :=
  let s := Zpos m * 10 ^ Z.of_nat f in
  if 0 <=? e then s * 2 ^ e
  else (2 * s + 2 ^ (- e)) / 2 ^ (- e + 1).

(** [x.toFixed(f)].  [None] stands for a magnitude of 10^21 or more, which
    JavaScript prints in exponential notation; that rendering is left out
    of this development. *)
Definition toFixed (f : nat) (x : number) : option string :=
  match x with
  | S754_nan => Some "NaN"
  | S754_infinity false => Some "Infinity"
  | S754_infinity true => Some "-Infinity"
  | S754_zero _ =>
      Some (if Nat.eqb f 0 then "0" else "0." ++ zeros f)
  | S754_finite neg m e =>
      if (0 <=? e) && (10 ^ 21 <=? Zpos m * 2 ^ e) then None
      else
        let digits := decimal (scaledNearest f m e) in
        let k := String.length digits in
        let digits := if (k <=? f)%nat then zeros (f + 1 - k) ++ digits else digits in
        let k := String.length digits in
        let a := String.substring 0 (k - f) digits in
        let b := String.substring (k - f) f digits in
        Some ((if neg then "-" else "") ++
              (if Nat.eqb f 0 then a else a ++ "." ++ b))
  end.

(** [positions.reduce((sum, p) => sum + parseAPY(p.apy), 0)] *)
Definition sumAPY (positions : list TreasuryPosition) : number :=
  fold_left (fun sum p => add sum (parseAPY (apy p))) positions zero.

(** The text of the Avg APY card before its percent sign. *)
Definition avgAPY (positions : list TreasuryPosition) : option string :=
  if (0 <? List.length positions)%nat then
    toFixed 2 (div (sumAPY positions) (ofZ (Z.of_nat (List.length positions))))
  else Some "0.00".

(** The APY string of a whole percentage, as the server sends it. *)
Definition wholePercent (n : nat) : string := decimal (Z.of_nat n) ++ "%".


Definition position (apy : string) : TreasuryPosition :=
  mkTreasuryPosition "" "" "" zero apy.


End Treasury.

(** ** Overlapping fetches on the Transactions page *)

Module Ordering.
Import Js Transactions.

(** What the table and the counter under it display. *)
Definition shown (w : World) : list Transaction * Z :=
  (transactions (hooks w), total (hooks w)).

Definition shows (d : Data) : list Transaction * Z :=
  (d_transactions d, d_total d).

(** The payload an event delivers to the component, if any: a resolved
    response to a request that is still in flight. *)
Definition delivered (e : Event) (w : World) : option (nat * Data) :=
  match e with
  | Respond rid (Resolved d) =>
      match pending w !! rid with
      | Some _ => Some (rid, d)
      | None => None
      end
  | _ => None
  end.

(** The resolved responses of a run, in order of arrival, each with the
    issue number of its request. *)
Fixpoint arrivals (es : list Event) (w : World) : list (nat * Data) :=
  match es with
  | [] => []
  | e :: es =>
      match delivered e w with
      | Some x => x :: arrivals es (dispatch e w)
      | None => arrivals es (dispatch e w)
      end
  end.

(** Among resolved responses, the one whose request was issued last. *)
Fixpoint latestIssued (l : list (nat * Data)) : option (nat * Data) :=
  match l with
  | [] => None
  | x :: l =>
      match latestIssued l with
      | Some y => if (fst x <? fst y)%nat then Some y else Some x
      | None => Some x
      end
  end.

(** The claim of the specification: the display belongs to the resolved
    request that was issued last. *)
Definition lastIssuedWins (es : list Event) (w : World) : Prop :=
  shown (run es w) =
  match latestIssued (arrivals es w) with
  | Some (_, d) => shows d
  | None => shown w
  end.

(** What the page does: the display belongs to the response that arrived
    last. *)
Definition lastArrivedWins (es : list Event) (w : World) : Prop :=
  shown (run es w) =
  match last (arrivals es w) with
  | Some (_, d) => shows d
  | None => shown w
  end.

End Ordering.

(** ** Sample data *)

Module Samples.
Import Js.

Definition session : Storage :=
  {[ "auth_token" := "eyJhbGciOi"; "user" := "{}" ]}.

Definition tx (i status : string) : Transactions.Transaction :=
  Transactions.mkTransaction i "payment" "12.50" "USD" status
    "2024-05-01T10:00:00Z" (Some "alice@example.com").

(** Page 1 of all transactions, and page 1 of the settled ones. *)
Definition allPage : Transactions.Data :=
  Transactions.mkData [tx "tx-1" "pending"; tx "tx-2" "settled"] 2.
Definition settledPage : Transactions.Data :=
  Transactions.mkData [tx "tx-2" "settled"] 1.

(** The first request is answered after the second one. *)
Definition staleTrace : list Transactions.Event :=
  [ Transactions.Mount;
    Transactions.SelectFilter "settled";
    Transactions.Respond 1 (Transactions.Resolved settledPage);
    Transactions.Respond 0 (Transactions.Resolved allPage) ].

Definition fresh : Transactions.World :=
  Transactions.initial session "/dashboard/transactions".

(** A full page of ten rows, and the page reached by pressing Next twice. *)
Definition fullPage : Transactions.Data :=
  Transactions.mkData
    (map (fun i => tx i "settled")
         ["a0"; "a1"; "a2"; "a3"; "a4"; "a5"; "a6"; "a7"; "a8"; "a9"]) 42.

Definition toPageThree : list Transactions.Event :=
  [ Transactions.Mount;
    Transactions.Respond 0 (Transactions.Resolved fullPage);
    Transactions.ClickNext;
    Transactions.Respond 1 (Transactions.Resolved fullPage);
    Transactions.ClickNext;
    Transactions.Respond 2 (Transactions.Resolved fullPage) ].

Definition onPageThree : Transactions.World :=
  Transactions.run toPageThree fresh.

Definition keyA : ApiKeys.ApiKey :=
  ApiKeys.mkApiKey "k-1" "Production Server" "bk_live_3f9a" "2024-04-02T08:00:00Z"
    None ["read"; "write"] "active".

Definition keyB : ApiKeys.ApiKey :=
  ApiKeys.mkApiKey "k-2" "Staging" "bk_test_77c0" "2024-05-01T10:00:00Z"
    None ["read"] "active".

Definition createdB : ApiKeys.CreatedKey :=
  ApiKeys.mkCreatedKey keyB "bk_test_77c0e1d2a3b4c5d6e7f8".

Definition freshKeys : ApiKeys.World :=
  ApiKeys.initial session "/dashboard/api-keys".

(** The page has loaded one key and the user has typed a name and pressed
    Create Key; the creation request, number 1, is in flight. *)
Definition creating : ApiKeys.World :=
  ApiKeys.run
  [ ApiKeys.Mount;
    ApiKeys.Respond 0 (ApiKeys.ResolvedKeys [keyA]);
    ApiKeys.SetCreateDialogOpen true;
    ApiKeys.TypeKeyName " Staging ";
    ApiKeys.ClickCreateKey ]
  freshKeys.

(** The creation succeeded and the list was fetched again: the reveal
    dialog is open. *)
Definition revealing : ApiKeys.World :=
  ApiKeys.run
  [ ApiKeys.Respond 1 (ApiKeys.ResolvedCreated createdB);
    ApiKeys.Respond 2 (ApiKeys.ResolvedKeys [keyA; keyB]) ]
  creating.


(** The user confirmed the deletion of the first key; the request, number
    1, is in flight. *)
Definition deleting : ApiKeys.World :=
  ApiKeys.run
  [ ApiKeys.Mount;
    ApiKeys.Respond 0 (ApiKeys.ResolvedKeys [keyA]);
    ApiKeys.ClickDelete 0 true ]
  freshKeys.

Definition expired : Error := mkError (Some "401 Unauthorized").

Definition company : Settings.UserSettings :=
  Settings.mkUserSettings "Acme" "ops@acme.test" "https://acme.test" "REG-1"
    "verified".

Definition freshSettings : Settings.World :=
  Settings.initial session "/dashboard/settings".

(** The settings were loaded and the company name edited; nothing is in
    flight. *)
Definition loadedSettings : Settings.World :=
  Settings.run
  [ Settings.Mount;
    Settings.Respond 0 (Settings.Resolved company);
    Settings.Edit Settings.CompanyName "Acme Ltd" ]
  freshSettings.

(** The settings were loaded, the company name edited and Save pressed; the
    update request, number 1, is in flight. *)
Definition saving : Settings.World :=
  Settings.run
  [ Settings.Mount;
    Settings.Respond 0 (Settings.Resolved company);
    Settings.Edit Settings.CompanyName "Acme Ltd";
    Settings.ClickSave ]
  freshSettings.

End Samples.

(** ** The one-time secret *)

Module Secret.
Import Js ApiKeys.

(** The secrets the server hands out during a run, in order. *)
Fixpoint secretsIn (es : list Event) : list string :=
  match es with
  | Respond _ (ResolvedCreated result) :: es => secret_key result :: secretsIn es
  | _ :: es => secretsIn es
  | [] => []
  end.

(** Where the secret held by the page, if any, comes from: either it was
    held before, or one of the given responses carried it. *)
Definition heldFrom (before : option string) (fresh : list string)
    (h : Hooks) : Prop :=
  match createdKey h with
  | Some s => before = Some s \/ In s fresh
  | None => True
  end.

(** Everything the page holds apart from the secret cell and the system
    clipboard. *)
Definition publicPart (w : World)
    : Hooks * Storage * string * list Toast * gmap nat Task * list Call :=
  (setCreatedKey None (hooks w), localStorage w, location w, toasts w,
   pending w, calls w).

(** Two worlds that differ at most in the secret they hold, and hold one or
    none alike. *)
Definition agree (w1 w2 : World) : Prop :=
  publicPart w1 = publicPart w2 /\
  truthy <$> createdKey (hooks w1) = truthy <$> createdKey (hooks w2).

End Secret.

(** ** The sentences of the specification that the pages are checked against *)

Module Stated.
Import Js.


(** A successful Settings save fetches the settings again. *)
Definition saveRefetches : Prop :=
  forall (w : Settings.World) (rid : nat) (data : Settings.UserSettings),
    Settings.pending w !! rid = Some Settings.AwaitUpdateSettings ->
    In Settings.GetSettings
       (Settings.newCalls w
          (Settings.dispatch (Settings.Respond rid (Settings.Resolved data)) w)).

End Stated.

(** ** What the table cells and badges display *)

Module Rendering.
Import Js.

(** [getStatusColor] of the Transactions page. *)
Definition getStatusColor (status : string) : string :=
  if String.eqb status "settled" then "bg-green-500/10 text-green-500"
  else if String.eqb status "pending" then "bg-yellow-500/10 text-yellow-500"
  else if String.eqb status "failed" then "bg-red-500/10 text-red-500"
  else "bg-gray-500/10 text-gray-500".

(** [{parseFloat(tx.amount).toFixed(2)} {tx.currency}] *)
Definition amountCell (tx : Transactions.Transaction) : option string :=
  match Treasury.toFixed 2 (Treasury.parseFloat (Transactions.amount tx)) with
  | Some text => Some (text ++ " " ++ Transactions.currency tx)
  | None => None
  end.

(** [{tx.customer_email || "N/A"}] *)
Definition customerCell (tx : Transactions.Transaction) : string :=
  match Transactions.customer_email tx with
  | Some email => if truthy email then email else "N/A"
  | None => "N/A"
  end.

Definition lowerChar (c : ascii) : ascii :=
  let n := nat_of_ascii c in
  if (65 <=? n)%nat && (n <=? 90)%nat then ascii_of_nat (n + 32) else c.

(** [s.toLowerCase()] on the ASCII letters; other bytes are left alone. *)
Fixpoint toLowerCase (s : string) : string :=
  match s with
  | String c rest => String (lowerChar c) (toLowerCase rest)
  | EmptyString => EmptyString
  end.

(** [getKycStatusColor] of the Settings page. *)
Definition getKycStatusColor (status : string) : string :=
  let lowered := toLowerCase status in
  if String.eqb lowered "verified" then "bg-green-500/10 text-green-500"
  else if String.eqb lowered "pending" then "bg-yellow-500/10 text-yellow-500"
  else if String.eqb lowered "rejected" then "bg-red-500/10 text-red-500"
  else "bg-gray-500/10 text-gray-500".

(** The paragraph under the KYC badge. *)
Definition kycMessage (kyc_status : string) : string :=
  if String.eqb kyc_status "verified"
  then "Your account is fully verified. You have access to all features."
  else if String.eqb kyc_status "pending"
  then "Your verification is being reviewed. This typically takes 1-2 business days."
  else "Please contact support for more information about your verification status.".

(** [settings.kyc_status !== "verified" && <Button>Upload Documents</Button>] *)
Definition showsUpload (kyc_status : string) : bool :=
  negb (String.eqb kyc_status "verified").

(** [parseAPY(position.apy) > 5]: the badge of a position is green with a
    rising arrow, otherwise plain with a falling one. *)
Definition trendingUp (p : Treasury.TreasuryPosition) : bool :=
  SFltb (Treasury.ofZ 5) (Treasury.parseAPY (Treasury.apy p)).

End Rendering.

(** ** Treasury page: loading positions and portfolio together *)

Module TreasuryPage.
Import Js.

(** The part of the portfolio summary the page reads. *)
Record Portfolio := mkPortfolio { total_value : Treasury.number }.

Record Hooks := mkHooks {
  positions : list Treasury.TreasuryPosition;
  totalValue : Treasury.number;
  loading : bool;
  error : option string
}.

Definition setPositions v h := mkHooks v (totalValue h) (loading h) (error h).
Definition setTotalValue v h := mkHooks (positions h) v (loading h) (error h).
Definition setLoading v h := mkHooks (positions h) (totalValue h) v (error h).
Definition setError v h := mkHooks (positions h) (totalValue h) (loading h) v.

Inductive Call :=
| GetTreasuryPositions
| GetTreasuryPortfolio.

(** A [Promise.all] over the two calls that has not settled yet: what each
    call has resolved with so far. *)
Record Join := mkJoin {
  gotPositions : option (list Treasury.TreasuryPosition);
  gotPortfolio : option Portfolio
}.

Inductive Outcome (A : Type) :=
| Resolved (value : A)
| Rejected (err : Error).
Arguments Resolved {A} value.
Arguments Rejected {A} err.

(** [joins] holds the runs of [loadTreasury] still awaiting their
    [Promise.all], keyed by the number of the run. *)
Record World := mkWorld {
  hooks : Hooks;
  localStorage : Storage;
  location : string;
  joins : gmap nat Join;
  started : nat;
  calls : list Call
}.

Definition withHooks (f : Hooks -> Hooks) (w : World) : World :=
  mkWorld (f (hooks w)) (localStorage w) (location w) (joins w) (started w)
          (calls w).

Definition initialHooks : Hooks := mkHooks [] Treasury.zero true None.

Definition initial (st : Storage) (loc : string) : World :=
  mkWorld initialHooks st loc ∅ 0 [].

(** [loadTreasury] up to its [await]: both calls are made, in this order,
    before the function suspends. *)
Definition loadTreasury (w : World) : World :=
  let w := withHooks (setLoading true) w in
  let w := withHooks (setError None) w in
  mkWorld (hooks w) (localStorage w) (location w)
          (<[started w := mkJoin None None]> (joins w)) (S (started w))
          (calls w ++ [GetTreasuryPositions; GetTreasuryPortfolio]).

Definition settle (run : nat) (w : World) : World :=
  mkWorld (hooks w) (localStorage w) (location w) (delete run (joins w))
          (started w) (calls w).

(** [loadTreasury] after the [Promise.all] has resolved. *)
Definition loadTreasury_resolved (positionsData : list Treasury.TreasuryPosition)
    (portfolioData : Portfolio) (w : World) : World :=
  let w := withHooks (setPositions positionsData) w in
  let w := withHooks (setTotalValue (total_value portfolioData)) w in
  withHooks (setLoading false) w.

(** [loadTreasury] after the [Promise.all] has rejected. *)
Definition loadTreasury_rejected (err : Error) (w : World) : World :=
  let w :=
    if unauthorized err then
      mkWorld (hooks w) (clearSession (localStorage w)) "/login"
              (joins w) (started w) (calls w)
    else
      withHooks (setError (Some (messageOr err "Failed to load treasury data"))) w
  in
  withHooks (setLoading false) w.

Inductive View :=
| ViewLoading
| ViewError (msg : string)
| ViewContent.

Definition render (h : Hooks) : View :=
  if loading h then ViewLoading
  else
    match error h with
    | Some msg => if truthy msg then ViewError msg else ViewContent
    | None => ViewContent
    end.

Inductive Event :=
| Mount
| ClickRetry
| RespondPositions (run : nat) (r : Outcome (list Treasury.TreasuryPosition))
| RespondPortfolio (run : nat) (r : Outcome Portfolio).

(** [Promise.all] resolves once both calls have resolved and rejects with
    the first rejection; what arrives for a run that has settled, or a
    second time for the same call, has nobody waiting for it. *)
Definition dispatch (e : Event) (w : World) : World :=
  match e with
  | Mount => loadTreasury w
  | ClickRetry =>
      match render (hooks w) with
      | ViewError _ => loadTreasury w
      | _ => w
      end
  | RespondPositions run r =>
      match joins w !! run with
      | Some (mkJoin None portfolio) =>
          match r, portfolio with
          | Resolved data, Some portfolioData =>
              loadTreasury_resolved data portfolioData (settle run w)
          | Resolved data, None =>
              mkWorld (hooks w) (localStorage w) (location w)
                      (<[run := mkJoin (Some data) None]> (joins w))
                      (started w) (calls w)
          | Rejected err, _ => loadTreasury_rejected err (settle run w)
          end
      | _ => w
      end
  | RespondPortfolio run r =>
      match joins w !! run with
      | Some (mkJoin positionsGot None) =>
          match r, positionsGot with
          | Resolved portfolioData, Some data =>
              loadTreasury_resolved data portfolioData (settle run w)
          | Resolved portfolioData, None =>
              mkWorld (hooks w) (localStorage w) (location w)
                      (<[run := mkJoin None (Some portfolioData)]> (joins w))
                      (started w) (calls w)
          | Rejected err, _ => loadTreasury_rejected err (settle run w)
          end
      | _ => w
      end
  end.

Definition run (es : list Event) (w : World) : World :=
  fold_left (fun w e => dispatch e w) es w.

End TreasuryPage.

(** ** Predicates the invariants of the pages are stated with *)

Module Shape.
Import Js.

(** The query a request may carry: ten rows per page, a page from 1 up, a
    search text only when there is one, a status only when it is not "all". *)
Definition wellFormed (q : Transactions.Params) : Prop :=
  Transactions.p_limit q = 10 /\
  1 <= Transactions.p_page q /\
  Transactions.p_search q <> Some "" /\
  Transactions.p_filter q <> Some "all".

(** The name a creation call may carry: not empty, and with no white space
    left at either end. *)
Definition properName (c : ApiKeys.Call) : Prop :=
  match c with
  | ApiKeys.CreateApiKey keyName => keyName <> "" /\ trim keyName = keyName
  | _ => True
  end.

(** A button disabled by a flag while its handler runs: the tasks of that
    handler still in flight, picked out by [mine], number at most one, and
    none when the flag is down.  Request numbers below [next] are the ones
    handed out so far. *)
Section Guarded.
Context {T : Type} (mine : T -> bool).

Definition guarded (pending : gmap nat T) (flag : bool) (next : nat) : Prop :=
  (forall rid t, pending !! rid = Some t -> (rid < next)%nat) /\
  (flag = false -> forall rid t, pending !! rid = Some t -> mine t = false) /\
  (forall rid1 rid2 t1 t2,
      pending !! rid1 = Some t1 -> pending !! rid2 = Some t2 ->
      mine t1 = true -> mine t2 = true -> rid1 = rid2).

End Guarded.

(** The tasks begun by the Create Key button. *)
Definition creationTask (t : ApiKeys.Task) : bool :=
  match t with
  | ApiKeys.AwaitCreateApiKey => true
  | ApiKeys.AwaitGetApiKeys ApiKeys.FromCreate => true
  | _ => false
  end.

(** The guard of the Create Key button, as kept by the ApiKeys page. *)
Definition creationGuard (w : ApiKeys.World) : Prop :=
  guarded creationTask (ApiKeys.pending w)
          (ApiKeys.creating (ApiKeys.hooks w))
          (List.length (ApiKeys.calls w)).

(** The reveal dialog is open exactly while a secret is held. *)
Definition revealOpen (h : ApiKeys.Hooks) : Prop :=
  ApiKeys.showCreatedKey h = true <-> is_Some (ApiKeys.createdKey h).

(** The toast that follows the list refresh awaited by a handler. *)
Definition successToast (caller : ApiKeys.Caller) : list Toast :=
  match caller with
  | ApiKeys.Standalone => []
  | ApiKeys.FromCreate => [mkToast "Success" "API key created successfully" false]
  | ApiKeys.FromDelete => [mkToast "Success" "API key deleted successfully" false]
  end.

(** The task begun by the Save Changes button. *)
Definition saveTask (t : Settings.Task) : bool :=
  match t with
  | Settings.AwaitUpdateSettings => true
  | Settings.AwaitGetSettings => false
  end.

(** The guard of the Save Changes button, as kept by the Settings page. *)
Definition saveGuard (w : Settings.World) : Prop :=
  guarded saveTask (Settings.pending w)
          (Settings.saving (Settings.hooks w))
          (List.length (Settings.calls w)).

(** The two fields the page shows but never edits. *)
Definition readOnly (s : Settings.UserSettings) : string * string :=
  (Settings.registration_number s, Settings.kyc_status s).

(** What [handleSave] sends for the given settings. *)
Definition payload (s : Settings.UserSettings) : Settings.Update :=
  Settings.mkUpdate (Settings.company_name s) (Settings.email s)
                    (Settings.website s).

(** A Number that is neither NaN nor an infinity. *)
Definition finiteOrZero (x : Treasury.number) : Prop :=
  match x with
  | S754_zero _ | S754_finite _ _ _ => True
  | _ => False
  end.

(** Whether some position of the list has an APY that parses to the given
    infinity. *)
Definition hasInfinite (negative : bool) (ps : list Treasury.TreasuryPosition) : Prop :=
  exists p, In p ps /\ Treasury.parseAPY (Treasury.apy p) = S754_infinity negative.

End Shape.

(** ** Percentages as the server writes them *)

Module Percentages.
Import Js Treasury.















End Percentages.

(** * Properties *)

Module TransactionsFacts.
Import Js Transactions Ordering.

Lemma shown_runEffect old w : shown (runEffect old w) = shown w.
Proof. unfold runEffect. destruct (depsChanged _ _); reflexivity. Qed.

Lemma shown_resume_rejected err w :
  shown (loadTransactions_resume (Rejected err) w) = shown w.
Proof.
  unfold loadTransactions_resume. destruct (unauthorized err); reflexivity.
Qed.

(** One event changes the display only by delivering a payload. *)
Lemma shown_dispatch e w :
  shown (dispatch e w) =
  match delivered e w with
  | Some (_, d) => shows d
  | None => shown w
  end.
Proof.
  unfold dispatch. rewrite shown_runEffect.
  destruct e as [| text | key | | value | | | | rid r]; cbn [handle delivered];
    try reflexivity.
  - destruct (String.eqb key "Enter"); reflexivity.
  - destruct (previousEnabled (hooks w)); reflexivity.
  - destruct (nextEnabled (hooks w)); reflexivity.
  - destruct (isError (render (hooks w))); reflexivity.
  - destruct r as [d | err]; destruct (pending w !! rid); try reflexivity.
    rewrite shown_resume_rejected. reflexivity.
Qed.

(** C1 (as amended): on the Transactions page, for every sequence of
    events and overlapping fetches, the items and the total on display are
    those of the resolved response that arrived last, whichever request it
    answers; nothing compares a response with the requests issued since. *)
Theorem C1_last_arrived_response_is_displayed :
  forall (es : list Event) (w : World), lastArrivedWins es w.
Proof.
  unfold lastArrivedWins.
  induction es as [| e es IH]; intros w; [reflexivity |].
  cbn [run fold_left arrivals]. fold (run es (dispatch e w)).
  rewrite IH, shown_dispatch.
  destruct (delivered e w) as [[rid d] |]; [| reflexivity].
  rewrite last_cons.
  destruct (last (arrivals es (dispatch e w))) as [[rid' d'] |]; reflexivity.
Qed.

(** C1 (as stated) fails: when the response to the first request arrives
    after the response to the second, the page under filter "settled" ends
    up displaying the unfiltered first page. *)
Lemma C1_stale_response_is_applied :
  ~ (forall (es : list Event) (w : World), lastIssuedWins es w).
Proof.
  intros H. specialize (H Samples.staleTrace Samples.fresh).
  vm_compute in H. discriminate H.
Qed.

Lemma runEffect_keep old w :
  page old = page (hooks w) -> filter old = filter (hooks w) ->
  runEffect old w = w.
Proof.
  intros Hp Hf. unfold runEffect, depsChanged.
  rewrite Hp, Hf, Z.eqb_refl, String.eqb_refl. reflexivity.
Qed.

Lemma runEffect_same w : runEffect (hooks w) w = w.
Proof. apply runEffect_keep; reflexivity. Qed.

Lemma newRequests_same w : newRequests w w = [].
Proof. unfold newRequests. apply drop_all. Qed.

(** While fewer than ten rows are held, the Next button does nothing. *)
Lemma next_disabled_noop w :
  (List.length (transactions (hooks w)) < 10)%nat ->
  dispatch ClickNext w = w.
Proof.
  intros Hshort. unfold dispatch. cbn [handle]. unfold nextEnabled.
  apply Nat.ltb_lt in Hshort. rewrite Hshort, andb_false_r.
  apply runEffect_same.
Qed.

Lemma page_resume r w :
  page (hooks (loadTransactions_resume r w)) = page (hooks w).
Proof.
  destruct r as [d | err]; [reflexivity |].
  unfold loadTransactions_resume. destruct (unauthorized err); reflexivity.
Qed.

Lemma page_runEffect old w : page (hooks (runEffect old w)) = page (hooks w).
Proof. unfold runEffect. destruct (depsChanged _ _); reflexivity. Qed.

(** No event takes the page number below 1. *)
Lemma page_dispatch e w :
  1 <= page (hooks w) -> 1 <= page (hooks (dispatch e w)).
Proof.
  intros Hp. unfold dispatch. rewrite page_runEffect.
  destruct e as [| text | key | | value | | | | rid r]; cbn [handle];
    try exact Hp.
  - destruct (String.eqb key "Enter"); [cbn; lia | exact Hp].
  - cbn. lia.
  - destruct (previousEnabled (hooks w)); [cbn; lia | exact Hp].
  - destruct (nextEnabled (hooks w)); [cbn; lia | exact Hp].
  - destruct (isError (render (hooks w))); exact Hp.
  - destruct (pending w !! rid); [| exact Hp].
    rewrite page_resume. exact Hp.
Qed.

Lemma page_run es : forall w, 1 <= page (hooks w) -> 1 <= page (hooks (run es w)).
Proof.
  induction es as [| e es IH]; intros w Hp; [exact Hp |].
  cbn [run fold_left]. apply IH, page_dispatch, Hp.
Qed.

(** C7: once a fetch has delivered fewer than ten rows, pressing Next
    changes nothing and issues no request; and in every state the page can
    reach from its first render the page number is at least 1. *)
Theorem C7_no_next_after_short_page_and_page_at_least_one :
  (forall (w : World) (rid : nat) (d : Data),
      is_Some (pending w !! rid) ->
      (List.length (d_transactions d) < 10)%nat ->
      let w' := dispatch (Respond rid (Resolved d)) w in
      transactions (hooks w') = d_transactions d /\
      dispatch ClickNext w' = w' /\
      newRequests w' (dispatch ClickNext w') = []) /\
  (forall (es : list Event) (st : Storage) (loc : string),
      1 <= page (hooks (run es (initial st loc)))).
Proof.
  split.
  - intros w rid d [p Hp] Hshort w'.
    assert (Ht : transactions (hooks w') = d_transactions d).
    { subst w'. unfold dispatch. cbn [handle]. rewrite Hp.
      unfold runEffect. destruct (depsChanged _ _); reflexivity. }
    assert (Hn : dispatch ClickNext w' = w').
    { apply next_disabled_noop. rewrite Ht. exact Hshort. }
    rewrite Hn. auto using newRequests_same.
  - intros es st loc. apply page_run. cbn. lia.
Qed.

Lemma C7_witness :
  let w := dispatch Mount Samples.fresh in
  let w' := dispatch (Respond 0 (Resolved Samples.settledPage)) w in
  transactions (hooks w') = d_transactions Samples.settledPage /\
  dispatch ClickNext w' = w' /\
  newRequests w' (dispatch ClickNext w') = [].
Proof.
  apply (proj1 C7_no_next_after_short_page_and_page_at_least_one
           (dispatch Mount Samples.fresh) 0%nat Samples.settledPage).
  - vm_compute. eauto.
  - vm_compute. lia.
Defined.

(** What a submitted search fetches. *)
Lemma handleSearch_requests w :
  let w' := runEffect (hooks w) (handleSearch w) in
  page (hooks w') = 1 /\
  newRequests w w' =
    if page (hooks w) =? 1 then [buildParams (hooks w)]
    else [buildParams (hooks w); buildParams (setPage 1 (hooks w))].
Proof.
  cbv zeta. unfold runEffect, depsChanged.
  cbn [handleSearch hooks loadTransactions withHooks getTransactions
       setPage setLoading setError page filter].
  rewrite String.eqb_refl, orb_false_r.
  destruct (page (hooks w) =? 1) eqn:Hp; cbn [negb].
  - split; [reflexivity |]. unfold newRequests. cbn [issued].
    apply drop_app_length.
  - split; [reflexivity |]. unfold newRequests.
    cbn [issued loadTransactions withHooks getTransactions hooks].
    change (issued (handleSearch w))
      with (issued w ++ [buildParams (hooks w)])%list.
    rewrite <- app_assoc. rewrite drop_app_length. reflexivity.
Qed.

(** C10: submitting a search on page p issues, from the handler itself, a
    fetch that still carries page p; when p differs from 1 the effect then
    issues a second fetch carrying page 1, and when p is 1 that first fetch
    is the only one.  The Enter key and the search button behave alike. *)
Theorem C10_search_submit_fetches_stale_page_first :
  forall (w : World) (e : Event),
    e = ClickSearch \/ e = KeyDown "Enter" ->
    let p := page (hooks w) in
    let q := buildParams (hooks w) in
    let w' := dispatch e w in
    p_page q = p /\
    page (hooks w') = 1 /\
    newRequests w w' =
      if p =? 1 then [q]
      else [q; mkParams 1 (p_limit q) (p_search q) (p_filter q)].
Proof.
  intros w e He. cbv zeta.
  assert (Hd : dispatch e w = runEffect (hooks w) (handleSearch w)).
  { destruct He as [-> | ->]; reflexivity. }
  rewrite Hd. split; [reflexivity |].
  exact (handleSearch_requests w).
Qed.

Lemma C10_witness :
  let w := Samples.onPageThree in
  let q := mkParams 3 10 None None in
  page (hooks w) = 3 /\
  page (hooks (dispatch ClickSearch w)) = 1 /\
  newRequests w (dispatch ClickSearch w) = [q; mkParams 1 10 None None].
Proof.
  split; [reflexivity |].
  exact (proj2 (C10_search_submit_fetches_stale_page_first
                  Samples.onPageThree ClickSearch (or_introl eq_refl))).
Defined.

(** Selecting a status never touches the page number. *)
Lemma filter_change_keeps_page w value :
  page (hooks (dispatch (SelectFilter value) w)) = page (hooks w).
Proof. unfold dispatch. rewrite page_runEffect. reflexivity. Qed.

(** Selecting another status refetches at once, with the page number the
    component already had. *)
Lemma filter_change_refetches w value :
  value <> filter (hooks w) ->
  newRequests w (dispatch (SelectFilter value) w) =
  [mkParams (page (hooks w)) 10
            (p_search (buildParams (hooks w)))
            (if String.eqb value "all" then None else Some value)].
Proof.
  intros Hne. unfold dispatch, runEffect, depsChanged.
  cbn [handle withHooks hooks setFilter page filter].
  rewrite Z.eqb_refl.
  destruct (String.eqb_spec (filter (hooks w)) value) as [Heq | _];
    [congruence |].
  cbn [negb orb]. unfold newRequests. cbn [issued loadTransactions
    withHooks getTransactions hooks].
  apply drop_app_length.
Qed.

(** Typing in the search box fetches nothing. *)
Lemma typing_search_fetches_nothing w text :
  newRequests w (dispatch (TypeSearch text) w) = [] /\
  search (hooks (dispatch (TypeSearch text) w)) = text.
Proof.
  unfold dispatch, runEffect, depsChanged.
  cbn [handle withHooks hooks setSearch page filter].
  rewrite Z.eqb_refl, String.eqb_refl. cbn [negb orb].
  split; [apply drop_all | reflexivity].
Qed.

(** C5: on page 3 of the unfiltered list, selecting the status "failed"
    refetches at once but leaves the page number at 3, so the request asks
    for page 3 of the failed transactions; [handleSearch] is the only place
    that resets the page. *)
Theorem C5_filter_change_does_not_reset_page :
  let w := Samples.onPageThree in
  let w' := dispatch (SelectFilter "failed") w in
  page (hooks w) = 3 /\
  filter (hooks w) = "all" /\
  page (hooks w') = 3 /\
  newRequests w w' = [mkParams 3 10 None (Some "failed")].
Proof. repeat split. Qed.

(** A load that fails with a message containing "401" or "Unauthorized"
    drops both session entries and sends the router to the login page. *)
Lemma load_unauthorized_clears_session w rid err :
  is_Some (pending w !! rid) ->
  unauthorized err = true ->
  let w' := dispatch (Respond rid (Rejected err)) w in
  localStorage w' !! "auth_token" = None /\
  localStorage w' !! "user" = None /\
  location w' = "/login".
Proof.
  intros [p Hp] Hu. cbv zeta. unfold dispatch. cbn [handle]. rewrite Hp.
  unfold loadTransactions_resume. rewrite Hu.
  rewrite runEffect_keep by reflexivity.
  cbn [localStorage location withHooks]. unfold clearSession, removeItem.
  repeat split.
  - rewrite lookup_delete_ne by discriminate. apply lookup_delete_eq.
  - apply lookup_delete_eq.
Qed.

(** Any other load failure keeps the session and shows the message, or the
    fallback text when the error carries none. *)
Lemma load_failure_keeps_session w rid err :
  is_Some (pending w !! rid) ->
  unauthorized err = false ->
  let w' := dispatch (Respond rid (Rejected err)) w in
  localStorage w' = localStorage w /\
  location w' = location w /\
  error (hooks w') = Some (messageOr err "Failed to load transactions").
Proof.
  intros [p Hp] Hu. cbv zeta. unfold dispatch. cbn [handle]. rewrite Hp.
  unfold loadTransactions_resume. rewrite Hu.
  rewrite runEffect_keep by reflexivity. repeat split.
Qed.

End TransactionsFacts.

Module ApiKeysFacts.
Import Js ApiKeys Secret.

Lemma dispatch_respond w rid r t :
  pending w !! rid = Some t -> wellTyped t r = true ->
  dispatch (Respond rid r) w = resume t r (settle rid w).
Proof. intros Hp Ht. cbn [dispatch]. rewrite Hp, Ht. reflexivity. Qed.

Lemma newCalls_same w : newCalls w w = [].
Proof. unfold newCalls. apply drop_all. Qed.

Lemma hooks_afterLoad caller w :
  keys (hooks (afterLoad caller w)) = keys (hooks w) /\
  createdKey (hooks (afterLoad caller w)) = createdKey (hooks w).
Proof. destruct caller; split; reflexivity. Qed.

Lemma hooks_loadApiKeys_resume_rejected err w :
  keys (hooks (loadApiKeys_resume (Rejected err) w)) = keys (hooks w) /\
  createdKey (hooks (loadApiKeys_resume (Rejected err) w)) = createdKey (hooks w).
Proof.
  unfold loadApiKeys_resume. destruct (unauthorized err); split; reflexivity.
Qed.

(** The key list changes only when a list response is applied, and then it
    becomes that response. *)
Lemma keys_dispatch e w :
  keys (hooks (dispatch e w)) = keys (hooks w) \/
  exists rid data, e = Respond rid (ResolvedKeys data) /\
                   keys (hooks (dispatch e w)) = data.
Proof.
  destruct e as [| open | text | | | | index confirmed | | rid r];
    cbn [dispatch]; try (left; reflexivity).
  - destruct (isCreateDialogOpen (hooks w)); left; reflexivity.
  - destruct (isCreateDialogOpen (hooks w) && negb (creating (hooks w)));
      [| left; reflexivity].
    unfold handleCreateKey.
    destruct (negb (truthy (trim (newKeyName (hooks w))))); left; reflexivity.
  - destruct (showCreatedKey (hooks w)); [| left; reflexivity].
    destruct (createdKey (hooks w)) as [s |]; [| left; reflexivity].
    destruct (truthy s); left; reflexivity.
  - destruct (showCreatedKey (hooks w)); left; reflexivity.
  - destruct (render (hooks w)); try (left; reflexivity).
    destruct (keys (hooks w) !! index); [| left; reflexivity].
    destruct confirmed; left; reflexivity.
  - destruct (render (hooks w)); left; reflexivity.
  - destruct (pending w !! rid) as [t |]; [| left; reflexivity].
    destruct t as [caller | |], r as [data | result | | err];
      cbn [wellTyped resume]; try (left; reflexivity).
    + right. exists rid, data. split; [reflexivity |].
      rewrite (proj1 (hooks_afterLoad _ _)). reflexivity.
    + left. rewrite (proj1 (hooks_afterLoad _ _)).
      rewrite (proj1 (hooks_loadApiKeys_resume_rejected _ _)). reflexivity.
Qed.

(** The held secret changes only by being cleared or by a creation response
    putting its own secret there. *)
Lemma createdKey_dispatch e w :
  createdKey (hooks (dispatch e w)) = createdKey (hooks w) \/
  createdKey (hooks (dispatch e w)) = None \/
  exists rid result, e = Respond rid (ResolvedCreated result) /\
    createdKey (hooks (dispatch e w)) = Some (secret_key result).
Proof.
  destruct e as [| open | text | | | | index confirmed | | rid r];
    cbn [dispatch]; try (left; reflexivity).
  - destruct (isCreateDialogOpen (hooks w)); left; reflexivity.
  - destruct (isCreateDialogOpen (hooks w) && negb (creating (hooks w)));
      [| left; reflexivity].
    unfold handleCreateKey.
    destruct (negb (truthy (trim (newKeyName (hooks w))))); left; reflexivity.
  - destruct (showCreatedKey (hooks w)); [| left; reflexivity].
    destruct (createdKey (hooks w)) as [s |] eqn:Hk; [destruct (truthy s) |];
      left; (reflexivity || exact Hk).
  - destruct (showCreatedKey (hooks w)); [right; left | left]; reflexivity.
  - destruct (render (hooks w)); try (left; reflexivity).
    destruct (keys (hooks w) !! index); [| left; reflexivity].
    destruct confirmed; left; reflexivity.
  - destruct (render (hooks w)); left; reflexivity.
  - destruct (pending w !! rid) as [t |]; [| left; reflexivity].
    destruct t as [caller | |], r as [data | result | | err];
      cbn [wellTyped resume]; try (left; reflexivity).
    + left. rewrite (proj2 (hooks_afterLoad _ _)). reflexivity.
    + left. rewrite (proj2 (hooks_afterLoad _ _)).
      rewrite (proj2 (hooks_loadApiKeys_resume_rejected _ _)). reflexivity.
    + right. right. exists rid, result. split; reflexivity.
Qed.

Lemma secretsIn_cons e es s : In s (secretsIn es) -> In s (secretsIn (e :: es)).
Proof.
  intros Hin. destruct e as [| | | | | | | | rid r]; try exact Hin.
  destruct r; try exact Hin. right. exact Hin.
Qed.

(** After any run, a held secret was held at the start or was delivered by
    a creation response during the run. *)
Lemma createdKey_run es : forall w,
  heldFrom (createdKey (hooks w)) (secretsIn es) (hooks (run es w)).
Proof.
  unfold heldFrom.
  induction es as [| e es IH]; intros w.
  - cbn. destruct (createdKey (hooks w)); auto.
  - cbn [run fold_left]. fold (run es (dispatch e w)).
    specialize (IH (dispatch e w)).
    destruct (createdKey (hooks (run es (dispatch e w)))) as [s |]; [| exact I].
    destruct IH as [Hheld | Hin]; [| right; apply secretsIn_cons, Hin].
    destruct (createdKey_dispatch e w) as [Hsame | [Hnone | (rid & result & -> & Hnew)]].
    + left. congruence.
    + congruence.
    + right. left. congruence.
Qed.

Lemma agree_fields w1 w2 :
  agree w1 w2 ->
  exists k l e o n s c st loc t p ca k1 k2 cb1 cb2,
    w1 = mkWorld (mkHooks k l e o n k1 s c) st loc t cb1 p ca /\
    w2 = mkWorld (mkHooks k l e o n k2 s c) st loc t cb2 p ca /\
    truthy <$> k1 = truthy <$> k2.
Proof.
  destruct w1 as [[k l e o n k1 s c] st loc t cb1 p ca].
  destruct w2 as [[k' l' e' o' n' k2 s' c'] st' loc' t' cb2 p' ca'].
  unfold agree, publicPart. cbn. intros [Hpub Htruth].
  injection Hpub as -> -> -> -> -> -> -> -> -> -> -> ->.
  repeat eexists. exact Htruth.
Qed.

Lemma agree_afterLoad caller w1 w2 :
  agree w1 w2 -> agree (afterLoad caller w1) (afterLoad caller w2).
Proof.
  intros H. apply agree_fields in H.
  destruct H as (k & l & e & o & n & s & c & st & loc & t & p & ca & k1 & k2
                 & cb1 & cb2 & -> & -> & Ht).
  destruct caller; split; cbn; (reflexivity || exact Ht).
Qed.

(** The same event keeps two such worlds in step. *)
Lemma agree_dispatch e w1 w2 :
  agree w1 w2 -> agree (dispatch e w1) (dispatch e w2).
Proof.
  intros H. pose proof H as Hagree. apply agree_fields in H.
  destruct H as (k & l & er & o & n & s & c & st & loc & t & p & ca & k1 & k2
                 & cb1 & cb2 & -> & -> & Ht).
  destruct e as [| open | text | | | | index confirmed | | rid r];
    cbn [dispatch hooks isCreateDialogOpen creating showCreatedKey createdKey
         keys pending].
  - split; cbn; (reflexivity || exact Ht).
  - split; cbn; (reflexivity || exact Ht).
  - destruct o; [| exact Hagree]. split; cbn; (reflexivity || exact Ht).
  - destruct (o && negb c); [| exact Hagree].
    unfold handleCreateKey. cbn [hooks newKeyName].
    destruct (negb (truthy (trim n))); split; cbn; (reflexivity || exact Ht).
  - destruct s; [| exact Hagree].
    destruct k1 as [s1 |], k2 as [s2 |]; try discriminate; [| exact Hagree].
    cbn in Ht. injection Ht as Ht.
    destruct (truthy s1) eqn:H1; rewrite <- Ht; [| exact Hagree].
    split; cbn; [reflexivity | rewrite H1, <- Ht; reflexivity].
  - destruct s; [| exact Hagree]. split; reflexivity.
  - unfold render. cbn [loading error keys].
    destruct l; [exact Hagree |].
    assert (Hlist : agree
      match (if (length k =? 0)%nat then ViewEmpty else ViewList), k !! index with
      | ViewList, Some key =>
          handleDeleteKey (id key) (name key) confirmed
            (mkWorld (mkHooks k false er o n k1 s c) st loc t cb1 p ca)
      | _, _ => mkWorld (mkHooks k false er o n k1 s c) st loc t cb1 p ca
      end
      match (if (length k =? 0)%nat then ViewEmpty else ViewList), k !! index with
      | ViewList, Some key =>
          handleDeleteKey (id key) (name key) confirmed
            (mkWorld (mkHooks k false er o n k2 s c) st loc t cb2 p ca)
      | _, _ => mkWorld (mkHooks k false er o n k2 s c) st loc t cb2 p ca
      end).
    { destruct (length k =? 0)%nat; [exact Hagree |].
      destruct (k !! index); [| exact Hagree].
      destruct confirmed; [| exact Hagree].
      split; cbn; (reflexivity || exact Ht). }
    destruct er as [msg |]; [destruct (truthy msg) |];
      (exact Hagree || exact Hlist).
  - unfold render. cbn [loading error keys].
    destruct l; [exact Hagree |].
    destruct er as [msg |]; [destruct (truthy msg) |];
      try (destruct (length k =? 0)%nat; exact Hagree).
    split; cbn; (reflexivity || exact Ht).
  - destruct (p !! rid) as [task |]; [| exact Hagree].
    destruct task as [caller | |], r as [data | result | | err];
      cbn [wellTyped resume]; try exact Hagree.
    + apply agree_afterLoad. split; cbn; (reflexivity || exact Ht).
    + apply agree_afterLoad. unfold loadApiKeys_resume.
      destruct (unauthorized err); split; cbn; (reflexivity || exact Ht).
    + split; reflexivity.
    + split; cbn; (reflexivity || exact Ht).
    + split; cbn; (reflexivity || exact Ht).
    + split; cbn; (reflexivity || exact Ht).
Qed.

Lemma agree_run es : forall w1 w2, agree w1 w2 -> agree (run es w1) (run es w2).
Proof.
  induction es as [| e es IH]; intros w1 w2 H; [exact H |].
  cbn [run fold_left]. apply IH, agree_dispatch, H.
Qed.

Lemma revealed_held h s : revealed h = Some s -> createdKey h = Some s.
Proof. unfold revealed. destruct (showCreatedKey h); [auto | discriminate]. Qed.

(** C3: when a creation succeeds the reveal dialog shows the returned
    secret while the key list is left as it was; the key list only ever
    becomes the payload of a list response, whose entries are [ApiKey]
    records (id, name, key_prefix, created_at, last_used, permissions,
    status) with no room for a secret; once the reveal dialog has been
    closed, whatever the page does next, any secret it holds or shows was
    delivered by a later creation; and at that point the state of the page,
    the storage, the location, the toasts and the calls made are the same
    whichever secret the server had returned. *)
Theorem C3_secret_revealed_once_never_listed :
  (forall (w : World) (rid : nat) (result : CreatedKey),
      pending w !! rid = Some AwaitCreateApiKey ->
      let w' := dispatch (Respond rid (ResolvedCreated result)) w in
      revealed (hooks w') = Some (secret_key result) /\
      keys (hooks w') = keys (hooks w)) /\
  (forall (e : Event) (w : World),
      keys (hooks (dispatch e w)) = keys (hooks w) \/
      exists (rid : nat) (data : list ApiKey),
        e = Respond rid (ResolvedKeys data) /\
        keys (hooks (dispatch e w)) = data) /\
  (forall (w : World) (es : list Event),
      showCreatedKey (hooks w) = true ->
      let closed := dispatch CloseCreatedKeyDialog w in
      createdKey (hooks closed) = None /\
      revealed (hooks closed) = None /\
      forall s : string,
        createdKey (hooks (run es closed)) = Some s \/
        revealed (hooks (run es closed)) = Some s ->
        In s (secretsIn es)) /\
  (forall (w : World) (rid : nat) (r1 r2 : CreatedKey) (es : list Event),
      pending w !! rid = Some AwaitCreateApiKey ->
      truthy (secret_key r1) = truthy (secret_key r2) ->
      let shown r := run es (dispatch (Respond rid (ResolvedCreated r)) w) in
      showCreatedKey (hooks (shown r1)) = true ->
      let closed r := dispatch CloseCreatedKeyDialog (shown r) in
      hooks (closed r1) = hooks (closed r2) /\
      localStorage (closed r1) = localStorage (closed r2) /\
      location (closed r1) = location (closed r2) /\
      toasts (closed r1) = toasts (closed r2) /\
      pending (closed r1) = pending (closed r2) /\
      calls (closed r1) = calls (closed r2)).
Proof.
  repeat apply conj.
  - intros w rid result Hp w'. subst w'.
    rewrite (dispatch_respond w rid (ResolvedCreated result) _ Hp eq_refl).
    split; reflexivity.
  - exact keys_dispatch.
  - intros w es Hshow closed.
    assert (Hc : createdKey (hooks closed) = None).
    { subst closed. cbn [dispatch]. rewrite Hshow. reflexivity. }
    split; [exact Hc |]. split.
    { subst closed. cbn [dispatch]. rewrite Hshow. reflexivity. }
    intros s Hs.
    assert (Hheld : createdKey (hooks (run es closed)) = Some s).
    { destruct Hs as [Hs | Hs]; [exact Hs | apply revealed_held, Hs]. }
    pose proof (createdKey_run es closed) as Hrun. unfold heldFrom in Hrun.
    rewrite Hheld, Hc in Hrun. destruct Hrun as [Hold | Hin];
      [discriminate | exact Hin].
  - intros w rid r1 r2 es Hp Htruth shown Hshow closed.
    assert (Hstart : agree (dispatch (Respond rid (ResolvedCreated r1)) w)
                           (dispatch (Respond rid (ResolvedCreated r2)) w)).
    { rewrite (dispatch_respond w rid (ResolvedCreated r1) _ Hp eq_refl).
      rewrite (dispatch_respond w rid (ResolvedCreated r2) _ Hp eq_refl).
      split; cbn; [reflexivity | rewrite Htruth; reflexivity]. }
    apply (agree_run es) in Hstart. fold (shown r1) (shown r2) in Hstart.
    apply agree_fields in Hstart.
    destruct Hstart as (k & l & e & o & n & s & c & st & loc & t & p & ca
                        & k1 & k2 & cb1 & cb2 & H1 & H2 & _).
    subst closed. cbv beta. rewrite H1 in Hshow |- *. rewrite H2.
    cbn in Hshow. subst s. repeat split.
Qed.

Lemma C3_witness :
  (let w' := dispatch (Respond 1 (ResolvedCreated Samples.createdB))
               Samples.creating in
   revealed (hooks w') = Some "bk_test_77c0e1d2a3b4c5d6e7f8" /\
   keys (hooks w') = [Samples.keyA]) /\
  (let closed := dispatch CloseCreatedKeyDialog Samples.revealing in
   createdKey (hooks closed) = None /\
   revealed (hooks closed) = None /\
   forall s : string,
     createdKey (hooks (run [Mount; ClickRetry; ClickCopy] closed)) = Some s \/
     revealed (hooks (run [Mount; ClickRetry; ClickCopy] closed)) = Some s ->
     In s []) /\
  (let shown r :=
     run [Respond 2 (ResolvedKeys [Samples.keyA; Samples.keyB]); ClickCopy]
         (dispatch (Respond 1 (ResolvedCreated r)) Samples.creating) in
   let closed r := dispatch CloseCreatedKeyDialog (shown r) in
   let other := mkCreatedKey Samples.keyB "bk_test_77c0ffffffffffffffff" in
   hooks (closed Samples.createdB) = hooks (closed other) /\
   toasts (closed Samples.createdB) = toasts (closed other) /\
   calls (closed Samples.createdB) = calls (closed other)).
Proof.
  pose proof C3_secret_revealed_once_never_listed
    as (Hreveal & _ & Hclosed & Hsame).
  split; [| split].
  - apply (Hreveal Samples.creating 1%nat Samples.createdB). reflexivity.
  - apply (Hclosed Samples.revealing [Mount; ClickRetry; ClickCopy]).
    reflexivity.
  - destruct (Hsame Samples.creating 1%nat Samples.createdB
                (mkCreatedKey Samples.keyB "bk_test_77c0ffffffffffffffff")
                [Respond 2 (ResolvedKeys [Samples.keyA; Samples.keyB]); ClickCopy]
                eq_refl eq_refl eq_refl)
      as (Hh & _ & _ & Ht & _ & Hc).
    split; [exact Hh | split; [exact Ht | exact Hc]].
Defined.




(** C9: a declined confirmation makes the delete a no-op: the handler
    returns the world it was given, so the call log, the requests in flight
    and the key list are all as before. *)
Theorem C9_declined_delete_is_noop :
  forall (w : World) (keyId keyName : string) (index : nat),
    handleDeleteKey keyId keyName false w = w /\
    dispatch (ClickDelete index false) w = w /\
    newCalls w (dispatch (ClickDelete index false) w) = [] /\
    keys (hooks (dispatch (ClickDelete index false) w)) = keys (hooks w).
Proof.
  intros w keyId keyName index.
  assert (Hd : dispatch (ClickDelete index false) w = w).
  { cbn [dispatch]. destruct (render (hooks w)); try reflexivity.
    destruct (keys (hooks w) !! index); reflexivity. }
  rewrite Hd. repeat split. apply newCalls_same.
Qed.

(** The sibling path: a failed load of the key list with an unauthorized
    message drops the session and redirects. *)
Lemma loadApiKeys_unauthorized_clears_session w rid caller err :
  pending w !! rid = Some (AwaitGetApiKeys caller) ->
  unauthorized err = true ->
  let w' := dispatch (Respond rid (Rejected err)) w in
  localStorage w' !! "auth_token" = None /\
  localStorage w' !! "user" = None /\
  location w' = "/login".
Proof.
  intros Hp Hu. cbv zeta.
  rewrite (dispatch_respond w rid (Rejected err) _ Hp eq_refl).
  cbn [resume]. unfold loadApiKeys_resume. rewrite Hu.
  assert (Hs : forall x, localStorage (afterLoad caller x) = localStorage x /\
                         location (afterLoad caller x) = location x)
    by (intros x; destruct caller; split; reflexivity).
  rewrite (proj1 (Hs _)), (proj2 (Hs _)).
  cbn [localStorage location withHooks settle]. unfold clearSession, removeItem.
  repeat split.
  - rewrite lookup_delete_ne by discriminate. apply lookup_delete_eq.
  - apply lookup_delete_eq.
Qed.

(** A failed creation or deletion, whatever its message, only raises a
    toast: storage and location stay as they are. *)
Lemma mutation_failure_keeps_session w rid t err :
  pending w !! rid = Some t ->
  t = AwaitCreateApiKey \/ t = AwaitDeleteApiKey ->
  let w' := dispatch (Respond rid (Rejected err)) w in
  localStorage w' = localStorage w /\
  location w' = location w /\
  exists text, toasts w' = (toasts w ++ [mkToast "Error" text true])%list.
Proof.
  intros Hp Ht. cbv zeta.
  destruct Ht as [-> | ->];
    rewrite (dispatch_respond w rid (Rejected err) _ Hp eq_refl);
    repeat split; eexists; reflexivity.
Qed.

(** C2: the key creation is in flight and fails with "401 Unauthorized",
    a message the load handlers classify as unauthorized.  The catch block
    of [handleCreateKey] only raises an error toast: both session entries
    stay in storage and the location does not change, where the claim asks
    for the session to be cleared and the login view to be signalled. *)
Theorem C2_unauthorized_mutation_keeps_session :
  let w := Samples.creating in
  let w' := dispatch (Respond 1 (Rejected Samples.expired)) w in
  unauthorized Samples.expired = true /\
  pending w !! 1%nat = Some AwaitCreateApiKey /\
  localStorage w' !! "auth_token" = Some "eyJhbGciOi" /\
  localStorage w' !! "user" = Some "{}" /\
  location w' = "/dashboard/api-keys" /\
  toasts w' = [mkToast "Error" "401 Unauthorized" true].
Proof. repeat split. Qed.

End ApiKeysFacts.

Module SettingsFacts.
Import Js Settings.

Lemma dispatch_saved w rid r :
  pending w !! rid = Some AwaitUpdateSettings ->
  dispatch (Respond rid r) w = handleSave_resume r (settle rid w).
Proof. intros Hp. cbn [dispatch]. rewrite Hp. reflexivity. Qed.

(** The response to a save, good or bad, issues no call and leaves the form
    as it is. *)
Lemma save_response_issues_nothing w rid r :
  pending w !! rid = Some AwaitUpdateSettings ->
  let w' := dispatch (Respond rid r) w in
  newCalls w w' = [] /\
  settings (hooks w') = settings (hooks w) /\
  localStorage w' = localStorage w /\
  location w' = location w.
Proof.
  intros Hp. cbv zeta. rewrite (dispatch_saved w rid r Hp).
  destruct r as [data | err]; repeat split; apply drop_all.
Qed.

(** Pressing Save sends the three editable fields and nothing more. *)
Lemma handleSave_calls w :
  newCalls w (handleSave w) =
  [UpdateSettings (mkUpdate (company_name (settings (hooks w)))
                            (email (settings (hooks w)))
                            (website (settings (hooks w))))].
Proof. unfold newCalls. cbn. apply drop_app_length. Qed.

End SettingsFacts.

Module MutationFacts.
Import Js.

(** C4 (as stated) fails: the response to a successful Settings save issues
    no call, so the settings are not fetched again. *)
Lemma C4_settings_save_does_not_refetch : ~ Stated.saveRefetches.
Proof.
  intros H.
  specialize (H Samples.saving 1%nat Samples.company eq_refl).
  vm_compute in H. exact H.
Qed.

(** C4 (as amended): a successful key creation and a successful key
    deletion each issue a fetch of the key list at once and leave the local
    list alone, which is then replaced by whatever that fetch returns.  A
    successful Settings save issues no call: its answer is dropped, the
    settings on the form stay as they are at that moment, the toast
    "Settings updated successfully" is raised and the saving state ends; an
    edit typed while the save was in flight is what the form shows
    afterwards, whatever was sent and whatever the server answered. *)
Theorem C4_key_mutations_refetch_settings_save_does_not :
  (forall (w : ApiKeys.World) (rid : nat) (result : ApiKeys.CreatedKey),
      ApiKeys.pending w !! rid = Some ApiKeys.AwaitCreateApiKey ->
      let w' := ApiKeys.dispatch
                  (ApiKeys.Respond rid (ApiKeys.ResolvedCreated result)) w in
      ApiKeys.newCalls w w' = [ApiKeys.GetApiKeys] /\
      ApiKeys.keys (ApiKeys.hooks w') = ApiKeys.keys (ApiKeys.hooks w)) /\
  (forall (w : ApiKeys.World) (rid : nat),
      ApiKeys.pending w !! rid = Some ApiKeys.AwaitDeleteApiKey ->
      let w' := ApiKeys.dispatch (ApiKeys.Respond rid ApiKeys.ResolvedVoid) w in
      ApiKeys.newCalls w w' = [ApiKeys.GetApiKeys] /\
      ApiKeys.keys (ApiKeys.hooks w') = ApiKeys.keys (ApiKeys.hooks w)) /\
  (forall (w : ApiKeys.World) (rid : nat) (caller : ApiKeys.Caller)
          (data : list ApiKeys.ApiKey),
      ApiKeys.pending w !! rid = Some (ApiKeys.AwaitGetApiKeys caller) ->
      ApiKeys.keys (ApiKeys.hooks
        (ApiKeys.dispatch (ApiKeys.Respond rid (ApiKeys.ResolvedKeys data)) w))
      = data) /\
  (forall (w : Settings.World) (rid : nat) (data : Settings.UserSettings),
      Settings.pending w !! rid = Some Settings.AwaitUpdateSettings ->
      let w' := Settings.dispatch (Settings.Respond rid (Settings.Resolved data)) w in
      Settings.newCalls w w' = [] /\
      Settings.settings (Settings.hooks w') = Settings.settings (Settings.hooks w) /\
      Settings.hooks w' = Settings.setSaving false (Settings.hooks w) /\
      Settings.toasts w' =
        (Settings.toasts w ++
         [mkToast "Success" "Settings updated successfully" false])%list /\
      Settings.pending w' = delete rid (Settings.pending w) /\
      Settings.localStorage w' = Settings.localStorage w /\
      Settings.location w' = Settings.location w) /\
  (forall (w : Settings.World) (f : Settings.Field) (v : string)
          (data : Settings.UserSettings),
      Settings.isForm (Settings.render (Settings.hooks w)) = true ->
      Settings.saving (Settings.hooks w) = false ->
      let sent := Settings.dispatch Settings.ClickSave w in
      let edited := Settings.dispatch (Settings.Edit f v) sent in
      let saved :=
        Settings.dispatch
          (Settings.Respond (List.length (Settings.calls w)) (Settings.Resolved data))
          edited in
      Settings.newCalls w sent =
        [Settings.UpdateSettings
           (Settings.mkUpdate
              (Settings.company_name (Settings.settings (Settings.hooks w)))
              (Settings.email (Settings.settings (Settings.hooks w)))
              (Settings.website (Settings.settings (Settings.hooks w))))] /\
      Settings.newCalls sent saved = [] /\
      Settings.settings (Settings.hooks saved) =
        Settings.withField f v (Settings.settings (Settings.hooks w)) /\
      Settings.saving (Settings.hooks saved) = false).
Proof.
  split; [| split; [| split; [| split]]].
  - intros w rid result Hp w'. subst w'.
    rewrite (ApiKeysFacts.dispatch_respond w rid
               (ApiKeys.ResolvedCreated result) _ Hp eq_refl).
    split; [| reflexivity]. unfold ApiKeys.newCalls. cbn.
    apply drop_app_length.
  - intros w rid Hp w'. subst w'.
    rewrite (ApiKeysFacts.dispatch_respond w rid ApiKeys.ResolvedVoid _ Hp eq_refl).
    split; [| reflexivity]. unfold ApiKeys.newCalls. cbn.
    apply drop_app_length.
  - intros w rid caller data Hp.
    rewrite (ApiKeysFacts.dispatch_respond w rid
               (ApiKeys.ResolvedKeys data) _ Hp eq_refl).
    cbn [ApiKeys.resume].
    rewrite (proj1 (ApiKeysFacts.hooks_afterLoad _ _)). reflexivity.
  - intros w rid data Hp w'. subst w'.
    rewrite (SettingsFacts.dispatch_saved w rid (Settings.Resolved data) Hp).
    split; [apply drop_all |]. repeat split.
  - intros w f v data Hform Hidle. cbv zeta.
    assert (Hsent : Settings.dispatch Settings.ClickSave w = Settings.handleSave w)
      by (cbn [Settings.dispatch]; rewrite Hform, Hidle; reflexivity).
    rewrite Hsent.
    assert (Hedit : Settings.dispatch (Settings.Edit f v) (Settings.handleSave w) =
                    Settings.withHooks
                      (fun h => Settings.setSettings
                                  (Settings.withField f v (Settings.settings h)) h)
                      (Settings.handleSave w)).
    { cbn [Settings.dispatch].
      replace (Settings.render (Settings.hooks (Settings.handleSave w)))
        with (Settings.render (Settings.hooks w)) by reflexivity.
      rewrite Hform. reflexivity. }
    rewrite Hedit.
    split; [apply SettingsFacts.handleSave_calls |].
    rewrite (SettingsFacts.dispatch_saved _ (List.length (Settings.calls w))
               (Settings.Resolved data))
      by (cbn; apply lookup_insert_eq).
    split; [| split; reflexivity].
    unfold Settings.newCalls. apply drop_all.
Qed.

Lemma C4_witness :
  (let w' := ApiKeys.dispatch
               (ApiKeys.Respond 1 (ApiKeys.ResolvedCreated Samples.createdB))
               Samples.creating in
   ApiKeys.newCalls Samples.creating w' = [ApiKeys.GetApiKeys] /\
   ApiKeys.keys (ApiKeys.hooks w') = [Samples.keyA]) /\
  (let w' := ApiKeys.dispatch (ApiKeys.Respond 1 ApiKeys.ResolvedVoid)
               Samples.deleting in
   ApiKeys.newCalls Samples.deleting w' = [ApiKeys.GetApiKeys] /\
   ApiKeys.keys (ApiKeys.hooks w') = [Samples.keyA]) /\
  (let w' := Settings.dispatch (Settings.Respond 1 (Settings.Resolved Samples.company))
               Samples.saving in
   Settings.newCalls Samples.saving w' = [] /\
   Settings.company_name (Settings.settings (Settings.hooks w')) = "Acme Ltd" /\
   Settings.saving (Settings.hooks w') = false /\
   Settings.toasts w' = [mkToast "Success" "Settings updated successfully" false]) /\
  (let saved :=
     Settings.run
       [ Settings.ClickSave;
         Settings.Edit Settings.CompanyName "x";
         Settings.Respond 1 (Settings.Resolved Samples.company) ]
       Samples.loadedSettings in
   Settings.calls saved =
     [ Settings.GetSettings;
       Settings.UpdateSettings
         (Settings.mkUpdate "Acme Ltd" "ops@acme.test" "https://acme.test") ] /\
   Settings.company_name (Settings.settings (Settings.hooks saved)) = "x").
Proof.
  pose proof C4_key_mutations_refetch_settings_save_does_not
    as (Hcreate & Hdelete & _ & Hsave & Hedit).
  split; [| split; [| split]].
  - apply (Hcreate Samples.creating 1%nat Samples.createdB). reflexivity.
  - apply (Hdelete Samples.deleting 1%nat). reflexivity.
  - destruct (Hsave Samples.saving 1%nat Samples.company eq_refl)
      as (Hc & Hs & Hh & Ht & _).
    split; [exact Hc |]. split; [rewrite Hs; reflexivity |].
    split; [rewrite Hh; reflexivity |]. rewrite Ht. reflexivity.
  - destruct (Hedit Samples.loadedSettings Settings.CompanyName "x" Samples.company
                eq_refl eq_refl) as (Hsent & _ & Hshown & _).
    split; [reflexivity |].
    change (Settings.company_name
              (Settings.settings
                 (Settings.hooks
                    (Settings.dispatch
                       (Settings.Respond
                          (List.length (Settings.calls Samples.loadedSettings))
                          (Settings.Resolved Samples.company))
                       (Settings.dispatch (Settings.Edit Settings.CompanyName "x")
                          (Settings.dispatch Settings.ClickSave
                             Samples.loadedSettings))))) = "x").
    rewrite Hshown. reflexivity.
Defined.

End MutationFacts.

Module TreasuryFacts.
Import Js Treasury.

Lemma spanDigits_no_digit s :
  match s with
  | String c _ => isDigit c = false
  | EmptyString => True
  end ->
  spanDigits s = ([], s).
Proof.
  destruct s as [| c rest]; [reflexivity |].
  intros Hc. cbn [spanDigits]. rewrite Hc. reflexivity.
Qed.

(** With no number at its head, a string parses to NaN. *)
Lemma parseFloat_malformed s : malformed s = true -> parseFloat s = S754_nan.
Proof.
  unfold malformed, parseFloat.
  destruct (spanSign (trimStart s)) as [neg r]. cbn [snd].
  unfold startsNumber. intros Hm. apply negb_true_iff, orb_false_iff in Hm.
  destruct Hm as [Hinf Hhead]. rewrite Hinf.
  destruct r as [| c rest]; [reflexivity |].
  apply orb_false_iff in Hhead. destruct Hhead as [Hc Hpoint].
  rewrite (spanDigits_no_digit (String c rest) Hc).
  destruct (Ascii.eqb c ".") eqn:Hdot; [| reflexivity].
  cbn [andb] in Hpoint.
  rewrite (spanDigits_no_digit rest)
    by (destruct rest; [exact I | exact Hpoint]).
  reflexivity.
Qed.

Lemma sumAPY_snoc ps p :
  sumAPY (ps ++ [p]) = add (sumAPY ps) (parseAPY (apy p)).
Proof. unfold sumAPY. rewrite fold_left_app. reflexivity. Qed.



End TreasuryFacts.

(** * Further properties of the pages *)

Module JsFacts.
Import Js Shape.

Lemma prefix_app needle hay :
  String.prefix needle hay = true <-> exists post, hay = needle ++ post.
Proof.
  revert hay. induction needle as [| c needle IH]; intros hay.
  - split; [intros _; exists hay; reflexivity | intros _; destruct hay; reflexivity].
  - destruct hay as [| d hay]; cbn [String.prefix].
    + split; [discriminate | intros [post H]; discriminate].
    + destruct (Ascii.ascii_dec c d) as [-> | Hne].
      * rewrite IH. split; intros [post H]; exists post.
        -- cbn. rewrite H. reflexivity.
        -- cbn in H. injection H as H. exact H.
      * split; [discriminate |]. intros [post H]. cbn in H.
        injection H as Hc _. congruence.
Qed.

Lemma includes_step needle c rest :
  includes needle (String c rest) =
  String.prefix needle (String c rest) || includes needle rest.
Proof. reflexivity. Qed.

Lemma includes_empty needle :
  includes needle "" = String.prefix needle "".
Proof. cbn [includes]. apply orb_false_r. Qed.

Lemma includes_prefix needle hay :
  String.prefix needle hay = true -> includes needle hay = true.
Proof.
  intros H. destruct hay; [rewrite includes_empty | rewrite includes_step, H];
    auto.
Qed.

(** [includes] is the substring test. *)
Lemma includes_substring needle hay :
  includes needle hay = true <-> exists pre post, hay = pre ++ needle ++ post.
Proof.
  split.
  - induction hay as [| c rest IH].
    + rewrite includes_empty. intros H. apply prefix_app in H.
      destruct H as [post H]. exists "", post. exact H.
    + rewrite includes_step. intros H. apply orb_true_iff in H.
      destruct H as [H | H].
      * apply prefix_app in H. destruct H as [post H]. exists "", post. exact H.
      * destruct (IH H) as (pre & post & Heq). exists (String c pre), post.
        cbn. rewrite Heq. reflexivity.
  - intros (pre & post & ->). induction pre as [| c pre IH].
    + apply includes_prefix, prefix_app. exists post. reflexivity.
    + change (String c pre ++ needle ++ post)
        with (String c (pre ++ needle ++ post)).
      rewrite includes_step, IH. apply orb_true_r.
Qed.

(** X1: a caught error is classified as unauthorized exactly when it has a
    message and "401" or "Unauthorized" occurs somewhere in it, whatever
    surrounds the occurrence; an error without a message never is. *)
Theorem X1_unauthorized_is_substring_match :
  forall err : Error,
    unauthorized err = true <->
    exists m pre post : string,
      message err = Some m /\
      (m = pre ++ "401" ++ post \/ m = pre ++ "Unauthorized" ++ post).
Proof.
  intros [[m |]]; unfold unauthorized; cbn [message].
  - rewrite orb_true_iff, !includes_substring. split.
    + intros [(pre & post & H) | (pre & post & H)];
        exists m, pre, post; auto.
    + intros (m' & pre & post & Hm & H). injection Hm as <-.
      destruct H as [H | H]; [left | right]; exists pre, post; exact H.
  - split; [discriminate |]. intros (m & _ & _ & H & _). discriminate.
Qed.

(** What [clearSession] leaves in the storage. *)
Lemma clearSession_lookup (st : Storage) (k : string) :
  clearSession st !! k =
  if String.eqb k "auth_token" || String.eqb k "user" then None else st !! k.
Proof.
  unfold clearSession, removeItem.
  destruct (String.eqb_spec k "user") as [-> | Hu].
  - rewrite orb_true_r. apply lookup_delete_eq.
  - rewrite lookup_delete_ne by congruence. rewrite orb_false_r.
    destruct (String.eqb_spec k "auth_token") as [-> | Ha].
    + apply lookup_delete_eq.
    + apply lookup_delete_ne. congruence.
Qed.

Lemma clearSession_twice (st : Storage) :
  clearSession (clearSession st) = clearSession st.
Proof.
  apply map_eq. intros k. rewrite (clearSession_lookup (clearSession st)).
  destruct (String.eqb k "auth_token" || String.eqb k "user") eqn:Hk;
    [| reflexivity].
  rewrite clearSession_lookup, Hk. reflexivity.
Qed.

(** X2: clearing the session removes the two entries "auth_token" and
    "user", keeps every other entry of the storage as it is, and doing it a
    second time changes nothing. *)
Theorem X2_clearSession_removes_two_keys_only :
  forall (st : Storage),
    (forall k : string,
        k <> "auth_token" -> k <> "user" -> clearSession st !! k = st !! k) /\
    clearSession st !! "auth_token" = None /\
    clearSession st !! "user" = None /\
    clearSession (clearSession st) = clearSession st.
Proof.
  intros st. repeat apply conj.
  - intros k Ha Hu. rewrite clearSession_lookup.
    apply String.eqb_neq in Ha, Hu. rewrite Ha, Hu. reflexivity.
  - apply clearSession_lookup.
  - apply clearSession_lookup.
  - apply clearSession_twice.
Qed.

Lemma X2_witness :
  clearSession (<["theme" := "dark"]> Samples.session) !! "theme" = Some "dark".
Proof.
  rewrite (proj1 (X2_clearSession_removes_two_keys_only
                    (<["theme" := "dark"]> Samples.session)) "theme");
    [reflexivity | discriminate | discriminate].
Defined.

End JsFacts.

(** ** White space and [trim] *)

Module TrimFacts.
Import Js.

Lemma skip_app w rest : skip (String.length w) (w ++ rest) = rest.
Proof. induction w as [| c w IH]; [destruct rest; reflexivity | exact IH]. Qed.

Lemma length_append a b :
  String.length (a ++ b) = (String.length a + String.length b)%nat.
Proof.
  induction a as [| c a IH]; [reflexivity |].
  change (String c a ++ b) with (String c (a ++ b)).
  change (S (String.length (a ++ b)) = S (String.length a + String.length b)).
  rewrite IH. reflexivity.
Qed.

Lemma append_assoc a b c : (a ++ b) ++ c = a ++ (b ++ c).
Proof.
  induction a as [| x a IH]; [reflexivity |].
  change (String x ((a ++ b) ++ c) = String x (a ++ (b ++ c))).
  rewrite IH. reflexivity.
Qed.

Lemma append_empty a : a ++ "" = a.
Proof.
  induction a as [| x a IH]; [reflexivity |].
  change (String x (a ++ "") = String x a). rewrite IH. reflexivity.
Qed.

Lemma prefix_self_app w rest : String.prefix w (w ++ rest) = true.
Proof. apply JsFacts.prefix_app. exists rest. reflexivity. Qed.

(** Two prefixes of one string: one is a prefix of the other. *)
Lemma prefix_comparable a : forall b s,
  String.prefix a s = true -> String.prefix b s = true ->
  String.prefix a b = true \/ String.prefix b a = true.
Proof.
  induction a as [| x a IH]; intros b s Ha Hb.
  - left. destruct b; reflexivity.
  - destruct b as [| y b]; [right; reflexivity |].
    destruct s as [| z s]; [discriminate |].
    cbn [String.prefix] in *.
    destruct (Ascii.ascii_dec x z) as [-> | Hx]; [| discriminate].
    destruct (Ascii.ascii_dec y z) as [-> | Hy]; [| discriminate].
    destruct (Ascii.ascii_dec z z) as [_ | Hz]; [| congruence].
    exact (IH b s Ha Hb).
Qed.

(** No white space character is the beginning of another one, and none is
    empty. *)
Lemma whiteSpace_checked :
  forallb (fun a =>
             negb (String.eqb a "") &&
             forallb (fun b => implb (String.prefix a b) (String.eqb a b)) whiteSpace)
          whiteSpace = true.
Proof. vm_compute. reflexivity. Qed.

Lemma whiteSpace_nonempty w : In w whiteSpace -> (0 < String.length w)%nat.
Proof.
  intros Hw. pose proof whiteSpace_checked as H. rewrite forallb_forall in H.
  specialize (H w Hw). apply andb_true_iff in H. destruct H as [H _].
  destruct w; [discriminate | cbn; lia].
Qed.

Lemma whiteSpace_prefix_free a b :
  In a whiteSpace -> In b whiteSpace -> String.prefix a b = true -> a = b.
Proof.
  intros Ha Hb Hp. pose proof whiteSpace_checked as H. rewrite forallb_forall in H.
  specialize (H a Ha). apply andb_true_iff in H. destruct H as [_ H].
  rewrite forallb_forall in H. specialize (H b Hb). rewrite Hp in H.
  apply String.eqb_eq. exact H.
Qed.

Lemma afterSpace_Some s rest :
  afterSpace s = Some rest -> exists w, In w whiteSpace /\ s = w ++ rest.
Proof.
  unfold afterSpace.
  destruct (find (fun w => String.prefix w s) whiteSpace) as [w |] eqn:Hf;
    [| discriminate].
  intros H. injection H as <-. apply find_some in Hf. destruct Hf as [Hw Hp].
  apply JsFacts.prefix_app in Hp. destruct Hp as [post ->].
  exists w. rewrite skip_app. auto.
Qed.

Lemma afterSpace_app w rest :
  In w whiteSpace -> afterSpace (w ++ rest) = Some rest.
Proof.
  intros Hw. unfold afterSpace.
  destruct (find (fun w' => String.prefix w' (w ++ rest)) whiteSpace)
    as [w' |] eqn:Hf.
  - apply find_some in Hf. destruct Hf as [Hw' Hp].
    assert (w' = w) as ->.
    { destruct (prefix_comparable w' w (w ++ rest) Hp (prefix_self_app w rest))
        as [H | H].
      - exact (whiteSpace_prefix_free w' w Hw' Hw H).
      - symmetry. exact (whiteSpace_prefix_free w w' Hw Hw' H). }
    rewrite skip_app. reflexivity.
  - exfalso. pose proof (find_none _ _ Hf w Hw) as H. cbn beta in H.
    rewrite prefix_self_app in H. discriminate.
Qed.

Lemma afterSpace_shorter s rest :
  afterSpace s = Some rest -> (String.length rest < String.length s)%nat.
Proof.
  intros H. apply afterSpace_Some in H. destruct H as (w & Hw & ->).
  rewrite length_append. pose proof (whiteSpace_nonempty w Hw). lia.
Qed.

Lemma afterSpace_empty : afterSpace "" = None.
Proof. reflexivity. Qed.

(** The fuel given to [trimStartFrom] does not matter once it covers the
    length of the string. *)
Lemma trimStartFrom_enough f1 : forall f2 s,
  (String.length s <= f1)%nat -> (String.length s <= f2)%nat ->
  trimStartFrom f1 s = trimStartFrom f2 s.
Proof.
  induction f1 as [| f1 IH]; intros f2 s H1 H2.
  - destruct s; [| cbn in H1; lia]. destruct f2; reflexivity.
  - destruct f2 as [| f2].
    + destruct s; [| cbn in H2; lia]. reflexivity.
    + cbn [trimStartFrom]. destruct (afterSpace s) as [rest |] eqn:Ha; [| reflexivity].
      apply afterSpace_shorter in Ha. apply IH; lia.
Qed.

Lemma trimStart_none s : afterSpace s = None -> trimStart s = s.
Proof.
  intros H. unfold trimStart. destruct (String.length s); [reflexivity |].
  cbn [trimStartFrom]. rewrite H. reflexivity.
Qed.

Lemma trimStart_some s rest : afterSpace s = Some rest -> trimStart s = trimStart rest.
Proof.
  intros H. pose proof (afterSpace_shorter s rest H) as Hlt. unfold trimStart.
  destruct (String.length s) as [| n] eqn:Hn; [lia |].
  cbn [trimStartFrom]. rewrite H. apply trimStartFrom_enough; lia.
Qed.

(** What [trimStart] returns has no white space at its head: the fuel was
    enough. *)
Lemma afterSpace_trimStart s : afterSpace (trimStart s) = None.
Proof.
  remember (String.length s) as n eqn:Hn.
  assert (Hle : (String.length s <= n)%nat) by lia. clear Hn.
  revert s Hle. induction n as [| n IH]; intros s Hle.
  - destruct s; [reflexivity | cbn in Hle; lia].
  - destruct (afterSpace s) as [rest |] eqn:Ha.
    + rewrite (trimStart_some s rest Ha). apply IH.
      apply afterSpace_shorter in Ha. lia.
    + rewrite (trimStart_none s Ha). exact Ha.
Qed.

Lemma trimStart_trimStart s : trimStart (trimStart s) = trimStart s.
Proof. apply trimStart_none, afterSpace_trimStart. Qed.

Lemma blank_true s : blank s = true <-> trimStart s = "".
Proof. unfold blank. apply String.eqb_eq. Qed.

(** White space in front of a string does not change what [trimStart]
    leaves of it. *)
Lemma trimStart_blank_app a b : blank a = true -> trimStart (a ++ b) = trimStart b.
Proof.
  remember (String.length a) as n eqn:Hn.
  assert (Hle : (String.length a <= n)%nat) by lia. clear Hn.
  revert a Hle. induction n as [| n IH]; intros a Hle Hblank.
  - destruct a; [reflexivity | cbn in Hle; lia].
  - apply blank_true in Hblank.
    destruct (afterSpace a) as [rest |] eqn:Ha.
    + rewrite (trimStart_some a rest Ha) in Hblank.
      pose proof (afterSpace_shorter a rest Ha) as Hlt.
      apply afterSpace_Some in Ha. destruct Ha as (w & Hw & ->).
      rewrite append_assoc.
      rewrite (trimStart_some _ _ (afterSpace_app w (rest ++ b) Hw)).
      apply IH; [lia | apply blank_true; exact Hblank].
    + rewrite (trimStart_none a Ha) in Hblank. subst a. reflexivity.
Qed.

Lemma blank_app a b : blank a = true -> blank b = true -> blank (a ++ b) = true.
Proof.
  intros Ha Hb. apply blank_true. rewrite (trimStart_blank_app a b Ha).
  apply blank_true. exact Hb.
Qed.

Lemma trimEnd_cons c rest :
  trimEnd (String c rest) =
  if blank (String c rest) then "" else String c (trimEnd rest).
Proof. reflexivity. Qed.

(** What [trimEnd] drops is white space. *)
Lemma trimEnd_split s : exists tail, s = trimEnd s ++ tail /\ blank tail = true.
Proof.
  induction s as [| c rest IH]; [exists ""; split; reflexivity |].
  rewrite trimEnd_cons. destruct (blank (String c rest)) eqn:Hb.
  - exists (String c rest). split; [reflexivity | exact Hb].
  - destruct IH as (tail & Heq & Ht). exists tail. split; [| exact Ht].
    change (String c rest = String c (trimEnd rest ++ tail)).
    rewrite <- Heq. reflexivity.
Qed.

Lemma trimEnd_empty s : trimEnd s = "" <-> blank s = true.
Proof.
  destruct s as [| c rest]; [split; reflexivity |].
  rewrite trimEnd_cons. destruct (blank (String c rest)); split; auto; discriminate.
Qed.

(** [trim] gives the empty string exactly on white space. *)
Lemma trim_blank s : trim s = "" <-> blank s = true.
Proof.
  unfold trim. rewrite trimEnd_empty. unfold blank.
  rewrite trimStart_trimStart. tauto.
Qed.

Lemma blank_trimEnd c rest :
  blank (String c (trimEnd rest)) = true -> blank (String c rest) = true.
Proof.
  intros H. destruct (trimEnd_split rest) as (tail & Heq & Ht).
  rewrite Heq. change (String c (trimEnd rest ++ tail))
    with (String c (trimEnd rest) ++ tail).
  apply blank_app; assumption.
Qed.

Lemma trimEnd_trimEnd s : trimEnd (trimEnd s) = trimEnd s.
Proof.
  induction s as [| c rest IH]; [reflexivity |].
  rewrite (trimEnd_cons c rest). destruct (blank (String c rest)) eqn:Hb;
    [reflexivity |].
  rewrite trimEnd_cons, IH.
  destruct (blank (String c (trimEnd rest))) eqn:Hb'; [| reflexivity].
  apply blank_trimEnd in Hb'. congruence.
Qed.

(** Dropping white space from the end leaves none at the head. *)
Lemma afterSpace_trimEnd s : afterSpace s = None -> afterSpace (trimEnd s) = None.
Proof.
  intros Hs. destruct (afterSpace (trimEnd s)) as [rest |] eqn:Ha; [| reflexivity].
  apply afterSpace_Some in Ha. destruct Ha as (w & Hw & Heq).
  destruct (trimEnd_split s) as (tail & Hsplit & _).
  rewrite Heq, append_assoc in Hsplit. rewrite Hsplit in Hs.
  rewrite (afterSpace_app w (rest ++ tail) Hw) in Hs. discriminate.
Qed.

(** Trimming twice is trimming once. *)
Lemma trim_trim s : trim (trim s) = trim s.
Proof.
  unfold trim.
  rewrite (trimStart_none (trimEnd (trimStart s)))
    by apply afterSpace_trimEnd, afterSpace_trimStart.
  apply trimEnd_trimEnd.
Qed.


(** The no-break space, the line separator and the byte order mark are
    white space like the ASCII ones. *)
Lemma unicode_space_is_trimmed :
  blank (bytes [194; 160]%nat) = true /\
  trim (bytes [194; 160]%nat ++ " Staging" ++ bytes [226; 128; 168]%nat ++
        bytes [239; 187; 191]%nat) = "Staging".
Proof. split; reflexivity. Qed.

End TrimFacts.

Module TransactionsMore.
Import Js Transactions Shape.

Lemma messageOr_truthy err fallback :
  truthy fallback = true -> truthy (messageOr err fallback) = true.
Proof.
  intros Hf. unfold messageOr. destruct (message err) as [m |]; [| exact Hf].
  destruct (truthy m) eqn:Hm; [exact Hm | exact Hf].
Qed.

Lemma dispatch_rejected w rid err :
  is_Some (pending w !! rid) ->
  unauthorized err = false ->
  hooks (dispatch (Respond rid (Rejected err)) w) =
  setLoading false
    (setError (Some (messageOr err "Failed to load transactions")) (hooks w)).
Proof.
  intros [q Hq] Hu. unfold dispatch. cbn [handle]. rewrite Hq.
  unfold loadTransactions_resume. rewrite Hu.
  rewrite TransactionsFacts.runEffect_keep by reflexivity. reflexivity.
Qed.

(** X3: a load that fails for a reason other than authorization always
    leaves the page on its error view, showing the message of the error or
    the fallback text, never an empty one; the rows held before are kept;
    and Retry from there starts a load with the page's current query. *)
Theorem X3_failed_load_shows_error_with_retry :
  forall (w : World) (rid : nat) (err : Error),
    is_Some (pending w !! rid) ->
    unauthorized err = false ->
    let w' := dispatch (Respond rid (Rejected err)) w in
    let w'' := dispatch ClickRetry w' in
    render (hooks w') = ViewError (messageOr err "Failed to load transactions") /\
    messageOr err "Failed to load transactions" <> "" /\
    transactions (hooks w') = transactions (hooks w) /\
    total (hooks w') = total (hooks w) /\
    newRequests w' w'' = [buildParams (hooks w')] /\
    loading (hooks w'') = true /\
    error (hooks w'') = None.
Proof.
  intros w rid err Hp Hu w' w''.
  pose proof (dispatch_rejected w rid err Hp Hu) as Hh. fold w' in Hh.
  pose proof (messageOr_truthy err "Failed to load transactions" eq_refl) as Ht.
  assert (Hview : render (hooks w') =
                  ViewError (messageOr err "Failed to load transactions")).
  { rewrite Hh. unfold render. cbn [loading error setLoading setError].
    rewrite Ht. reflexivity. }
  split; [exact Hview |].
  split. { intros Heq. rewrite Heq in Ht. discriminate. }
  split; [rewrite Hh; reflexivity |].
  split; [rewrite Hh; reflexivity |].
  assert (Hretry : w'' = loadTransactions (hooks w') w').
  { subst w''. unfold dispatch. cbn [handle]. rewrite Hview. cbn [isError].
    apply TransactionsFacts.runEffect_keep; reflexivity. }
  rewrite Hretry. repeat split. unfold newRequests. cbn. apply drop_app_length.
Qed.

Lemma X3_witness :
  let w := dispatch Mount Samples.fresh in
  let w' := dispatch (Respond 0 (Rejected (mkError None))) w in
  render (hooks w') = ViewError "Failed to load transactions" /\
  newRequests w' (dispatch ClickRetry w') = [mkParams 1 10 None None].
Proof.
  destruct (X3_failed_load_shows_error_with_retry
              (dispatch Mount Samples.fresh) 0%nat (mkError None))
    as (Hview & _ & _ & _ & Hretry & _).
  - vm_compute. eauto.
  - reflexivity.
  - split; [exact Hview | exact Hretry].
Defined.

Lemma wellFormed_buildParams h : 1 <= page h -> wellFormed (buildParams h).
Proof.
  intros Hp. unfold wellFormed, buildParams. cbn.
  repeat split; [exact Hp | |].
  - unfold truthy. destruct (String.eqb_spec (search h) "") as [He | Hne];
      cbn; congruence.
  - destruct (String.eqb_spec (filter h) "all") as [He | Hne]; congruence.
Qed.

Lemma issued_runEffect old w :
  1 <= page (hooks w) ->
  exists l, issued (runEffect old w) = (issued w ++ l)%list /\ Forall wellFormed l.
Proof.
  intros Hp. unfold runEffect. destruct (depsChanged old (hooks w)).
  - exists [buildParams (hooks w)]. split; [reflexivity |].
    constructor; [apply wellFormed_buildParams, Hp | constructor].
  - exists []. split; [symmetry; apply app_nil_r | constructor].
Qed.

Lemma issued_handle e w :
  1 <= page (hooks w) ->
  exists l, issued (handle e w) = (issued w ++ l)%list /\ Forall wellFormed l.
Proof.
  intros Hp.
  assert (Hnone : exists l, issued w = (issued w ++ l)%list /\ Forall wellFormed l).
  { exists []. split; [symmetry; apply app_nil_r | constructor]. }
  assert (Hone : exists l, (issued w ++ [buildParams (hooks w)])%list =
                           (issued w ++ l)%list /\ Forall wellFormed l).
  { exists [buildParams (hooks w)]. split; [reflexivity |].
    constructor; [apply wellFormed_buildParams, Hp | constructor]. }
  destruct e as [| text | key | | value | | | | rid r]; cbn [handle];
    try exact Hnone; try exact Hone.
  - destruct (String.eqb key "Enter"); [exact Hone | exact Hnone].
  - destruct (previousEnabled (hooks w)); exact Hnone.
  - destruct (nextEnabled (hooks w)); exact Hnone.
  - destruct (isError (render (hooks w))); [exact Hone | exact Hnone].
  - destruct (pending w !! rid); [| exact Hnone].
    destruct r as [d | err]; [exact Hnone |].
    unfold loadTransactions_resume. destruct (unauthorized err); exact Hnone.
Qed.

Lemma page_handle e w : 1 <= page (hooks w) -> 1 <= page (hooks (handle e w)).
Proof.
  intros Hp. pose proof (TransactionsFacts.page_dispatch e w Hp) as H.
  unfold dispatch in H. rewrite TransactionsFacts.page_runEffect in H. exact H.
Qed.

(** X4: every request the page ever issues, whatever the user does and
    whatever the server answers, asks for ten rows of a page numbered 1 or
    more, carries a search text only when it is not empty and a status only
    when it is not "all". *)
Theorem X4_every_request_is_well_formed :
  forall (es : list Event) (st : Storage) (loc : string),
    Forall wellFormed (issued (run es (initial st loc))).
Proof.
  intros es st loc.
  assert (H : forall w, 1 <= page (hooks w) -> Forall wellFormed (issued w) ->
                        Forall wellFormed (issued (run es w))).
  { induction es as [| e es IH]; intros w Hp Hw; [exact Hw |].
    cbn [run fold_left]. apply IH.
    - apply TransactionsFacts.page_dispatch, Hp.
    - unfold dispatch.
      destruct (issued_handle e w Hp) as (l1 & H1 & F1).
      destruct (issued_runEffect (hooks w) (handle e w) (page_handle e w Hp))
        as (l2 & H2 & F2).
      rewrite H2, H1. repeat apply Forall_app_2; assumption. }
  apply H; [cbn; lia | constructor].
Qed.

(** X6: text typed into the search box and not yet submitted still
    travels with the next fetch that anything else triggers: selecting
    another status right after typing sends the typed text along. *)
Theorem X6_unsubmitted_search_text_rides_on_next_fetch :
  forall (w : World) (text value : string),
    value <> filter (hooks w) ->
    let w' := run [TypeSearch text; SelectFilter value] w in
    newRequests w w' =
      [mkParams (page (hooks w)) 10
                (if truthy text then Some text else None)
                (if String.eqb value "all" then None else Some value)] /\
    search (hooks w') = text /\
    page (hooks w') = page (hooks w).
Proof.
  intros w text value Hne w'. subst w'. cbn [run fold_left].
  destruct (TransactionsFacts.typing_search_fetches_nothing w text) as [Hn Hs].
  set (w1 := dispatch (TypeSearch text) w) in *.
  assert (Hi : issued w1 = issued w).
  { subst w1. unfold dispatch, runEffect, depsChanged.
    cbn [handle withHooks hooks setSearch page filter].
    rewrite Z.eqb_refl, String.eqb_refl. reflexivity. }
  assert (Hh : hooks w1 = setSearch text (hooks w)).
  { subst w1. unfold dispatch, runEffect, depsChanged.
    cbn [handle withHooks hooks setSearch page filter].
    rewrite Z.eqb_refl, String.eqb_refl. reflexivity. }
  assert (Hne1 : value <> filter (hooks w1)) by (rewrite Hh; exact Hne).
  pose proof (TransactionsFacts.filter_change_refetches w1 value Hne1) as Hr.
  unfold newRequests in *. rewrite Hi in Hr. rewrite Hr, Hh.
  split; [reflexivity |]. split.
  - unfold dispatch. unfold runEffect.
    destruct (depsChanged _ _); cbn; rewrite Hh; reflexivity.
  - rewrite TransactionsFacts.filter_change_keeps_page, Hh. reflexivity.
Qed.

Lemma X6_witness :
  let w' := run [TypeSearch "alice"; SelectFilter "failed"] Samples.onPageThree in
  newRequests Samples.onPageThree w' =
    [mkParams 3 10 (Some "alice") (Some "failed")] /\
  search (hooks w') = "alice" /\
  page (hooks w') = 3.
Proof.
  apply (X6_unsubmitted_search_text_rides_on_next_fetch
           Samples.onPageThree "alice" "failed").
  discriminate.
Defined.

Lemma nextEnabled_table h :
  nextEnabled h = true ->
  loading h = false /\ isTable (render h) = true.
Proof.
  unfold nextEnabled. intros H. apply andb_true_iff in H. destruct H as [Ht _].
  split; [| exact Ht]. unfold render in Ht. destruct (loading h); [discriminate | reflexivity].
Qed.

Lemma previous_moves_back w :
  previousEnabled (hooks w) = true ->
  1 < page (hooks w) ->
  let w' := dispatch ClickPrevious w in
  page (hooks w') = page (hooks w) - 1 /\
  newRequests w w' =
    [mkParams (page (hooks w) - 1) 10 (p_search (buildParams (hooks w)))
              (p_filter (buildParams (hooks w)))].
Proof.
  intros Hprev Hgt. cbv zeta. unfold dispatch. cbn [handle]. rewrite Hprev.
  unfold runEffect, depsChanged. cbn [withHooks hooks setPage page filter].
  replace (Z.max 1 (page (hooks w) - 1)) with (page (hooks w) - 1) by lia.
  replace (page (hooks w) =? page (hooks w) - 1) with false
    by (symmetry; apply Z.eqb_neq; lia).
  cbn [negb orb]. split; [cbn; lia |].
  unfold newRequests. cbn. apply drop_app_length.
Qed.

(** X7: paging forth and back.  With Next enabled on page p, pressing it
    moves to page p+1 and fetches that page; once that fetch has delivered
    at least one row, Previous is enabled, and pressing it moves back to
    page p and fetches page p again with the same search and status. *)
Theorem X7_next_then_previous_returns_to_page :
  forall (w : World) (d : Data),
    nextEnabled (hooks w) = true ->
    d_transactions d <> [] ->
    let p := page (hooks w) in
    let q := buildParams (hooks w) in
    let forth := mkParams (p + 1) 10 (p_search q) (p_filter q) in
    let w1 := dispatch ClickNext w in
    let w2 := dispatch (Respond (List.length (issued w)) (Resolved d)) w1 in
    let w3 := dispatch ClickPrevious w2 in
    1 <= p ->
    page (hooks w1) = p + 1 /\
    newRequests w w1 = [forth] /\
    transactions (hooks w2) = d_transactions d /\
    previousEnabled (hooks w2) = true /\
    page (hooks w3) = p /\
    newRequests w2 w3 = [q].
Proof.
  intros w d Hnext Hrows p q forth w1 w2 w3 Hp.
  assert (H1 : w1 = loadTransactions (setPage (p + 1) (hooks w))
                      (withHooks (setPage (p + 1)) w)).
  { subst w1. unfold dispatch. cbn [handle]. rewrite Hnext.
    unfold runEffect, depsChanged. cbn [withHooks hooks setPage page filter].
    fold p. replace (p =? p + 1) with false by (symmetry; apply Z.eqb_neq; lia).
    reflexivity. }
  assert (Hpend : pending w1 !! List.length (issued w) = Some forth).
  { rewrite H1. cbn. apply lookup_insert_eq. }
  assert (H2 : w2 = loadTransactions_resume (Resolved d)
                      (mkWorld (hooks w1) (localStorage w1) (location w1)
                               (delete (List.length (issued w)) (pending w1))
                               (issued w1))).
  { subst w2. unfold dispatch. cbn [handle]. rewrite Hpend.
    apply TransactionsFacts.runEffect_keep; reflexivity. }
  assert (Hh2 : hooks w2 =
                mkHooks (d_transactions d) false None (search (hooks w))
                        (filter (hooks w)) (p + 1) (d_total d)).
  { rewrite H2, H1. reflexivity. }
  assert (Hprev : previousEnabled (hooks w2) = true).
  { rewrite Hh2. unfold previousEnabled, render. cbn.
    destruct (d_transactions d) as [| t l]; [congruence |]. cbn.
    apply negb_true_iff, Z.eqb_neq. lia. }
  destruct (previous_moves_back w2 Hprev) as [Hpage Hreq];
    [rewrite Hh2; cbn; lia |].
  fold w3 in Hpage, Hreq. rewrite Hh2 in Hpage, Hreq. cbn in Hpage, Hreq.
  repeat split.
  - rewrite H1. reflexivity.
  - rewrite H1. unfold newRequests. cbn. apply drop_app_length.
  - rewrite Hh2. reflexivity.
  - exact Hprev.
  - rewrite Hpage. lia.
  - rewrite Hreq. unfold q, buildParams. f_equal. f_equal. lia.
Qed.

Lemma X7_witness :
  let w := Samples.onPageThree in
  let w1 := dispatch ClickNext w in
  let w2 := dispatch (Respond 3 (Resolved Samples.settledPage)) w1 in
  let w3 := dispatch ClickPrevious w2 in
  page (hooks w1) = 4 /\
  newRequests w w1 = [mkParams 4 10 None None] /\
  page (hooks w3) = 3 /\
  newRequests w2 w3 = [mkParams 3 10 None None].
Proof.
  destruct (X7_next_then_previous_returns_to_page
              Samples.onPageThree Samples.settledPage)
    as (H1 & H2 & _ & _ & H3 & H4).
  - reflexivity.
  - discriminate.
  - vm_compute. discriminate.
  - repeat split; assumption.
Defined.

Lemma respond_other w rid rid' r q :
  rid' <> rid ->
  pending w !! rid = Some q ->
  pending (dispatch (Respond rid r) w) !! rid' = pending w !! rid'.
Proof.
  intros Hne Hp. unfold dispatch. cbn [handle]. rewrite Hp.
  rewrite TransactionsFacts.runEffect_keep.
  - destruct r as [d | err]; unfold loadTransactions_resume;
      [| destruct (unauthorized err)]; cbn; apply lookup_delete_ne; congruence.
  - rewrite TransactionsFacts.page_resume. reflexivity.
  - destruct r as [d | err]; unfold loadTransactions_resume;
      [| destruct (unauthorized err)]; reflexivity.
Qed.

Lemma respond_loading w rid r q :
  pending w !! rid = Some q ->
  loading (hooks (dispatch (Respond rid r) w)) = false.
Proof.
  intros Hp. unfold dispatch. cbn [handle]. rewrite Hp.
  rewrite TransactionsFacts.runEffect_keep.
  - destruct r as [d | err]; unfold loadTransactions_resume;
      [| destruct (unauthorized err)]; reflexivity.
  - rewrite TransactionsFacts.page_resume. reflexivity.
  - destruct r as [d | err]; unfold loadTransactions_resume;
      [| destruct (unauthorized err)]; reflexivity.
Qed.

(** X5: the loading state ends with the first answer.  When two fetches
    overlap, the answer to either one, good or bad, switches the loading
    screen off although the other fetch is still in flight and will change
    the page again when it is answered. *)
Theorem X5_loading_ends_while_a_fetch_is_still_in_flight :
  forall (w : World) (rid rid' : nat) (r : Response) (d : Data),
    rid <> rid' ->
    is_Some (pending w !! rid) ->
    is_Some (pending w !! rid') ->
    let w' := dispatch (Respond rid r) w in
    loading (hooks w') = false /\
    is_Some (pending w' !! rid') /\
    transactions (hooks (dispatch (Respond rid' (Resolved d)) w')) = d_transactions d.
Proof.
  intros w rid rid' r d Hne [q Hq] [q' Hq'] w'.
  assert (Hp : pending w' !! rid' = Some q').
  { subst w'. rewrite (respond_other w rid rid' r q); [exact Hq' | congruence | exact Hq]. }
  split; [exact (respond_loading w rid r q Hq) |].
  split; [eauto |].
  pose proof (TransactionsFacts.shown_dispatch (Respond rid' (Resolved d)) w') as Hs.
  cbn [Ordering.delivered] in Hs. rewrite Hp in Hs.
  unfold Ordering.shown, Ordering.shows in Hs. congruence.
Qed.

Lemma X5_witness :
  let w := run [Mount; SelectFilter "settled"] Samples.fresh in
  let w' := dispatch (Respond 0 (Resolved Samples.allPage)) w in
  loading (hooks w') = false /\
  is_Some (pending w' !! 1%nat) /\
  transactions (hooks (dispatch (Respond 1 (Resolved Samples.settledPage)) w'))
  = d_transactions Samples.settledPage.
Proof.
  apply (X5_loading_ends_while_a_fetch_is_still_in_flight
           (run [Mount; SelectFilter "settled"] Samples.fresh) 0%nat 1%nat
           (Resolved Samples.allPage) Samples.settledPage).
  - discriminate.
  - vm_compute. eauto.
  - vm_compute. eauto.
Defined.

(** X8: an error outlives a later success.  When two fetches overlap and
    one fails for a reason other than authorization, the answer to the
    other one, arriving afterwards, stores its rows and total but does not
    clear the error: the page keeps showing the error view, and the rows
    appear only after a new load has been started. *)
Theorem X8_error_view_survives_a_later_successful_answer :
  forall (w : World) (rid rid' : nat) (err : Error) (d : Data),
    rid <> rid' ->
    is_Some (pending w !! rid) ->
    is_Some (pending w !! rid') ->
    unauthorized err = false ->
    let w' := run [Respond rid (Rejected err); Respond rid' (Resolved d)] w in
    transactions (hooks w') = d_transactions d /\
    total (hooks w') = d_total d /\
    render (hooks w') = ViewError (messageOr err "Failed to load transactions").
Proof.
  intros w rid rid' err d Hne [q Hq] [q' Hq'] Hu w'.
  subst w'. cbn [run fold_left].
  pose proof (dispatch_rejected w rid err (ex_intro _ q Hq) Hu) as Hh.
  set (w1 := dispatch (Respond rid (Rejected err)) w) in *.
  assert (Hp : pending w1 !! rid' = Some q').
  { subst w1. rewrite (respond_other w rid rid' (Rejected err) q);
      [exact Hq' | congruence | exact Hq]. }
  assert (H2 : hooks (dispatch (Respond rid' (Resolved d)) w1) =
               setLoading false (setTotal (d_total d)
                 (setTransactions (d_transactions d) (hooks w1)))).
  { unfold dispatch. cbn [handle]. rewrite Hp.
    rewrite TransactionsFacts.runEffect_keep by reflexivity. reflexivity. }
  rewrite H2, Hh. repeat split.
  unfold render. cbn.
  rewrite (messageOr_truthy err "Failed to load transactions" eq_refl). reflexivity.
Qed.

Lemma X8_witness :
  let w := run [Mount; SelectFilter "settled"] Samples.fresh in
  let w' := run [Respond 0 (Rejected (mkError (Some "Timeout")));
                 Respond 1 (Resolved Samples.settledPage)] w in
  transactions (hooks w') = d_transactions Samples.settledPage /\
  total (hooks w') = 1 /\
  render (hooks w') = ViewError "Timeout".
Proof.
  apply (X8_error_view_survives_a_later_successful_answer
           (run [Mount; SelectFilter "settled"] Samples.fresh) 0%nat 1%nat
           (mkError (Some "Timeout")) Samples.settledPage).
  - discriminate.
  - vm_compute. eauto.
  - vm_compute. eauto.
  - reflexivity.
Defined.

(** X9: two unauthorized answers in a row do no more than one.  When two
    fetches in flight both fail as unauthorized, the second failure finds
    the session entries already gone and leaves storage and location as the
    first one put them; every other entry of the storage is still there. *)
Theorem X9_second_unauthorized_answer_changes_nothing_more :
  forall (w : World) (rid rid' : nat) (err err' : Error),
    rid <> rid' ->
    is_Some (pending w !! rid) ->
    is_Some (pending w !! rid') ->
    unauthorized err = true ->
    unauthorized err' = true ->
    let w1 := dispatch (Respond rid (Rejected err)) w in
    let w2 := dispatch (Respond rid' (Rejected err')) w1 in
    localStorage w1 = clearSession (localStorage w) /\
    localStorage w2 = localStorage w1 /\
    location w2 = "/login" /\
    hooks w2 = hooks w1 /\
    forall k : string,
      k <> "auth_token" -> k <> "user" ->
      localStorage w2 !! k = localStorage w !! k.
Proof.
  intros w rid rid' err err' Hne [q Hq] [q' Hq'] Hu Hu' w1 w2.
  assert (H1 : w1 = withHooks (setLoading false)
                      (mkWorld (hooks w) (clearSession (localStorage w)) "/login"
                               (delete rid (pending w)) (issued w))).
  { subst w1. unfold dispatch. cbn [handle]. rewrite Hq.
    unfold loadTransactions_resume. rewrite Hu.
    apply TransactionsFacts.runEffect_keep; reflexivity. }
  assert (Hp : pending w1 !! rid' = Some q').
  { rewrite H1. cbn. rewrite lookup_delete_ne by congruence. exact Hq'. }
  assert (H2 : w2 = withHooks (setLoading false)
                      (mkWorld (hooks w1) (clearSession (localStorage w1)) "/login"
                               (delete rid' (pending w1)) (issued w1))).
  { subst w2. unfold dispatch. cbn [handle]. rewrite Hp.
    unfold loadTransactions_resume. rewrite Hu'.
    apply TransactionsFacts.runEffect_keep; reflexivity. }
  assert (Hs1 : localStorage w1 = clearSession (localStorage w)) by (rewrite H1; reflexivity).
  assert (Hs2 : localStorage w2 = localStorage w1).
  { rewrite H2. cbn [localStorage withHooks]. rewrite Hs1.
    apply JsFacts.clearSession_twice. }
  repeat split.
  - exact Hs1.
  - exact Hs2.
  - rewrite H2. reflexivity.
  - rewrite H2, H1. reflexivity.
  - intros k Ha Hb. rewrite Hs2, Hs1.
    rewrite JsFacts.clearSession_lookup.
    apply String.eqb_neq in Ha, Hb. rewrite Ha, Hb. reflexivity.
Qed.

Lemma X9_witness :
  let w := run [Mount; SelectFilter "settled"] Samples.fresh in
  let w1 := dispatch (Respond 1 (Rejected Samples.expired)) w in
  let w2 := dispatch (Respond 0 (Rejected Samples.expired)) w1 in
  localStorage w1 = clearSession Samples.session /\
  localStorage w2 = localStorage w1 /\
  location w2 = "/login".
Proof.
  destruct (X9_second_unauthorized_answer_changes_nothing_more
              (run [Mount; SelectFilter "settled"] Samples.fresh) 1%nat 0%nat
              Samples.expired Samples.expired)
    as (H1 & H2 & H3 & _).
  - discriminate.
  - vm_compute. eauto.
  - vm_compute. eauto.
  - reflexivity.
  - reflexivity.
  - split; [exact H1 | split; [exact H2 | exact H3]].
Defined.

End TransactionsMore.

Module GuardedFacts.
Import Shape.

Section Steps.
Context {T : Type} (mine : T -> bool).
Implicit Types (pending : gmap nat T) (flag : bool) (next : nat).

Lemma guarded_empty flag : guarded mine ∅ flag 0.
Proof.
  repeat split.
  - intros rid t H. rewrite lookup_empty in H. discriminate.
  - intros _ rid t H. rewrite lookup_empty in H. discriminate.
  - intros rid1 rid2 t1 t2 H. rewrite lookup_empty in H. discriminate.
Qed.

Lemma guarded_next pending flag next :
  guarded mine pending flag next -> pending !! next = None.
Proof.
  intros (Hlt & _ & _). destruct (pending !! next) as [t |] eqn:Hl; [| reflexivity].
  apply Hlt in Hl. lia.
Qed.

(** A task of another handler is started. *)
Lemma guarded_add_other pending flag next t :
  mine t = false ->
  guarded mine pending flag next ->
  guarded mine (<[next := t]> pending) flag (S next).
Proof.
  intros Ht (Hlt & Hoff & Hone). repeat split.
  - intros rid t' Hl. apply lookup_insert_Some in Hl.
    destruct Hl as [[<- _] | [_ Hl]]; [lia | apply Hlt in Hl; lia].
  - intros Hf rid t' Hl. apply lookup_insert_Some in Hl.
    destruct Hl as [[_ <-] | [_ Hl]]; [exact Ht | exact (Hoff Hf _ _ Hl)].
  - intros rid1 rid2 t1 t2 H1 H2 M1 M2.
    apply lookup_insert_Some in H1, H2.
    destruct H1 as [[_ <-] | [_ H1]]; [congruence |].
    destruct H2 as [[_ <-] | [_ H2]]; [congruence |].
    exact (Hone _ _ _ _ H1 H2 M1 M2).
Qed.

(** The button is pressed while enabled. *)
Lemma guarded_press pending next t :
  guarded mine pending false next ->
  guarded mine (<[next := t]> pending) true (S next).
Proof.
  intros (Hlt & Hoff & Hone). repeat split.
  - intros rid t' Hl. apply lookup_insert_Some in Hl.
    destruct Hl as [[<- _] | [_ Hl]]; [lia | apply Hlt in Hl; lia].
  - discriminate.
  - intros rid1 rid2 t1 t2 H1 H2 M1 M2.
    apply lookup_insert_Some in H1, H2.
    destruct H1 as [[<- _] | [_ H1]], H2 as [[<- _] | [_ H2]];
      try reflexivity.
    + rewrite (Hoff eq_refl _ _ H2) in M2. discriminate.
    + rewrite (Hoff eq_refl _ _ H1) in M1. discriminate.
    + exact (Hone _ _ _ _ H1 H2 M1 M2).
Qed.

(** A task of another handler ends. *)
Lemma guarded_remove pending flag next rid :
  guarded mine pending flag next ->
  guarded mine (delete rid pending) flag next.
Proof.
  intros (Hlt & Hoff & Hone). repeat split.
  - intros rid' t Hl. apply lookup_delete_Some in Hl. exact (Hlt _ _ (proj2 Hl)).
  - intros Hf rid' t Hl. apply lookup_delete_Some in Hl.
    exact (Hoff Hf _ _ (proj2 Hl)).
  - intros rid1 rid2 t1 t2 H1 H2. apply lookup_delete_Some in H1, H2.
    exact (Hone _ _ _ _ (proj2 H1) (proj2 H2)).
Qed.

(** The handler's own task ends and the flag goes down. *)
Lemma guarded_finish pending flag next rid t :
  pending !! rid = Some t -> mine t = true ->
  guarded mine pending flag next ->
  guarded mine (delete rid pending) false next.
Proof.
  intros Hl Hm (Hlt & Hoff & Hone). repeat split.
  - intros rid' t' Hl'. apply lookup_delete_Some in Hl'. exact (Hlt _ _ (proj2 Hl')).
  - intros _ rid' t' Hl'. apply lookup_delete_Some in Hl'.
    destruct Hl' as [Hne Hl']. destruct (mine t') eqn:Hm'; [| reflexivity].
    exfalso. apply Hne. exact (Hone _ _ _ _ Hl Hl' Hm Hm').
  - intros rid1 rid2 t1 t2 H1 H2. apply lookup_delete_Some in H1, H2.
    exact (Hone _ _ _ _ (proj2 H1) (proj2 H2)).
Qed.

(** The handler's own task ends by starting its next one. *)
Lemma guarded_continue pending flag next rid t t' :
  pending !! rid = Some t -> mine t = true ->
  guarded mine pending flag next ->
  guarded mine (<[next := t']> (delete rid pending)) flag (S next).
Proof.
  intros Hl Hm H.
  pose proof (guarded_finish _ _ _ _ _ Hl Hm H) as (Hlt & Hoff & Hone).
  destruct H as (_ & Hoff0 & _).
  repeat split.
  - intros rid' t0 Hl'. apply lookup_insert_Some in Hl'.
    destruct Hl' as [[<- _] | [_ Hl']]; [lia | apply Hlt in Hl'; lia].
  - intros Hf. rewrite (Hoff0 Hf _ _ Hl) in Hm. discriminate.
  - intros rid1 rid2 t1 t2 H1 H2 M1 M2.
    apply lookup_insert_Some in H1, H2.
    destruct H1 as [[<- _] | [_ H1]], H2 as [[<- _] | [_ H2]];
      try reflexivity.
    + rewrite (Hoff eq_refl _ _ H2) in M2. discriminate.
    + rewrite (Hoff eq_refl _ _ H1) in M1. discriminate.
    + exact (Hone _ _ _ _ H1 H2 M1 M2).
Qed.

End Steps.

End GuardedFacts.

Module ApiKeysMore.
Import Js ApiKeys Secret Shape.

(** X10: with a key name that is empty or all white space, pressing Create
    Key makes no call and changes nothing on the page; it only raises the
    toast asking for a name. *)
Theorem X10_blank_key_name_is_rejected_before_any_call :
  forall w : World,
    isCreateDialogOpen (hooks w) = true ->
    creating (hooks w) = false ->
    blank (newKeyName (hooks w)) = true ->
    let w' := dispatch ClickCreateKey w in
    hooks w' = hooks w /\
    calls w' = calls w /\
    pending w' = pending w /\
    toasts w' = (toasts w ++ [mkToast "Error" "Please enter a key name" true])%list.
Proof.
  intros w Hopen Hidle Hblank. cbv zeta. cbn [dispatch].
  rewrite Hopen, Hidle. cbn [andb negb]. unfold handleCreateKey.
  apply TrimFacts.trim_blank in Hblank. rewrite Hblank. repeat split.
Qed.

Lemma X10_witness :
  let w := run [Mount; SetCreateDialogOpen true; TypeKeyName "   "]
               Samples.freshKeys in
  let w' := dispatch ClickCreateKey w in
  hooks w' = hooks w /\
  calls w' = [GetApiKeys] /\
  pending w' = pending w /\
  toasts w' = [mkToast "Error" "Please enter a key name" true].
Proof.
  apply (X10_blank_key_name_is_rejected_before_any_call
           (run [Mount; SetCreateDialogOpen true; TypeKeyName "   "]
                Samples.freshKeys)); reflexivity.
Defined.

(** A name that is a no-break space is white space only as well: Create
    Key raises the toast and sends nothing. *)
Lemma no_break_space_name_is_rejected :
  let w := run [Mount; SetCreateDialogOpen true;
                TypeKeyName (Js.bytes [194; 160]%nat)]
               Samples.freshKeys in
  let w' := dispatch ClickCreateKey w in
  calls w' = [GetApiKeys] /\
  toasts w' = [mkToast "Error" "Please enter a key name" true].
Proof. split; reflexivity. Qed.

Lemma calls_afterLoad caller w : calls (afterLoad caller w) = calls w.
Proof. destruct caller; reflexivity. Qed.

Lemma calls_loadApiKeys_resume r w : calls (loadApiKeys_resume r w) = calls w.
Proof.
  unfold loadApiKeys_resume. destruct r as [data | result | | err]; try reflexivity.
  destruct (unauthorized err); reflexivity.
Qed.

(** The calls one event adds to the log all carry proper names. *)
Lemma calls_dispatch e w :
  exists l, calls (dispatch e w) = (calls w ++ l)%list /\ Forall properName l.
Proof.
  assert (Hnone : exists l, calls w = (calls w ++ l)%list /\ Forall properName l).
  { exists []. split; [symmetry; apply app_nil_r | constructor]. }
  assert (Hplain : forall c, properName c ->
            exists l, (calls w ++ [c])%list = (calls w ++ l)%list /\
                      Forall properName l).
  { intros c Hc. exists [c]. split; [reflexivity | repeat constructor; exact Hc]. }
  destruct e as [| open | text | | | | index confirmed | | rid r];
    cbn [dispatch]; try exact Hnone.
  - apply Hplain. exact I.
  - destruct (isCreateDialogOpen (hooks w)); exact Hnone.
  - destruct (isCreateDialogOpen (hooks w) && negb (creating (hooks w)));
      [| exact Hnone].
    unfold handleCreateKey.
    destruct (truthy (trim (newKeyName (hooks w)))) eqn:Ht; cbn [negb];
      [| exact Hnone].
    apply Hplain. cbn. split; [| apply TrimFacts.trim_trim].
    intros Heq. rewrite Heq in Ht. discriminate.
  - destruct (showCreatedKey (hooks w)); [| exact Hnone].
    destruct (createdKey (hooks w)) as [s |]; [| exact Hnone].
    destruct (truthy s); exact Hnone.
  - destruct (showCreatedKey (hooks w)); exact Hnone.
  - destruct (render (hooks w)); try exact Hnone.
    destruct (keys (hooks w) !! index); [| exact Hnone].
    destruct confirmed; [| exact Hnone]. apply Hplain. exact I.
  - destruct (render (hooks w)); try exact Hnone. apply Hplain. exact I.
  - destruct (pending w !! rid) as [t |]; [| exact Hnone].
    destruct t as [caller | |], r as [data | result | | err];
      cbn [wellTyped resume]; try exact Hnone.
    + rewrite calls_afterLoad. exact Hnone.
    + rewrite calls_afterLoad, calls_loadApiKeys_resume. exact Hnone.
    + apply Hplain. exact I.
    + apply Hplain. exact I.
Qed.

(** X11: every creation call the page ever makes carries a name that is
    not empty and has no white space at either end, whatever was typed. *)
Theorem X11_created_key_names_are_trimmed_and_non_empty :
  forall (es : list Event) (st : Storage) (loc : string),
    Forall properName (calls (run es (initial st loc))).
Proof.
  intros es st loc.
  assert (H : forall w, Forall properName (calls w) ->
                        Forall properName (calls (run es w))).
  { induction es as [| e es IH]; intros w Hw; [exact Hw |].
    cbn [run fold_left]. apply IH.
    destruct (calls_dispatch e w) as (l & -> & Hl).
    apply Forall_app_2; assumption. }
  apply H. constructor.
Qed.

Lemma creationGuard_dispatch e w :
  creationGuard w -> creationGuard (dispatch e w).
Proof.
  unfold creationGuard.
  destruct w as [[k l er o n ck s c] st loc t cb p ca].
  cbn [pending hooks creating calls]. intros G.
  assert (Hlen : forall x : Call, List.length (ca ++ [x]) = S (List.length ca))
    by (intros x; rewrite length_app; cbn; lia).
  destruct e as [| open | text | | | | index confirmed | | rid r];
    cbn [dispatch hooks isCreateDialogOpen creating showCreatedKey createdKey
         keys pending].
  - cbn. rewrite Hlen. apply GuardedFacts.guarded_add_other; [reflexivity | exact G].
  - exact G.
  - destruct o; exact G.
  - destruct o, c; cbn [andb negb]; try exact G.
    unfold handleCreateKey. cbn [hooks newKeyName].
    destruct (negb (truthy (trim n))); [exact G |].
    cbn. rewrite Hlen. apply GuardedFacts.guarded_press. exact G.
  - destruct s; [| exact G]. destruct ck as [text |]; [| exact G].
    destruct (truthy text); exact G.
  - destruct s; exact G.
  - unfold render. cbn [loading error keys].
    destruct l; [exact G |].
    assert (Hlist : guarded creationTask
      (pending match (if (length k =? 0)%nat then ViewEmpty else ViewList), k !! index with
       | ViewList, Some key =>
           handleDeleteKey (id key) (name key) confirmed
             (mkWorld (mkHooks k false er o n ck s c) st loc t cb p ca)
       | _, _ => mkWorld (mkHooks k false er o n ck s c) st loc t cb p ca
       end)
      (creating (hooks match (if (length k =? 0)%nat then ViewEmpty else ViewList), k !! index with
       | ViewList, Some key =>
           handleDeleteKey (id key) (name key) confirmed
             (mkWorld (mkHooks k false er o n ck s c) st loc t cb p ca)
       | _, _ => mkWorld (mkHooks k false er o n ck s c) st loc t cb p ca
       end))
      (List.length (calls match (if (length k =? 0)%nat then ViewEmpty else ViewList), k !! index with
       | ViewList, Some key =>
           handleDeleteKey (id key) (name key) confirmed
             (mkWorld (mkHooks k false er o n ck s c) st loc t cb p ca)
       | _, _ => mkWorld (mkHooks k false er o n ck s c) st loc t cb p ca
       end))).
    { destruct (length k =? 0)%nat; [exact G |].
      destruct (k !! index); [| exact G].
      destruct confirmed; [| exact G].
      cbn. rewrite Hlen.
      apply GuardedFacts.guarded_add_other; [reflexivity | exact G]. }
    destruct er as [msg |]; [destruct (truthy msg) |]; (exact G || exact Hlist).
  - unfold render. cbn [loading error keys].
    destruct l; [exact G |].
    destruct er as [msg |]; [destruct (truthy msg) |];
      try (destruct (length k =? 0)%nat; exact G).
    cbn. rewrite Hlen. apply GuardedFacts.guarded_add_other; [reflexivity | exact G].
  - destruct (p !! rid) as [task |] eqn:Hp; [| exact G].
    destruct task as [caller | |], r as [data | result | | err];
      cbn [wellTyped resume]; try exact G.
    + destruct caller; cbn.
      * apply GuardedFacts.guarded_remove. exact G.
      * exact (GuardedFacts.guarded_finish creationTask _ _ _ _ _ Hp eq_refl G).
      * apply GuardedFacts.guarded_remove. exact G.
    + unfold loadApiKeys_resume.
      destruct caller, (unauthorized err); cbn;
        first [ exact (GuardedFacts.guarded_finish creationTask _ _ _ _ _ Hp eq_refl G)
              | apply GuardedFacts.guarded_remove; exact G ].
    + cbn. rewrite Hlen.
      exact (GuardedFacts.guarded_continue creationTask _ _ _ _ _ _ Hp eq_refl G).
    + cbn. exact (GuardedFacts.guarded_finish creationTask _ _ _ _ _ Hp eq_refl G).
    + cbn. rewrite Hlen. apply GuardedFacts.guarded_add_other; [reflexivity |].
      apply GuardedFacts.guarded_remove. exact G.
    + cbn. apply GuardedFacts.guarded_remove. exact G.
Qed.

(** X12: the Create Key button cannot start a second creation while one is
    under way.  In every state the page can reach, at most one task begun by
    the button (the creation call or the list refresh that follows it) is
    in flight, and none is while the button is enabled. *)
Theorem X12_at_most_one_creation_in_flight :
  forall (es : list Event) (st : Storage) (loc : string),
    let w := run es (initial st loc) in
    (creating (hooks w) = false ->
     forall rid t, pending w !! rid = Some t -> creationTask t = false) /\
    (forall rid1 rid2 t1 t2,
        pending w !! rid1 = Some t1 -> pending w !! rid2 = Some t2 ->
        creationTask t1 = true -> creationTask t2 = true -> rid1 = rid2).
Proof.
  intros es st loc w.
  assert (H : forall w0, creationGuard w0 -> creationGuard (run es w0)).
  { induction es as [| e es IH]; intros w0 G; [exact G |].
    cbn [run fold_left]. apply IH, creationGuard_dispatch, G. }
  destruct (H (initial st loc) (GuardedFacts.guarded_empty creationTask false))
    as (_ & Hoff & Hone).
  split; [exact Hoff | exact Hone].
Qed.

Lemma revealOpen_dispatch e w :
  revealOpen (hooks w) -> revealOpen (hooks (dispatch e w)).
Proof.
  intros R.
  assert (Hset : revealOpen (mkHooks [] false None false "" (Some "") true false))
    by (split; [eauto | reflexivity]).
  destruct e as [| open | text | | | | index confirmed | | rid r];
    cbn [dispatch]; try exact R.
  - destruct (isCreateDialogOpen (hooks w)); exact R.
  - destruct (isCreateDialogOpen (hooks w) && negb (creating (hooks w)));
      [| exact R].
    unfold handleCreateKey.
    destruct (negb (truthy (trim (newKeyName (hooks w))))); exact R.
  - destruct (showCreatedKey (hooks w)); [| exact R].
    destruct (createdKey (hooks w)) as [s |] eqn:Hk; [| exact R].
    destruct (truthy s); exact R.
  - destruct (showCreatedKey (hooks w)); [| exact R].
    split; [discriminate | intros [x Hx]; discriminate].
  - destruct (render (hooks w)); try exact R.
    destruct (keys (hooks w) !! index); [| exact R].
    destruct confirmed; exact R.
  - destruct (render (hooks w)); exact R.
  - destruct (pending w !! rid) as [t |]; [| exact R].
    destruct t as [caller | |], r as [data | result | | err];
      cbn [wellTyped resume]; try exact R.
    + destruct caller; exact R.
    + unfold loadApiKeys_resume. destruct caller, (unauthorized err); exact R.
    + split; [eauto | reflexivity].
Qed.

(** X13: in every state the page can reach, it holds a secret exactly
    while the reveal dialog is open, so what the dialog shows is all of the
    secret material the page has. *)
Theorem X13_secret_is_held_exactly_while_reveal_is_open :
  forall (es : list Event) (st : Storage) (loc : string),
    let h := hooks (run es (initial st loc)) in
    (showCreatedKey h = true <-> is_Some (createdKey h)) /\
    revealed h = createdKey h.
Proof.
  intros es st loc h.
  assert (H : forall w, revealOpen (hooks w) -> revealOpen (hooks (run es w))).
  { induction es as [| e es IH]; intros w R; [exact R |].
    cbn [run fold_left]. apply IH, revealOpen_dispatch, R. }
  assert (R : revealOpen h).
  { apply H. split; [discriminate | intros [x Hx]; discriminate]. }
  split; [exact R |]. unfold revealed.
  destruct (showCreatedKey h) eqn:Hs; [reflexivity |].
  destruct (createdKey h) as [s |] eqn:Hk; [| reflexivity].
  destruct R as [_ R]. rewrite R in Hs by eauto. discriminate.
Qed.

(** What one event can put on the clipboard: the secret held just before. *)
Lemma clipboard_dispatch e w :
  clipboard (dispatch e w) = clipboard w \/
  clipboard (dispatch e w) = createdKey (hooks w).
Proof.
  destruct e as [| open | text | | | | index confirmed | | rid r];
    cbn [dispatch]; try (left; reflexivity).
  - destruct (isCreateDialogOpen (hooks w)); left; reflexivity.
  - destruct (isCreateDialogOpen (hooks w) && negb (creating (hooks w)));
      [| left; reflexivity].
    unfold handleCreateKey.
    destruct (negb (truthy (trim (newKeyName (hooks w))))); left; reflexivity.
  - destruct (showCreatedKey (hooks w)); [| left; reflexivity].
    destruct (createdKey (hooks w)) as [s |] eqn:Hk; [| left; reflexivity].
    destruct (truthy s); [right | left]; reflexivity.
  - destruct (showCreatedKey (hooks w)); left; reflexivity.
  - destruct (render (hooks w)); try (left; reflexivity).
    destruct (keys (hooks w) !! index); [| left; reflexivity].
    destruct confirmed; left; reflexivity.
  - destruct (render (hooks w)); left; reflexivity.
  - destruct (pending w !! rid) as [t |]; [| left; reflexivity].
    destruct t as [caller | |], r as [data | result | | err];
      cbn [wellTyped resume]; try (left; reflexivity).
    + destruct caller; left; reflexivity.
    + unfold loadApiKeys_resume.
      destruct caller, (unauthorized err); left; reflexivity.
Qed.

Lemma clipboard_run es : forall w s,
  clipboard (run es w) = Some s ->
  clipboard w = Some s \/ createdKey (hooks w) = Some s \/ In s (secretsIn es).
Proof.
  induction es as [| e es IH]; intros w s Hc; [left; exact Hc |].
  cbn [run fold_left] in Hc. apply IH in Hc.
  destruct Hc as [Hc | [Hk | Hin]].
  - destruct (clipboard_dispatch e w) as [H | H]; rewrite H in Hc; auto.
  - destruct (ApiKeysFacts.createdKey_dispatch e w)
      as [H | [H | (rid & result & -> & H)]]; rewrite H in Hk.
    + auto.
    + discriminate.
    + right. right. left. congruence.
  - right. right. apply ApiKeysFacts.secretsIn_cons, Hin.
Qed.

(** X14: the only thing the page ever writes to the clipboard is a secret
    that a creation response delivered during the session. *)
Theorem X14_clipboard_only_receives_delivered_secrets :
  forall (es : list Event) (st : Storage) (loc : string) (s : string),
    clipboard (run es (initial st loc)) = Some s ->
    In s (secretsIn es).
Proof.
  intros es st loc s Hc. apply clipboard_run in Hc.
  destruct Hc as [Hc | [Hc | Hc]]; [discriminate | discriminate | exact Hc].
Qed.

Lemma X14_witness :
  In "bk_test_77c0e1d2a3b4c5d6e7f8"
     [ "bk_test_77c0e1d2a3b4c5d6e7f8" ].
Proof.
  exact (X14_clipboard_only_receives_delivered_secrets
           [ Mount; Respond 0 (ResolvedKeys [Samples.keyA]);
             SetCreateDialogOpen true; TypeKeyName "Staging"; ClickCreateKey;
             Respond 1 (ResolvedCreated Samples.createdB); ClickCopy ]
           Samples.session "/dashboard/api-keys"
           "bk_test_77c0e1d2a3b4c5d6e7f8" eq_refl).
Defined.

(** X15: the success toast of a creation or a deletion does not depend on
    the list refresh that precedes it.  However that refresh settles, with
    the list, with a failure shown on the page or with the session being
    dropped, the toast is raised, and after a creation the button is
    enabled again. *)
Theorem X15_success_toast_whatever_the_refresh_does :
  forall (w : World) (rid : nat) (caller : Caller) (r : Response),
    pending w !! rid = Some (AwaitGetApiKeys caller) ->
    wellTyped (AwaitGetApiKeys caller) r = true ->
    let w' := dispatch (Respond rid r) w in
    toasts w' = (toasts w ++ successToast caller)%list /\
    loading (hooks w') = false /\
    (caller = FromCreate -> creating (hooks w') = false) /\
    (forall err, r = Rejected err -> unauthorized err = false ->
       error (hooks w') = Some (messageOr err "Failed to load API keys") /\
       keys (hooks w') = keys (hooks w)).
Proof.
  intros w rid caller r Hp Ht w'. subst w'.
  rewrite (ApiKeysFacts.dispatch_respond w rid r _ Hp Ht).
  destruct r as [data | result | | err]; try discriminate; cbn [resume].
  - destruct caller; cbn; rewrite ?app_nil_r;
      (split; [reflexivity | split; [reflexivity | split;
         [first [reflexivity | discriminate] | discriminate]]]).
  - unfold loadApiKeys_resume.
    destruct (unauthorized err) eqn:Hu, caller; cbn; rewrite ?app_nil_r;
      (split; [reflexivity | split; [reflexivity | split;
         [first [reflexivity | discriminate] |]]]);
      intros err' He Hu'; injection He as <-;
      first [congruence | split; reflexivity].
Qed.

Lemma X15_witness :
  let w := dispatch (Respond 1 (ResolvedCreated Samples.createdB)) Samples.creating in
  let w' := dispatch (Respond 2 (Rejected (mkError (Some "Network down")))) w in
  toasts w' = [mkToast "Success" "API key created successfully" false] /\
  error (hooks w') = Some "Network down".
Proof.
  destruct (X15_success_toast_whatever_the_refresh_does
              (dispatch (Respond 1 (ResolvedCreated Samples.createdB)) Samples.creating)
              2%nat FromCreate (Rejected (mkError (Some "Network down")))
              eq_refl eq_refl)
    as (Ht & _ & _ & He).
  split; [exact Ht |]. exact (proj1 (He _ eq_refl eq_refl)).
Defined.

(** A creation or a deletion that fails leaves the page as it was, apart
    from one destructive toast; after a failed creation the button is
    enabled again. *)
Lemma failed_mutation_leaves_page w rid t err :
  pending w !! rid = Some t ->
  t = AwaitCreateApiKey \/ t = AwaitDeleteApiKey ->
  let w' := dispatch (Respond rid (Rejected err)) w in
  let fallback := match t with
                  | AwaitCreateApiKey => "Failed to create API key"
                  | _ => "Failed to delete API key"
                  end in
  hooks w' = (if creationTask t then setCreating false (hooks w) else hooks w) /\
  calls w' = calls w /\
  pending w' = delete rid (pending w) /\
  toasts w' = (toasts w ++ [mkToast "Error" (messageOr err fallback) true])%list.
Proof.
  intros Hp Ht. cbv zeta.
  destruct Ht as [-> | ->];
    rewrite (ApiKeysFacts.dispatch_respond w rid (Rejected err) _ Hp eq_refl);
    repeat split.
Qed.

Lemma length_snoc {A} (l : list A) (x : A) : List.length (l ++ [x]) = S (List.length l).
Proof. rewrite length_app. cbn. lia. Qed.

(** X16: a failed creation can be retried as it stands.  The typed name is
    kept and the button is enabled again, so pressing Create Key once more
    sends the same call; between the two calls the page shows one error
    toast and the key list has not changed. *)
Theorem X16_failed_creation_can_be_retried :
  forall (w : World) (err : Error),
    isCreateDialogOpen (hooks w) = true ->
    creating (hooks w) = false ->
    blank (newKeyName (hooks w)) = false ->
    let keyName := trim (newKeyName (hooks w)) in
    let w1 := dispatch ClickCreateKey w in
    let w2 := dispatch (Respond (List.length (calls w)) (Rejected err)) w1 in
    let w3 := dispatch ClickCreateKey w2 in
    newCalls w w1 = [CreateApiKey keyName] /\
    creating (hooks w1) = true /\
    hooks w2 = hooks w /\
    toasts w2 =
      (toasts w ++ [mkToast "Error" (messageOr err "Failed to create API key") true])%list /\
    newCalls w2 w3 = [CreateApiKey keyName] /\
    calls w3 = (calls w ++ [CreateApiKey keyName; CreateApiKey keyName])%list.
Proof.
  intros w err Hopen Hidle Hname keyName w1 w2 w3.
  assert (Ht : truthy (trim (newKeyName (hooks w))) = true).
  { unfold truthy. apply negb_true_iff. apply String.eqb_neq.
    intros H. apply TrimFacts.trim_blank in H. congruence. }
  assert (H1 : w1 = call (CreateApiKey keyName) AwaitCreateApiKey
                      (withHooks (setCreating true) w)).
  { subst w1. cbn [dispatch]. rewrite Hopen, Hidle. cbn [andb negb].
    unfold handleCreateKey. rewrite Ht. reflexivity. }
  assert (Hp : pending w1 !! List.length (calls w) = Some AwaitCreateApiKey).
  { rewrite H1. cbn. apply lookup_insert_eq. }
  destruct (failed_mutation_leaves_page w1 _ _ err Hp (or_introl eq_refl))
    as (Hh2 & Hc2 & _ & Ht2).
  fold w2 in Hh2, Hc2, Ht2. cbn [creationTask] in Hh2.
  assert (Hh : hooks w2 = hooks w).
  { rewrite Hh2, H1. destruct w as [[k l er o n ck s c] st loc t cb p ca].
    cbn in *. subst c. reflexivity. }
  assert (H3 : w3 = call (CreateApiKey keyName) AwaitCreateApiKey
                      (withHooks (setCreating true) w2)).
  { subst w3. cbn [dispatch]. rewrite Hh, Hopen, Hidle. cbn [andb negb].
    unfold handleCreateKey. rewrite Hh, Ht. reflexivity. }
  repeat split.
  - rewrite H1. unfold newCalls. cbn. apply drop_app_length.
  - rewrite H1. reflexivity.
  - exact Hh.
  - rewrite Ht2, H1. reflexivity.
  - rewrite H3. unfold newCalls. cbn. apply drop_app_length.
  - rewrite H3. cbn [calls call withHooks]. rewrite Hc2, H1. cbn.
    rewrite <- app_assoc. reflexivity.
Qed.

Lemma X16_witness :
  let w := run [Mount; SetCreateDialogOpen true; TypeKeyName " Staging "]
               Samples.freshKeys in
  let w1 := dispatch ClickCreateKey w in
  let w2 := dispatch (Respond 1 (Rejected (mkError (Some "Server error")))) w1 in
  let w3 := dispatch ClickCreateKey w2 in
  toasts w2 = [mkToast "Error" "Server error" true] /\
  calls w3 = [GetApiKeys; CreateApiKey "Staging"; CreateApiKey "Staging"].
Proof.
  destruct (X16_failed_creation_can_be_retried
              (run [Mount; SetCreateDialogOpen true; TypeKeyName " Staging "]
                   Samples.freshKeys)
              (mkError (Some "Server error")) eq_refl eq_refl eq_refl)
    as (_ & _ & _ & Ht & _ & Hc).
  split; [exact Ht | exact Hc].
Defined.

(** X17: a deletion from click to list.  Confirming the delete of a row
    sends one deletion call for the id of that row and leaves the page as it
    is; when the server accepts, the list is fetched again; when that fetch
    answers, the list on the page is the answer and one success toast has
    been raised.  The page never removes the row by itself. *)
Theorem X17_confirmed_delete_runs_through_to_the_new_list :
  forall (w : World) (index : nat) (key : ApiKey) (data : list ApiKey),
    render (hooks w) = ViewList ->
    keys (hooks w) !! index = Some key ->
    let n := List.length (calls w) in
    let w1 := dispatch (ClickDelete index true) w in
    let w2 := dispatch (Respond n ResolvedVoid) w1 in
    let w3 := dispatch (Respond (S n) (ResolvedKeys data)) w2 in
    hooks w1 = hooks w /\
    keys (hooks w2) = keys (hooks w) /\
    loading (hooks w2) = true /\
    keys (hooks w3) = data /\
    loading (hooks w3) = false /\
    calls w3 = (calls w ++ [DeleteApiKey (id key); GetApiKeys])%list /\
    toasts w3 =
      (toasts w ++ [mkToast "Success" "API key deleted successfully" false])%list.
Proof.
  intros w index key data Hv Hk n w1 w2 w3.
  assert (H1 : w1 = call (DeleteApiKey (id key)) AwaitDeleteApiKey w).
  { subst w1. cbn [dispatch]. rewrite Hv, Hk. reflexivity. }
  assert (Hp1 : pending w1 !! n = Some AwaitDeleteApiKey).
  { rewrite H1. cbn. apply lookup_insert_eq. }
  assert (H2 : w2 = loadApiKeys FromDelete (settle n w1)).
  { subst w2. rewrite (ApiKeysFacts.dispatch_respond w1 n ResolvedVoid _ Hp1 eq_refl).
    reflexivity. }
  assert (Hn : List.length (calls (settle n w1)) = S n).
  { rewrite H1. cbn. apply length_snoc. }
  assert (Hp2 : pending w2 !! S n = Some (AwaitGetApiKeys FromDelete)).
  { rewrite H2. cbn [loadApiKeys call pending withHooks].
    rewrite <- Hn. apply lookup_insert_eq. }
  assert (H3 : w3 = afterLoad FromDelete
                      (loadApiKeys_resume (ResolvedKeys data) (settle (S n) w2))).
  { subst w3.
    rewrite (ApiKeysFacts.dispatch_respond w2 (S n) (ResolvedKeys data) _ Hp2 eq_refl).
    reflexivity. }
  repeat split.
  - rewrite H1. reflexivity.
  - rewrite H2, H1. reflexivity.
  - rewrite H2. reflexivity.
  - rewrite H3. reflexivity.
  - rewrite H3. reflexivity.
  - rewrite H3, H2, H1. cbn. rewrite <- app_assoc. reflexivity.
  - rewrite H3, H2, H1. reflexivity.
Qed.

Lemma X17_witness :
  let w := run [Mount; Respond 0 (ResolvedKeys [Samples.keyA; Samples.keyB])]
               Samples.freshKeys in
  let w3 := run [ClickDelete 1 true; Respond 1 ResolvedVoid;
                 Respond 2 (ResolvedKeys [Samples.keyA])] w in
  keys (hooks w3) = [Samples.keyA] /\
  calls w3 = [GetApiKeys; DeleteApiKey "k-2"; GetApiKeys] /\
  toasts w3 = [mkToast "Success" "API key deleted successfully" false].
Proof.
  destruct (X17_confirmed_delete_runs_through_to_the_new_list
              (run [Mount; Respond 0 (ResolvedKeys [Samples.keyA; Samples.keyB])]
                   Samples.freshKeys)
              1%nat Samples.keyB [Samples.keyA] eq_refl eq_refl)
    as (_ & _ & _ & Hk & _ & Hc & Ht).
  split; [exact Hk | split; [exact Hc | exact Ht]].
Defined.

(** X18: a creation from click to closed dialog.  With a name that is not
    blank, Create Key sends the trimmed name; the answer opens the reveal
    dialog on the secret, empties the name field and fetches the list; the
    list answer replaces the keys, raises the success toast and enables the
    button; closing the dialog then leaves a page that holds no secret, has
    both dialogs closed and shows the fetched list. *)
Theorem X18_creation_runs_through_to_a_page_without_secret :
  forall (w : World) (result : CreatedKey) (data : list ApiKey),
    isCreateDialogOpen (hooks w) = true ->
    creating (hooks w) = false ->
    blank (newKeyName (hooks w)) = false ->
    let n := List.length (calls w) in
    let w1 := dispatch ClickCreateKey w in
    let w2 := dispatch (Respond n (ResolvedCreated result)) w1 in
    let w3 := dispatch (Respond (S n) (ResolvedKeys data)) w2 in
    let w4 := dispatch CloseCreatedKeyDialog w3 in
    revealed (hooks w2) = Some (secret_key result) /\
    revealed (hooks w3) = Some (secret_key result) /\
    hooks w4 = mkHooks data false None false "" None false false /\
    calls w4 =
      (calls w ++ [CreateApiKey (trim (newKeyName (hooks w))); GetApiKeys])%list /\
    toasts w4 =
      (toasts w ++ [mkToast "Success" "API key created successfully" false])%list.
Proof.
  intros w result data Hopen Hidle Hname n w1 w2 w3 w4.
  assert (Ht : truthy (trim (newKeyName (hooks w))) = true).
  { unfold truthy. apply negb_true_iff. apply String.eqb_neq.
    intros H. apply TrimFacts.trim_blank in H. congruence. }
  assert (H1 : w1 = call (CreateApiKey (trim (newKeyName (hooks w))))
                      AwaitCreateApiKey (withHooks (setCreating true) w)).
  { subst w1. cbn [dispatch]. rewrite Hopen, Hidle. cbn [andb negb].
    unfold handleCreateKey. rewrite Ht. reflexivity. }
  assert (Hp1 : pending w1 !! n = Some AwaitCreateApiKey).
  { rewrite H1. cbn. apply lookup_insert_eq. }
  assert (H2 : w2 = handleCreateKey_resume (ResolvedCreated result) (settle n w1)).
  { subst w2.
    rewrite (ApiKeysFacts.dispatch_respond w1 n (ResolvedCreated result) _ Hp1 eq_refl).
    reflexivity. }
  assert (Hn : List.length (calls (settle n w1)) = S n).
  { rewrite H1. cbn. apply length_snoc. }
  assert (Hp2 : pending w2 !! S n = Some (AwaitGetApiKeys FromCreate)).
  { rewrite H2. cbn [handleCreateKey_resume loadApiKeys call pending withHooks].
    rewrite <- Hn. apply lookup_insert_eq. }
  assert (H3 : w3 = afterLoad FromCreate
                      (loadApiKeys_resume (ResolvedKeys data) (settle (S n) w2))).
  { subst w3.
    rewrite (ApiKeysFacts.dispatch_respond w2 (S n) (ResolvedKeys data) _ Hp2 eq_refl).
    reflexivity. }
  assert (Hshow : showCreatedKey (hooks w3) = true).
  { rewrite H3, H2. reflexivity. }
  assert (H4 : w4 = handleCloseCreatedKeyDialog w3).
  { subst w4. cbn [dispatch]. rewrite Hshow. reflexivity. }
  repeat split.
  - rewrite H2. reflexivity.
  - rewrite H3, H2. reflexivity.
  - rewrite H4, H3, H2, H1. reflexivity.
  - rewrite H4, H3, H2, H1. cbn. rewrite <- app_assoc. reflexivity.
  - rewrite H4, H3, H2, H1. reflexivity.
Qed.

Lemma X18_witness :
  let w := run [Mount; Respond 0 (ResolvedKeys [Samples.keyA]);
                SetCreateDialogOpen true; TypeKeyName " Staging "]
               Samples.freshKeys in
  let w4 := run [ClickCreateKey; Respond 1 (ResolvedCreated Samples.createdB);
                 Respond 2 (ResolvedKeys [Samples.keyA; Samples.keyB]);
                 CloseCreatedKeyDialog] w in
  hooks w4 = mkHooks [Samples.keyA; Samples.keyB] false None false "" None false false /\
  calls w4 = [GetApiKeys; CreateApiKey "Staging"; GetApiKeys].
Proof.
  destruct (X18_creation_runs_through_to_a_page_without_secret
              (run [Mount; Respond 0 (ResolvedKeys [Samples.keyA]);
                    SetCreateDialogOpen true; TypeKeyName " Staging "]
                   Samples.freshKeys)
              Samples.createdB [Samples.keyA; Samples.keyB]
              eq_refl eq_refl eq_refl)
    as (_ & _ & Hh & Hc & _).
  split; [exact Hh | exact Hc].
Defined.

End ApiKeysMore.

Module SettingsMore.
Import Js Settings Shape.

(** X19: the registration number and the KYC status on the page change
    only when a load of the settings resolves, and then they are the ones
    the server sent; no edit, save, cancel or failure touches them. *)
Theorem X19_read_only_fields_change_only_by_a_load :
  forall (e : Event) (w : World),
    readOnly (settings (hooks (dispatch e w))) = readOnly (settings (hooks w)) \/
    exists (rid : nat) (data : UserSettings),
      e = Respond rid (Resolved data) /\
      pending w !! rid = Some AwaitGetSettings /\
      settings (hooks (dispatch e w)) = data.
Proof.
  intros e w.
  destruct e as [| f value | | | | rid r]; cbn [dispatch];
    try (left; reflexivity).
  - destruct (isForm (render (hooks w))); [| left; reflexivity].
    destruct f; left; reflexivity.
  - destruct (isForm (render (hooks w)) && negb (saving (hooks w)));
      left; reflexivity.
  - destruct (isForm (render (hooks w))); left; reflexivity.
  - destruct (render (hooks w)); left; reflexivity.
  - destruct (pending w !! rid) as [[|] |] eqn:Hp; [| | left; reflexivity].
    + destruct r as [data | err].
      * right. exists rid, data. split; [reflexivity | split; [exact Hp | reflexivity]].
      * left. unfold loadSettings_resume. destruct (unauthorized err); reflexivity.
    + left. destruct r; reflexivity.
Qed.

(** X20: what is typed is what is saved.  Editing a field and pressing
    Save Changes sends one update whose three fields are those on the form,
    the edited one with the value just typed; the form itself keeps showing
    them while the save is under way. *)
Theorem X20_save_sends_the_form_as_edited :
  forall (w : World) (f : Field) (value : string),
    render (hooks w) = ViewForm ->
    saving (hooks w) = false ->
    let edited := withField f value (settings (hooks w)) in
    let w' := run [Edit f value; ClickSave] w in
    newCalls w w' = [UpdateSettings (payload edited)] /\
    settings (hooks w') = edited /\
    saving (hooks w') = true /\
    readOnly edited = readOnly (settings (hooks w)) /\
    match f with
    | CompanyName => u_company_name (payload edited) = value
    | Email => u_email (payload edited) = value
    | Website => u_website (payload edited) = value
    end.
Proof.
  intros w f value Hv Hs edited w'.
  assert (H1 : dispatch (Edit f value) w =
               withHooks (fun h => setSettings (withField f value (settings h)) h) w).
  { cbn [dispatch]. rewrite Hv. reflexivity. }
  assert (Hv1 : render (hooks (dispatch (Edit f value) w)) = ViewForm).
  { rewrite H1. unfold render in *. cbn. exact Hv. }
  assert (H2 : w' = handleSave (dispatch (Edit f value) w)).
  { assert (Hs1 : saving (hooks (dispatch (Edit f value) w)) = false)
      by (rewrite H1; exact Hs).
    subst w'. cbn [run fold_left].
    generalize dependent (dispatch (Edit f value) w). intros w1 _ Hv1 Hs1.
    cbn [dispatch]. rewrite Hv1, Hs1. reflexivity. }
  rewrite H2, H1. repeat split.
  - unfold newCalls. cbn. apply drop_app_length.
  - destruct f; reflexivity.
  - destruct f; reflexivity.
Qed.

Lemma X20_witness :
  let w := run [Mount; Respond 0 (Resolved Samples.company)] Samples.freshSettings in
  let w' := run [Edit Email "billing@acme.test"; ClickSave] w in
  newCalls w w' =
    [UpdateSettings (mkUpdate "Acme" "billing@acme.test" "https://acme.test")] /\
  saving (hooks w') = true.
Proof.
  destruct (X20_save_sends_the_form_as_edited
              (run [Mount; Respond 0 (Resolved Samples.company)] Samples.freshSettings)
              Email "billing@acme.test" eq_refl eq_refl)
    as (Hc & _ & Hs & _).
  split; [exact Hc | exact Hs].
Defined.

(** X21: Cancel throws the edits away by loading again.  From the form,
    Cancel issues one fetch of the settings and shows the loading screen,
    on which nothing can be edited or saved; when the fetch resolves, the
    form is back and shows exactly what the server sent. *)
Theorem X21_cancel_reloads_and_discards_edits :
  forall (w : World) (data : UserSettings) (f : Field) (value : string),
    render (hooks w) = ViewForm ->
    let w1 := dispatch ClickCancel w in
    let w2 := dispatch (Respond (List.length (calls w)) (Resolved data)) w1 in
    newCalls w w1 = [GetSettings] /\
    render (hooks w1) = ViewLoading /\
    dispatch (Edit f value) w1 = w1 /\
    dispatch ClickSave w1 = w1 /\
    settings (hooks w2) = data /\
    render (hooks w2) = ViewForm.
Proof.
  intros w data f value Hv w1 w2.
  assert (H1 : w1 = loadSettings w).
  { subst w1. cbn [dispatch]. rewrite Hv. reflexivity. }
  assert (Hp : pending w1 !! List.length (calls w) = Some AwaitGetSettings).
  { rewrite H1. cbn. apply lookup_insert_eq. }
  assert (H2 : w2 = loadSettings_resume (Resolved data)
                      (settle (List.length (calls w)) w1)).
  { subst w2. cbn [dispatch]. rewrite Hp. reflexivity. }
  assert (Hl : render (hooks w1) = ViewLoading) by (rewrite H1; reflexivity).
  repeat split.
  - rewrite H1. unfold newCalls. cbn. apply drop_app_length.
  - exact Hl.
  - cbn [dispatch]. rewrite Hl. reflexivity.
  - cbn [dispatch]. rewrite Hl. reflexivity.
  - rewrite H2. reflexivity.
  - rewrite H2, H1. reflexivity.
Qed.

Lemma X21_witness :
  let w := run [Mount; Respond 0 (Resolved Samples.company);
                Edit CompanyName "Acme Ltd"] Samples.freshSettings in
  let w2 := run [ClickCancel; Respond 1 (Resolved Samples.company)] w in
  company_name (settings (hooks w)) = "Acme Ltd" /\
  settings (hooks w2) = Samples.company.
Proof.
  split; [reflexivity |].
  destruct (X21_cancel_reloads_and_discards_edits
              (run [Mount; Respond 0 (Resolved Samples.company);
                    Edit CompanyName "Acme Ltd"] Samples.freshSettings)
              Samples.company CompanyName "" eq_refl)
    as (_ & _ & _ & _ & Hs & _).
  exact Hs.
Defined.

Lemma saveGuard_dispatch e w : saveGuard w -> saveGuard (dispatch e w).
Proof.
  unfold saveGuard.
  destruct w as [[s l sv er] st loc t p ca].
  cbn [pending hooks saving calls]. intros G.
  assert (Hlen : forall x : Call, List.length (ca ++ [x]) = S (List.length ca))
    by (intros x; rewrite length_app; cbn; lia).
  assert (Hload : guarded saveTask
            (<[List.length ca := AwaitGetSettings]> p) sv (List.length (ca ++ [GetSettings]))).
  { rewrite Hlen. apply GuardedFacts.guarded_add_other; [reflexivity | exact G]. }
  destruct e as [| f value | | | | rid r]; cbn [dispatch hooks pending].
  - exact Hload.
  - destruct (isForm _); exact G.
  - destruct (isForm _); cbn [andb]; [| exact G].
    cbn [saving]. destruct sv; cbn [negb]; [exact G |].
    cbn. rewrite Hlen. apply GuardedFacts.guarded_press. exact G.
  - destruct (isForm _); [exact Hload | exact G].
  - destruct (render _); first [exact Hload | exact G].
  - destruct (p !! rid) as [[|] |] eqn:Hp; [| | exact G].
    + destruct r as [data | err]; unfold loadSettings_resume;
        [| destruct (unauthorized err)]; cbn;
        apply GuardedFacts.guarded_remove; exact G.
    + destruct r; cbn;
        exact (GuardedFacts.guarded_finish saveTask _ _ _ _ _ Hp eq_refl G).
Qed.

(** X22: Save Changes cannot be sent twice at once.  In every state the
    page can reach, at most one update is in flight, and none is while the
    button is enabled. *)
Theorem X22_at_most_one_save_in_flight :
  forall (es : list Event) (st : Storage) (loc : string),
    let w := run es (initial st loc) in
    (saving (hooks w) = false ->
     forall rid, pending w !! rid <> Some AwaitUpdateSettings) /\
    (forall rid1 rid2,
        pending w !! rid1 = Some AwaitUpdateSettings ->
        pending w !! rid2 = Some AwaitUpdateSettings -> rid1 = rid2).
Proof.
  intros es st loc w.
  assert (H : forall w0, saveGuard w0 -> saveGuard (run es w0)).
  { induction es as [| e es IH]; intros w0 G; [exact G |].
    cbn [run fold_left]. apply IH, saveGuard_dispatch, G. }
  destruct (H (initial st loc) (GuardedFacts.guarded_empty saveTask false))
    as (_ & Hoff & Hone).
  split.
  - intros Hs rid Hp. specialize (Hoff Hs rid _ Hp). discriminate.
  - intros rid1 rid2 H1 H2. exact (Hone _ _ _ _ H1 H2 eq_refl eq_refl).
Qed.

End SettingsMore.

Module TreasuryPageFacts.
Import Js TreasuryPage.

(** X23: the two answers of a treasury load are applied together and in
    either order.  After only one of them the page is unchanged and still
    loading; after both, whichever came first, the page shows the positions
    and the portfolio total of that load and the two orders end in the very
    same state. *)
Theorem X23_positions_and_total_are_applied_together :
  forall (w : World) (n : nat) (data : list Treasury.TreasuryPosition)
         (portfolio : Portfolio),
    joins w !! n = Some (mkJoin None None) ->
    let first := dispatch (RespondPositions n (Resolved data)) w in
    let second := dispatch (RespondPortfolio n (Resolved portfolio)) w in
    let both := dispatch (RespondPortfolio n (Resolved portfolio)) first in
    hooks first = hooks w /\
    hooks second = hooks w /\
    dispatch (RespondPositions n (Resolved data)) second = both /\
    positions (hooks both) = data /\
    totalValue (hooks both) = total_value portfolio /\
    loading (hooks both) = false /\
    joins both !! n = None.
Proof.
  intros w n data portfolio Hj first second both.
  assert (H1 : first = mkWorld (hooks w) (localStorage w) (location w)
                         (<[n := mkJoin (Some data) None]> (joins w))
                         (started w) (calls w)).
  { subst first. cbn [dispatch]. rewrite Hj. reflexivity. }
  assert (H2 : second = mkWorld (hooks w) (localStorage w) (location w)
                          (<[n := mkJoin None (Some portfolio)]> (joins w))
                          (started w) (calls w)).
  { subst second. cbn [dispatch]. rewrite Hj. reflexivity. }
  assert (Hb : both = loadTreasury_resolved data portfolio (settle n first)).
  { subst both. cbn [dispatch]. rewrite H1 at 1. cbn [joins].
    rewrite lookup_insert_eq. reflexivity. }
  assert (Hb' : dispatch (RespondPositions n (Resolved data)) second =
                loadTreasury_resolved data portfolio (settle n second)).
  { cbn [dispatch]. rewrite H2 at 1. cbn [joins].
    rewrite lookup_insert_eq. reflexivity. }
  repeat split.
  - rewrite H1. reflexivity.
  - rewrite H2. reflexivity.
  - rewrite Hb, Hb', H1, H2. unfold loadTreasury_resolved, settle, withHooks.
    cbn. rewrite !delete_insert_eq. reflexivity.
  - rewrite Hb. reflexivity.
  - rewrite Hb. reflexivity.
  - rewrite Hb. reflexivity.
  - rewrite Hb. cbn. apply lookup_delete_eq.
Qed.

Lemma X23_witness :
  let w := dispatch Mount (initial Samples.session "/dashboard/treasury") in
  let data := [Treasury.position "4%"; Treasury.position "6%"] in
  let portfolio := mkPortfolio (Treasury.ofZ 1500) in
  let both := run [RespondPortfolio 0 (Resolved portfolio);
                   RespondPositions 0 (Resolved data)] w in
  positions (hooks both) = data /\
  totalValue (hooks both) = Treasury.ofZ 1500 /\
  loading (hooks both) = false.
Proof.
  destruct (X23_positions_and_total_are_applied_together
              (dispatch Mount (initial Samples.session "/dashboard/treasury")) 0%nat
              [Treasury.position "4%"; Treasury.position "6%"]
              (mkPortfolio (Treasury.ofZ 1500)) eq_refl)
    as (_ & _ & Heq & Hp & Ht & Hl & _).
  cbv zeta. cbn [run fold_left]. rewrite Heq.
  split; [exact Hp | split; [exact Ht | exact Hl]].
Defined.

Lemma settled_ignores w n e :
  joins w !! n = None ->
  (exists r, e = RespondPositions n r) \/ (exists r, e = RespondPortfolio n r) ->
  dispatch e w = w.
Proof.
  intros Hj [[r ->] | [r ->]]; cbn [dispatch]; rewrite Hj; reflexivity.
Qed.

(** X24: the first rejection settles a treasury load.  Whichever of the
    two calls fails first, and whatever the other one has already returned,
    the positions and the total on the page stay as they were and loading
    ends; a message that is not about authorization is shown as the error,
    one that is drops the session; and whatever arrives later for that load
    is ignored. *)
Theorem X24_first_rejection_settles_the_load :
  forall (w : World) (n : nat) (j : Join) (err : Error) (e later : Event),
    joins w !! n = Some j ->
    (e = RespondPositions n (Rejected err) /\ gotPositions j = None) \/
    (e = RespondPortfolio n (Rejected err) /\ gotPortfolio j = None) ->
    (exists r, later = RespondPositions n r) \/
    (exists r, later = RespondPortfolio n r) ->
    let w' := dispatch e w in
    positions (hooks w') = positions (hooks w) /\
    totalValue (hooks w') = totalValue (hooks w) /\
    loading (hooks w') = false /\
    (if unauthorized err
     then localStorage w' = clearSession (localStorage w) /\ location w' = "/login"
     else localStorage w' = localStorage w /\
          error (hooks w') = Some (messageOr err "Failed to load treasury data")) /\
    dispatch later w' = w'.
Proof.
  intros w n [gp gf] err e later Hj He Hlater w'.
  assert (Hw : w' = loadTreasury_rejected err (settle n w)).
  { subst w'. cbn [gotPositions gotPortfolio] in He.
    destruct He as [[-> ->] | [-> ->]]; cbn [dispatch]; rewrite Hj;
      [| destruct gp]; reflexivity. }
  assert (Hgone : joins w' !! n = None).
  { rewrite Hw. unfold loadTreasury_rejected.
    destruct (unauthorized err); cbn; apply lookup_delete_eq. }
  split; [| split; [| split; [| split]]].
  - rewrite Hw. unfold loadTreasury_rejected. destruct (unauthorized err); reflexivity.
  - rewrite Hw. unfold loadTreasury_rejected. destruct (unauthorized err); reflexivity.
  - rewrite Hw. unfold loadTreasury_rejected. destruct (unauthorized err); reflexivity.
  - rewrite Hw. unfold loadTreasury_rejected.
    destruct (unauthorized err); split; reflexivity.
  - apply (settled_ignores w' n later Hgone Hlater).
Qed.

Lemma X24_witness :
  let w := run [Mount; RespondPortfolio 0 (Resolved (mkPortfolio (Treasury.ofZ 1500)))]
               (initial Samples.session "/dashboard/treasury") in
  let w' := dispatch (RespondPositions 0 (Rejected Samples.expired)) w in
  totalValue (hooks w') = Treasury.zero /\
  location w' = "/login" /\
  dispatch (RespondPositions 0 (Resolved [])) w' = w'.
Proof.
  destruct (X24_first_rejection_settles_the_load
              (run [Mount; RespondPortfolio 0 (Resolved (mkPortfolio (Treasury.ofZ 1500)))]
                   (initial Samples.session "/dashboard/treasury"))
              0%nat (mkJoin None (Some (mkPortfolio (Treasury.ofZ 1500))))
              Samples.expired
              (RespondPositions 0 (Rejected Samples.expired))
              (RespondPositions 0 (Resolved []))
              eq_refl (or_introl (conj eq_refl eq_refl))
              (or_introl (ex_intro _ _ eq_refl)))
    as (_ & Ht & _ & Hs & Hl).
  split; [exact Ht | split; [exact (proj2 Hs) | exact Hl]].
Defined.

End TreasuryPageFacts.

Module RenderingFacts.
Import Js Rendering Shape.

Lemma lowerChar_lowerChar c : lowerChar (lowerChar c) = lowerChar c.
Proof.
  destruct c as [[|] [|] [|] [|] [|] [|] [|] [|]]; reflexivity.
Qed.

Lemma toLowerCase_toLowerCase s : toLowerCase (toLowerCase s) = toLowerCase s.
Proof.
  induction s as [| c rest IH]; [reflexivity |].
  cbn [toLowerCase]. rewrite lowerChar_lowerChar, IH. reflexivity.
Qed.

(** X25: the KYC badge and the text under it disagree on letter case.  The
    badge colour depends on the status only up to case, but the paragraph
    and the Upload Documents button compare it exactly: a status that is
    "verified" in any other casing gets the green badge together with the
    contact-support text and the upload button. *)
Theorem X25_kyc_badge_ignores_case_but_text_does_not :
  forall status : string,
    getKycStatusColor (toLowerCase status) = getKycStatusColor status /\
    (kycMessage status =
       "Your account is fully verified. You have access to all features."
     <-> status = "verified") /\
    (showsUpload status = false <-> status = "verified") /\
    (toLowerCase status = "verified" -> status <> "verified" ->
     getKycStatusColor status = "bg-green-500/10 text-green-500" /\
     kycMessage status =
       "Please contact support for more information about your verification status." /\
     showsUpload status = true).
Proof.
  intros status.
  assert (Hmsg : kycMessage status =
       "Your account is fully verified. You have access to all features."
     <-> status = "verified").
  { unfold kycMessage.
    destruct (String.eqb_spec status "verified") as [-> | Hne]; [tauto |].
    destruct (String.eqb status "pending"); split; (discriminate || congruence). }
  assert (Hup : showsUpload status = false <-> status = "verified").
  { unfold showsUpload.
    destruct (String.eqb_spec status "verified") as [-> | Hne]; cbn; [tauto |].
    split; (discriminate || congruence). }
  repeat apply conj; try assumption; try tauto.
  - unfold getKycStatusColor. rewrite toLowerCase_toLowerCase. reflexivity.
  - intros Hlow Hne. repeat apply conj.
    + unfold getKycStatusColor. rewrite Hlow. reflexivity.
    + unfold kycMessage.
      destruct (String.eqb_spec status "verified") as [He | _]; [congruence |].
      destruct (String.eqb_spec status "pending") as [He | _]; [| reflexivity].
      rewrite He in Hlow. discriminate.
    + unfold showsUpload. apply negb_true_iff, String.eqb_neq. exact Hne.
Qed.

Lemma X25_witness :
  getKycStatusColor "Verified" = "bg-green-500/10 text-green-500" /\
  kycMessage "Verified" =
    "Please contact support for more information about your verification status." /\
  showsUpload "Verified" = true.
Proof.
  apply (proj2 (proj2 (proj2 (X25_kyc_badge_ignores_case_but_text_does_not "Verified")))).
  - reflexivity.
  - discriminate.
Defined.

(** X26: an amount with no number at its head is displayed as NaN before
    the currency, where an APY string of the same kind counts as 0; and a
    customer cell shows N/A exactly when the email is missing, empty, or the
    text N/A itself. *)
Theorem X26_malformed_amount_is_displayed_as_NaN :
  forall tx : Transactions.Transaction,
    (Treasury.malformed (Transactions.amount tx) = true ->
     amountCell tx = Some ("NaN " ++ Transactions.currency tx)) /\
    (customerCell tx = "N/A" <->
     Transactions.customer_email tx = None \/
     Transactions.customer_email tx = Some "" \/
     Transactions.customer_email tx = Some "N/A").
Proof.
  intros tx. split.
  - intros Hm. unfold amountCell.
    rewrite (TreasuryFacts.parseFloat_malformed _ Hm). reflexivity.
  - unfold customerCell. destruct (Transactions.customer_email tx) as [email |].
    + unfold truthy. destruct (String.eqb_spec email "") as [-> | Hne]; cbn.
      * split; auto.
      * split; [intros ->; auto |].
        intros [H | [H | H]]; congruence.
    + split; auto.
Qed.

Lemma X26_witness :
  amountCell (Transactions.mkTransaction "tx-9" "payment" "n/a" "USD" "failed"
                "2024-05-01T10:00:00Z" None)
  = Some "NaN USD".
Proof.
  apply (proj1 (X26_malformed_amount_is_displayed_as_NaN
                  (Transactions.mkTransaction "tx-9" "payment" "n/a" "USD" "failed"
                     "2024-05-01T10:00:00Z" None))).
  reflexivity.
Defined.

Lemma prefix_percent c rest :
  String.prefix "%" (String c rest) = Ascii.eqb "%" c.
Proof.
  cbn [String.prefix]. destruct (Ascii.ascii_dec "%" c) as [<- | Hne].
  - destruct rest; reflexivity.
  - symmetry. apply Ascii.eqb_neq. exact Hne.
Qed.

Lemma replace_step pattern replacement c rest :
  String.prefix pattern (String c rest) = false ->
  Treasury.replace pattern replacement (String c rest) =
  String c (Treasury.replace pattern replacement rest).
Proof. intros H. cbn [Treasury.replace]. rewrite H. reflexivity. Qed.

Lemma replace_hit pattern replacement s :
  String.prefix pattern s = true ->
  Treasury.replace pattern replacement s =
  replacement ++ String.substring (String.length pattern)
                   (String.length s - String.length pattern) s.
Proof. intros H. destruct s; cbn [Treasury.replace]; rewrite H; reflexivity. Qed.

Lemma substring_all s : String.substring 0 (String.length s) s = s.
Proof. induction s as [| c rest IH]; [reflexivity |]. cbn. rewrite IH. reflexivity. Qed.

(** X27: removing the percent sign removes the first one and nothing else:
    a string without a percent sign is left as it is, and otherwise the
    text before the first sign and all the text after it, later signs
    included, are kept. *)
Theorem X27_replace_removes_the_first_percent_sign_only :
  (forall s : string,
      includes "%" s = false -> Treasury.replace "%" "" s = s) /\
  (forall pre post : string,
      includes "%" pre = false ->
      Treasury.replace "%" "" (pre ++ "%" ++ post) = pre ++ post).
Proof.
  split.
  - induction s as [| c rest IH]; [reflexivity |].
    rewrite JsFacts.includes_step. intros H. apply orb_false_iff in H.
    destruct H as [Hp Hi]. rewrite (replace_step _ _ _ _ Hp), (IH Hi). reflexivity.
  - induction pre as [| c pre IH]; intros post Hpre.
    + change ("" ++ "%" ++ post) with (String "%" post).
      rewrite replace_hit by (rewrite prefix_percent; reflexivity).
      cbn [String.length Nat.sub String.substring append].
      rewrite Nat.sub_0_r. apply substring_all.
    + rewrite JsFacts.includes_step in Hpre. apply orb_false_iff in Hpre.
      destruct Hpre as [Hp Hi].
      change (String c pre ++ "%" ++ post) with (String c (pre ++ "%" ++ post)).
      rewrite prefix_percent in Hp.
      rewrite replace_step by (rewrite prefix_percent; exact Hp).
      rewrite (IH post Hi). reflexivity.
Qed.

Lemma X27_witness :
  Treasury.replace "%" "" "4.5" = "4.5" /\
  Treasury.replace "%" "" "4.5% (7d: 5%)" = "4.5 (7d: 5%)".
Proof.
  split.
  - apply (proj1 X27_replace_removes_the_first_percent_sign_only). reflexivity.
  - apply (proj2 X27_replace_removes_the_first_percent_sign_only "4.5" " (7d: 5%)").
    reflexivity.
Defined.

Lemma trend_checked :
  forallb (fun n => Bool.eqb (trendingUp (Treasury.position (Treasury.wholePercent n)))
                             (5 <? n)%nat)
          (seq 0 101) = true.
Proof. vm_compute. reflexivity. Qed.

(** X28: the rising arrow needs an APY strictly above 5.  A position whose
    APY string has no number at its head gets the falling arrow, and a
    whole percentage up to 100 gets the rising one exactly when it is 6 or
    more, so that 5% itself is shown as falling. *)
Theorem X28_trend_arrow_is_strictly_above_five :
  (forall p : Treasury.TreasuryPosition,
      Treasury.malformed (Treasury.replace "%" "" (Treasury.apy p)) = true ->
      trendingUp p = false) /\
  (forall (n : nat) (p : Treasury.TreasuryPosition),
      (n <= 100)%nat ->
      Treasury.apy p = Treasury.wholePercent n ->
      trendingUp p = (5 <? n)%nat).
Proof.
  split.
  - intros p Hm. unfold trendingUp, Treasury.parseAPY.
    rewrite (TreasuryFacts.parseFloat_malformed _ Hm). reflexivity.
  - intros n p Hn Hp. pose proof trend_checked as Hall.
    rewrite forallb_forall in Hall.
    specialize (Hall n (proj2 (in_seq 101 0 n) ltac:(lia))).
    apply Bool.eqb_prop in Hall. unfold trendingUp in *. rewrite Hp. exact Hall.
Qed.

Lemma X28_witness :
  trendingUp (Treasury.position "n/a") = false /\
  trendingUp (Treasury.position "5%") = false /\
  trendingUp (Treasury.position "6%") = true.
Proof.
  destruct X28_trend_arrow_is_strictly_above_five as [Hbad Hwhole].
  split; [| split].
  - apply Hbad. reflexivity.
  - apply (Hwhole 5%nat); [lia | reflexivity].
  - apply (Hwhole 6%nat); [lia | reflexivity].
Defined.

Lemma add_nan x : Treasury.add S754_nan x = S754_nan.
Proof. reflexivity. Qed.

Lemma sum_from_nan ps :
  fold_left (fun sum p => Treasury.add sum (Treasury.parseAPY (Treasury.apy p)))
            ps S754_nan = S754_nan.
Proof. induction ps as [| p ps IH]; [reflexivity | exact IH]. Qed.

Lemma add_infinity s x :
  Treasury.add (S754_infinity s) x = S754_infinity s \/
  Treasury.add (S754_infinity s) x = S754_nan.
Proof. destruct x as [sx | sx | | sx m e], s; try destruct sx; auto. Qed.

Lemma add_opposite s : Treasury.add (S754_infinity s) (S754_infinity (negb s)) = S754_nan.
Proof. destruct s; reflexivity. Qed.

Lemma sum_from_infinity s ps :
  hasInfinite (negb s) ps ->
  fold_left (fun sum p => Treasury.add sum (Treasury.parseAPY (Treasury.apy p)))
            ps (S754_infinity s) = S754_nan.
Proof.
  induction ps as [| q ps IH]; intros (p & Hin & Hp); [destruct Hin |].
  cbn [fold_left]. destruct Hin as [-> | Hin].
  - rewrite Hp, add_opposite. apply sum_from_nan.
  - destruct (add_infinity s (Treasury.parseAPY (Treasury.apy q))) as [-> | ->].
    + apply IH. exists p. auto.
    + apply sum_from_nan.
Qed.

Lemma add_bounded_infinity x s :
  finiteOrZero x -> Treasury.add x (S754_infinity s) = S754_infinity s.
Proof. destruct x; intros H; try destruct H; reflexivity. Qed.

Lemma hasInfinite_tail s q ps x :
  hasInfinite s (q :: ps) ->
  Treasury.parseAPY (Treasury.apy q) = x -> x <> S754_infinity s ->
  hasInfinite s ps.
Proof.
  intros (p & [-> | Hin] & Hp) Hq Hne; [congruence |]. exists p. auto.
Qed.

Lemma sum_from_bounded ps : forall acc,
  finiteOrZero acc -> hasInfinite false ps -> hasInfinite true ps ->
  fold_left (fun sum p => Treasury.add sum (Treasury.parseAPY (Treasury.apy p)))
            ps acc = S754_nan.
Proof.
  induction ps as [| q ps IH]; intros acc Hb Hpos Hneg.
  - destruct Hpos as (p & [] & _).
  - cbn [fold_left].
    remember (Treasury.parseAPY (Treasury.apy q)) as x eqn:Hx. symmetry in Hx.
    destruct x as [sx | sx | | sx m e].
    + destruct (Treasury.add acc (S754_zero sx)) as [sa | sa | | sa ma ea] eqn:Ha.
      * apply IH; [exact I | |]; eapply hasInfinite_tail; eauto; discriminate.
      * destruct acc; try destruct Hb; destruct sx; try destruct s; discriminate.
      * apply sum_from_nan.
      * apply IH; [exact I | |]; eapply hasInfinite_tail; eauto; discriminate.
    + rewrite (add_bounded_infinity acc sx Hb). apply sum_from_infinity.
      destruct sx; cbn [negb]; eapply hasInfinite_tail; eauto; discriminate.
    + destruct acc; try destruct Hb; cbn; apply sum_from_nan.
    + destruct (Treasury.add acc (S754_finite sx m e)) as [sa | sa | | sa ma ea] eqn:Ha.
      * apply IH; [exact I | |]; eapply hasInfinite_tail; eauto; discriminate.
      * apply sum_from_infinity.
        destruct sa; cbn [negb]; eapply hasInfinite_tail; eauto; discriminate.
      * apply sum_from_nan.
      * apply IH; [exact I | |]; eapply hasInfinite_tail; eauto; discriminate.
Qed.

(** X29: the fallback to 0 does not keep NaN off the card.  When one of
    the loaded positions has an APY that parses to Infinity and another one
    that parses to -Infinity, wherever they stand in the list, the Avg APY
    card shows NaN. *)
Theorem X29_opposite_infinities_make_the_average_NaN :
  forall ps : list Treasury.TreasuryPosition,
    hasInfinite false ps -> hasInfinite true ps ->
    Treasury.avgAPY ps = Some "NaN".
Proof.
  intros ps Hpos Hneg. unfold Treasury.avgAPY, Treasury.sumAPY.
  rewrite (sum_from_bounded ps Treasury.zero I Hpos Hneg).
  destruct ps as [| q ps]; [destruct Hpos as (p & [] & _) |]. reflexivity.
Qed.

Lemma X29_witness :
  Treasury.avgAPY [ Treasury.position "Infinity%"; Treasury.position "4%";
                    Treasury.position "-Infinity%" ] = Some "NaN".
Proof.
  apply X29_opposite_infinities_make_the_average_NaN.
  - exists (Treasury.position "Infinity%"). split; [left; reflexivity | reflexivity].
  - exists (Treasury.position "-Infinity%").
    split; [right; right; left; reflexivity | reflexivity].
Defined.

(** A no-break space in front of a number is skipped like a blank. *)
Lemma no_break_space_before_a_number_is_skipped :
  Treasury.malformed (Js.bytes [194; 160]%nat ++ "12.50") = false /\
  amountCell (Transactions.mkTransaction "tx-9" "payment"
                (Js.bytes [194; 160]%nat ++ "12.50") "USD" "settled"
                "2024-05-01T10:00:00Z" None)
  = Some "12.50 USD" /\
  trendingUp (Treasury.position (Js.bytes [194; 160]%nat ++ "6%")) = true.
Proof. repeat split; vm_compute; reflexivity. Qed.

End RenderingFacts.

(** ** The Avg APY card *)

Module AverageFacts.
Import Js Treasury Percentages.














Lemma includes_percent_cons c rest :
  includes "%" (String c rest) = Ascii.eqb "%" c || includes "%" rest.
Proof.
  rewrite JsFacts.includes_step, RenderingFacts.prefix_percent. reflexivity.
Qed.


(** The text before the first percent sign is kept as it is. *)
Lemma replace_past pre s :
  includes "%" pre = false ->
  replace "%" "" (pre ++ s) = pre ++ replace "%" "" s.
Proof.
  induction pre as [| c pre IH]; intros Hpre; [reflexivity |].
  rewrite includes_percent_cons in Hpre. apply orb_false_iff in Hpre.
  destruct Hpre as [Hc Hpre].
  change (String c pre ++ s) with (String c (pre ++ s)).
  rewrite RenderingFacts.replace_step
    by (rewrite RenderingFacts.prefix_percent; exact Hc).
  rewrite (IH Hpre). reflexivity.
Qed.


Lemma replace_none s : includes "%" s = false -> replace "%" "" s = s.
Proof.
  intros H. rewrite <- (TrimFacts.append_empty s) at 1.
  rewrite (replace_past s "" H). apply TrimFacts.append_empty.
Qed.















End AverageFacts.

(** ** The invariants at work on sample sessions *)

Module Instances.
Import Js.

Lemma X1_witness :
  unauthorized (mkError (Some "Request failed with status 401")) = true.
Proof.
  apply (proj2 (JsFacts.X1_unauthorized_is_substring_match
                  (mkError (Some "Request failed with status 401")))).
  exists "Request failed with status 401", "Request failed with status ", "".
  split; [reflexivity | left; reflexivity].
Defined.

Lemma X12_witness :
  Shape.creationTask (ApiKeys.AwaitGetApiKeys ApiKeys.Standalone) = false.
Proof.
  exact (proj1 (ApiKeysMore.X12_at_most_one_creation_in_flight
                  [ApiKeys.Mount] Samples.session "/dashboard/api-keys")
               eq_refl 0%nat (ApiKeys.AwaitGetApiKeys ApiKeys.Standalone) eq_refl).
Defined.

Lemma X13_witness :
  is_Some (ApiKeys.createdKey (ApiKeys.hooks
    (ApiKeys.run [ ApiKeys.Mount; ApiKeys.SetCreateDialogOpen true;
                   ApiKeys.TypeKeyName "Staging"; ApiKeys.ClickCreateKey;
                   ApiKeys.Respond 1 (ApiKeys.ResolvedCreated Samples.createdB) ]
                 (ApiKeys.initial Samples.session "/dashboard/api-keys")))).
Proof.
  apply (proj1 (proj1 (ApiKeysMore.X13_secret_is_held_exactly_while_reveal_is_open
                         [ ApiKeys.Mount; ApiKeys.SetCreateDialogOpen true;
                           ApiKeys.TypeKeyName "Staging"; ApiKeys.ClickCreateKey;
                           ApiKeys.Respond 1 (ApiKeys.ResolvedCreated Samples.createdB) ]
                         Samples.session "/dashboard/api-keys"))).
  reflexivity.
Defined.

Lemma X22_witness :
  Settings.pending (Settings.run [Settings.Mount] Samples.freshSettings) !! 0%nat
  <> Some Settings.AwaitUpdateSettings.
Proof.
  apply (proj1 (SettingsMore.X22_at_most_one_save_in_flight
                  [Settings.Mount] Samples.session "/dashboard/settings")).
  reflexivity.
Defined.

End Instances.
